(** * Codex-Lite: the answer pipeline and its HTTP front end

    A shallow embedding of [codex.py].  Python values are modelled the way
    the program handles them: a [str] is a sequence of Unicode code points,
    [bytes] a sequence of octets, a JSON object a finite map keyed by [str].
    The completion service, the file system and the parts of the Python
    library whose full behaviour is large ([json.loads], [int], [repr]) are
    interfaces: every property below is proved for all their instances, and
    a reference instance of each is given so that the handlers can be
    evaluated on concrete requests. *)

From Stdlib Require Import ZArith NArith List Ascii String Strings.Byte Lia.
From Stdlib Require Import Floats.SpecFloat.
From stdpp Require Import base list gmap.

Set Warnings "-register-all".

(* ================================================================== *)
(** * Python strings *)
(* ================================================================== *)

(** A Python [str]: a sequence of code points. *)
Definition str := list N.

(** A Python [bytes] object. *)
Definition bytes := list byte.

(** The code points of an ASCII literal of the source. *)
Definition lit (s : string) : str := map N_of_ascii (list_ascii_of_string s).

(** The line-feed character, written as a backslash escape in the source. *)
Definition LF : N := 10%N.

(** [sep.join(parts)] *)
Fixpoint join (sep : str) (parts : list str) : str :=
  match parts with
  | [] => []
  | [p] => p
  | p :: rest => p ++ sep ++ join sep rest
  end.

(** [c.isspace()] for one character, the table [str.strip()] consults:
    U+0009..U+000D, U+001C..U+0020, U+0085, U+00A0, U+1680,
    U+2000..U+200A, U+2028, U+2029, U+202F, U+205F, U+3000. *)
Definition isspace (c : N) : bool :=
  ((9 <=? c) && (c <=? 13) || (28 <=? c) && (c <=? 32)
   || (c =? 133) || (c =? 160) || (c =? 5760)
   || (8192 <=? c) && (c <=? 8202)
   || (c =? 8232) || (c =? 8233) || (c =? 8239) || (c =? 8287)
   || (c =? 12288))%N.

Fixpoint dropwhile {A} (f : A -> bool) (l : list A) : list A :=
  match l with
  | [] => []
  | x :: l' => if f x then dropwhile f l' else l
  end.

(** [s.lstrip()], [s.rstrip()], [s.strip()] *)
Definition lstrip (s : str) : str := dropwhile isspace s.
Definition rstrip (s : str) : str := rev (dropwhile isspace (rev s)).
Definition strip (s : str) : str := rstrip (lstrip s).

(** [s.lstrip(chars)]: drops every leading character that occurs in [chars]. *)
Definition lstrip_chars (chars s : str) : str :=
  dropwhile (fun c => existsb (N.eqb c) chars) s.

Fixpoint str_eqb (a b : str) : bool :=
  match a, b with
  | [], [] => true
  | x :: a', y :: b' => (x =? y)%N && str_eqb a' b'
  | _, _ => false
  end.

(** [s.startswith(p)] *)
Fixpoint startswith (s p : str) : bool :=
  match p, s with
  | [], _ => true
  | y :: p', x :: s' => (x =? y)%N && startswith s' p'
  | _ :: _, [] => false
  end.

(** [p in s] for strings: [p] occurs in [s] as a contiguous run. *)
Definition substring (p s : str) : Prop := exists pre post, s = pre ++ p ++ post.

(** Decimal digits of a natural number, least significant first; [fuel]
    bounds the number of digits. *)
Fixpoint digits_rev (fuel : nat) (n : N) : str :=
  match fuel with
  | O => []
  | S fuel' =>
      let d := (48 + n mod 10)%N in
      if (n <? 10)%N then [d] else d :: digits_rev fuel' (n / 10)%N
  end.

(** [str(n)] for a non-negative [int]. *)
Definition str_of_N (n : N) : str := rev (digits_rev (S (N.to_nat (N.log2 n))) n).

(** [str(len(x))] *)
Definition str_of_len {A} (l : list A) : str := str_of_N (N.of_nat (length l)).

(** The exceptions the program can meet. *)
Inductive exn :=
| JSONDecodeError
| UnicodeDecodeError
| UnicodeEncodeError
| AttributeError
| ValueError
| TypeError
| OverflowError
| RecursionError
| OSError
| RuntimeError
| APIError (detail : str).

Definition result (A : Type) : Type := (exn + A)%type.

(** The values [json.loads] can return. A [float] is an IEEE 754 binary64
    number; a [dict] keeps one value per key. *)
Inductive pyval :=
| PyNone
| PyBool (b : bool)
| PyInt (z : Z)
| PyFloat (f : spec_float)
| PyStr (s : str)
| PyList (l : list pyval)
| PyDict (d : gmap str pyval).

(** Python's [0.0] and the default temperature [0.1]. *)
Definition float_zero : spec_float := S754_zero false.
Definition float_0_1 : spec_float := S754_finite false 7205759403792794 (-56).

(* ================================================================== *)
(** * The pipeline engine *)
(* ================================================================== *)

Definition SYSTEM_PROMPT : str :=
  join [LF]
    [ lit "You are Codex-Lite, a high-signal coding assistant.";
      [];
      lit "Core behavior:";
      lit "- Prioritize correctness, then clarity, then brevity.";
      lit "- Provide complete code when asked for code.";
      lit "- Explain assumptions and call out uncertainty explicitly.";
      lit "- Include tests/checks and exact commands to validate.";
      lit "- Prefer practical, idiomatic patterns over clever tricks.";
      [];
      lit "Output format for coding tasks:";
      lit "1) Brief approach summary.";
      lit "2) Implementation (code/steps).";
      lit "3) Verification commands.";
      lit "4) Risks or edge cases." ].

(** The handle [openai.OpenAI()] returns. *)
Inductive OpenAI := OpenAIClient.

(** What [_get_openai_client] reads from the process environment. *)
Record Environ := {
  OPENAI_API_KEY : option str;       (* os.getenv("OPENAI_API_KEY") *)
  openai_installed : bool;           (* importlib.util.find_spec("openai") is not None *)
  openai_OpenAI : result OpenAI      (* outcome of import_module("openai") and then OpenAI() *)
}.

Definition _get_openai_client (env : Environ) : result (option OpenAI) :=
  match OPENAI_API_KEY env with
  | None | Some [] => inr None
  | Some (_ :: _) =>
      if negb (openai_installed env) then inr None
      else match openai_OpenAI env with
           | inl e => inl e
           | inr c => inr (Some c)
           end
  end.

Record LiteConfig := {
  model : str;
  temperature : spec_float;
  max_tokens : Z;
  planning_tokens : Z;
  critique_tokens : Z
}.

Definition LiteConfig_default : LiteConfig :=
  {| model := lit "gpt-4o-mini"; temperature := float_0_1;
     max_tokens := 900; planning_tokens := 280; critique_tokens := 280 |}.

Record CodexLite := {
  config : LiteConfig;
  client : option OpenAI
}.

(** [CodexLite.__init__] *)
Definition CodexLite_init (cfg : LiteConfig) (env : Environ) : result CodexLite :=
  match _get_openai_client env with
  | inl e => inl e
  | inr c => inr {| config := cfg; client := c |}
  end.

Inductive Role := system | user.

Record Message := { role : Role; content : str }.

(** The keyword arguments of one [client.responses.create] call. *)
Record CreateArgs := {
  kw_model : str;
  kw_temperature : spec_float;
  kw_max_output_tokens : Z;
  kw_input : list Message
}.

(** The part of the service's reply the program reads. *)
Record Response := { output_text : str }.

(** A computation that may call the completion service.  A call that
    raises ends the computation: the program has no handler around it. *)
Inductive prog (A : Type) : Type :=
| Ret (a : A)
| Create (kw : CreateArgs) (k : Response -> prog A).
Arguments Ret {A} a.
Arguments Create {A} kw k.

Definition _offline_answer (user_input : str) : str :=
  join [LF]
    [ lit "Offline mode (no OpenAI SDK and/or OPENAI_API_KEY).";
      [];
      lit "Approach summary:";
      lit "- I will still optimize for coding quality by using a strict response scaffold.";
      [];
      lit "Implementation:";
      lit "- Restate request: " ++ user_input;
      lit "- Break work into: requirements -> design -> implementation -> tests.";
      lit "- Produce minimal, runnable code and avoid hidden assumptions.";
      [];
      lit "Verification commands:";
      lit "- Run formatter/linter for your language (e.g., ruff, black, eslint, gofmt).";
      lit "- Run unit tests and a focused smoke test of the changed behavior.";
      [];
      lit "Risks or edge cases:";
      lit "- Missing constraints (runtime, framework, API shape) can cause wrong choices.";
      lit "- If you share those constraints, I can return a concrete production-ready patch." ].

Definition answer (self : CodexLite) (user_input : str) : prog str :=
  match client self with
  | None => Ret (_offline_answer user_input)
  | Some _ =>
    Create
      {| kw_model := model (config self);
         kw_temperature := temperature (config self);
         kw_max_output_tokens := planning_tokens (config self);
         kw_input :=
           [ {| role := system; content := SYSTEM_PROMPT |};
             {| role := user;
                content :=
                  lit "Create a concise implementation plan for this coding request. "
                  ++ lit "Include assumptions, test strategy, and likely edge cases."
                  ++ [LF; LF]
                  ++ lit "Request: " ++ user_input |} ] |}
      (fun plan =>
    Create
      {| kw_model := model (config self);
         kw_temperature := temperature (config self);
         kw_max_output_tokens := max_tokens (config self);
         kw_input :=
           [ {| role := system; content := SYSTEM_PROMPT |};
             {| role := user;
                content :=
                  lit "User request: " ++ user_input ++ [LF; LF]
                  ++ lit "Implementation plan: " ++ output_text plan ++ [LF; LF]
                  ++ lit "Write the best possible answer for a coding user." |} ] |}
      (fun draft =>
    Create
      {| kw_model := model (config self);
         kw_temperature := float_zero;
         kw_max_output_tokens := critique_tokens (config self);
         kw_input :=
           [ {| role := system; content := SYSTEM_PROMPT |};
             {| role := user;
                content :=
                  lit "Critique the draft answer for correctness, omissions, weak tests, "
                  ++ lit "and unclear assumptions. Return only actionable improvements."
                  ++ [LF; LF]
                  ++ lit "User request: " ++ user_input ++ [LF; LF]
                  ++ lit "Draft answer: " ++ output_text draft |} ] |}
      (fun critique =>
    Create
      {| kw_model := model (config self);
         kw_temperature := temperature (config self);
         kw_max_output_tokens := max_tokens (config self);
         kw_input :=
           [ {| role := system; content := SYSTEM_PROMPT |};
             {| role := user;
                content :=
                  lit "User request: " ++ user_input ++ [LF; LF]
                  ++ lit "Plan: " ++ output_text plan ++ [LF; LF]
                  ++ lit "Draft: " ++ output_text draft ++ [LF; LF]
                  ++ lit "Critique: " ++ output_text critique ++ [LF; LF]
                  ++ lit "Produce the improved final answer, incorporating critique fixes." |} ] |}
      (fun final => Ret (output_text final)))))
  end.

(** The completion service behind the client: each call sees the state
    the earlier calls left and either raises or replies. *)
Class Service := {
  svc_state : Type;
  responses_create : svc_state -> CreateArgs -> result Response * svc_state
}.

(** One call as it happened: its arguments and its outcome. *)
Definition call : Type := (CreateArgs * result Response)%type.

(** Running a computation against the service, recording the calls in the
    order they are issued. *)
Fixpoint run `{Service} {A} (p : prog A) (s : svc_state)
  : list call * result A * svc_state :=
  match p with
  | Ret a => ([], inr a, s)
  | Create kw k =>
      match responses_create s kw with
      | (inl e, s1) => ([(kw, inl e)], inl e, s1)
      | (inr r, s1) =>
          let '(log, res, s2) := run (k r) s1 in
          ((kw, inr r) :: log, res, s2)
      end
  end.

(** The text of the last message of a call: the prompt of the stage. *)
Definition user_message (kw : CreateArgs) : str :=
  match last (kw_input kw) with
  | Some m => content m
  | None => []
  end.

(** A reference service: replies with the last message it was sent, and
    counts the calls it served. *)
#[local] Instance echo_service : Service := {|
  svc_state := nat;
  responses_create := fun n kw =>
    (inr {| output_text := user_message kw |}, S n)
|}.

(** A reference service on which the call number [n] (from 0) fails. *)
Definition failing_service (n : nat) : Service := {|
  svc_state := nat;
  responses_create := fun i kw =>
    (if Nat.eqb i n then inl (APIError (lit "upstream failure"))
     else inr {| output_text := lit "ok" |}, S i)
|}.

(* ================================================================== *)
(** * JSON and UTF-8 encoding *)
(* ================================================================== *)

Definition octet (n : N) : byte :=
  match Byte.of_N (n mod 256) with Some b => b | None => x00 end.

(** The UTF-8 encoding of one code point; a surrogate cannot be encoded. *)
Definition utf8_char (c : N) : result bytes :=
  (if c <? 128 then inr [octet c]
   else if c <? 2048 then inr [octet (192 + c / 64); octet (128 + c mod 64)]
   else if (55296 <=? c) && (c <=? 57343) then inl UnicodeEncodeError
   else if c <? 65536 then
     inr [octet (224 + c / 4096); octet (128 + c / 64 mod 64); octet (128 + c mod 64)]
   else if c <? 1114112 then
     inr [octet (240 + c / 262144); octet (128 + c / 4096 mod 64);
          octet (128 + c / 64 mod 64); octet (128 + c mod 64)]
   else inl UnicodeEncodeError)%N.

(** [s.encode("utf-8")] *)
Fixpoint encode_utf8 (s : str) : result bytes :=
  match s with
  | [] => inr []
  | c :: s' =>
      match utf8_char c, encode_utf8 s' with
      | inr b, inr bs => inr (b ++ bs)
      | inl e, _ => inl e
      | _, inl e => inl e
      end
  end.

Definition hex_digit (n : N) : N := (if n <? 10 then 48 + n else 87 + n)%N.

(** ['\\u{0:04x}'.format(n)] *)
Definition u_escape (n : N) : str :=
  [92; 117; hex_digit (n / 4096 mod 16); hex_digit (n / 256 mod 16);
   hex_digit (n / 16 mod 16); hex_digit (n mod 16)]%N.

(** The replacement [json.dumps] makes for one character under its default
    [ensure_ascii=True]: printable ASCII stays, except the quote and the
    backslash; the rest is written as an escape. *)
Definition escape_char (c : N) : str :=
  (if c =? 34 then [92; 34]
   else if c =? 92 then [92; 92]
   else if (32 <=? c) && (c <=? 126) then [c]
   else if c =? 8 then [92; 98]
   else if c =? 12 then [92; 102]
   else if c =? 10 then [92; 110]
   else if c =? 13 then [92; 114]
   else if c =? 9 then [92; 116]
   else if c <? 65536 then u_escape c
   else
     let n := c - 65536 in
     u_escape (N.lor 55296 (N.land (N.shiftr n 10) 1023))
     ++ u_escape (N.lor 56320 (N.land n 1023)))%N.

Definition encode_basestring_ascii (s : str) : str :=
  [34%N] ++ concat (map escape_char s) ++ [34%N].

(** The payloads the handler sends: a [dict] literal from [str] to [str],
    in the order its items are written. *)
Definition payload : Type := list (str * str).

(** [json.dumps(payload)] *)
Definition json_dumps (p : payload) : str :=
  lit "{"
  ++ join (lit ", ")
       (map (fun kv => encode_basestring_ascii (fst kv) ++ lit ": "
                       ++ encode_basestring_ascii (snd kv)) p)
  ++ lit "}".

(* ================================================================== *)
(** * Paths *)
(* ================================================================== *)

(** An absolute POSIX path as [pathlib] holds it: the anchor (one slash,
    or exactly two) and the components below it. *)
Record Path := { dslash : bool; parts : list str }.

Definition parts_eqb (a b : list str) : bool :=
  (length a =? length b) && forallb (fun xy => str_eqb (fst xy) (snd xy)) (combine a b).

Definition Path_eqb (p q : Path) : bool :=
  Bool.eqb (dslash p) (dslash q) && parts_eqb (parts p) (parts q).

(** [s.split("/")] *)
Fixpoint split_slash (s : str) : list str :=
  match s with
  | [] => [[]]
  | c :: s' =>
      if (c =? 47)%N then [] :: split_slash s'
      else match split_slash s' with
           | w :: ws => (c :: w) :: ws
           | [] => [[c]]
           end
  end.

(** The components [pathlib] keeps of a path text: empty ones and single
    dots are dropped, double dots stay. *)
Definition parse_parts (s : str) : list str :=
  List.filter (fun c => negb (str_eqb c [] || str_eqb c (lit "."))) (split_slash s).

(** [base / rel]: an absolute [rel] replaces [base]. *)
Definition truediv (base : Path) (rel : str) : Path :=
  match rel with
  | 47 :: 47 :: 47 :: _ => {| dslash := false; parts := parse_parts rel |}
  | 47 :: 47 :: _ => {| dslash := true; parts := parse_parts rel |}
  | 47 :: _ => {| dslash := false; parts := parse_parts rel |}
  | _ => {| dslash := dslash base; parts := parts base ++ parse_parts rel |}
  end%N.

(** The proper prefixes of a component list, longest first. *)
Fixpoint proper_prefixes (l : list str) : list (list str) :=
  match l with
  | [] => []
  | x :: l' => map (cons x) (proper_prefixes l') ++ [[]]
  end.

(** [p.parents] *)
Definition parents (p : Path) : list Path :=
  map (fun l => {| dslash := dslash p; parts := l |}) (proper_prefixes (parts p)).

(** [p.name] *)
Definition name (p : Path) : str :=
  match last (parts p) with Some n => n | None => [] end.

(** [s.rfind(".")], counted from the left. *)
Fixpoint rfind_dot (s : str) : option nat :=
  match s with
  | [] => None
  | c :: s' =>
      match rfind_dot s' with
      | Some i => Some (S i)
      | None => if (c =? 46)%N then Some 0 else None
      end
  end.

(** [p.suffix]: the last dot of the name and what follows it, unless that
    dot opens or closes the name. *)
Definition suffix (p : Path) : str :=
  let n := name p in
  match rfind_dot n with
  | Some i => if (0 <? i) && (i <? length n - 1) then drop i n else []
  | None => []
  end.

(** Resolution where no component is a symbolic link: a double dot drops
    the component before it and is void at the anchor. *)
Definition normparts (l : list str) : list str :=
  rev (fold_left (fun stk c => if str_eqb c (lit "..") then tail stk else c :: stk) l []).

Definition normpath (p : Path) : Path :=
  {| dslash := dslash p; parts := normparts (parts p) |}.

(** The file system as the handler consults it.  [module_dir] is
    [Path(__file__).resolve().parent].  Each of [resolve()], [exists()],
    [is_dir()] and [read_bytes()] can raise: [exists()] and [is_dir()]
    answer [False] where the path is missing, and raise every other error
    of the system, such as the one for a name that is too long. *)
Class FileSystem := {
  module_dir : Path;
  fs_resolve : Path -> result Path;
  fs_exists : Path -> result bool;
  fs_is_dir : Path -> result bool;
  fs_read_bytes : Path -> result bytes
}.

(** The Python library functions the handler calls and this development
    does not define: [json.loads(b.decode("utf-8"))], [int(s)] and
    [repr(v)]. *)
Class PyLib := {
  json_loads : bytes -> result pyval;
  py_int : str -> result Z;
  py_repr : pyval -> str
}.

(** [str(v)] *)
Definition py_str `{PyLib} (v : pyval) : str :=
  match v with
  | PyStr s => s
  | _ => py_repr v
  end.

(** [payload.get(key, default)]: only a [dict] has the attribute. *)
Definition py_get (v : pyval) (key : str) (fallback : pyval) : result pyval :=
  match v with
  | PyDict d => inr (default fallback (d !! key))
  | _ => inl AttributeError
  end.

(* ================================================================== *)
(** * The request handler *)
(* ================================================================== *)

Definition OK : Z := 200.
Definition BAD_REQUEST : Z := 400.
Definition FORBIDDEN : Z := 403.
Definition NOT_FOUND : Z := 404.
Definition INTERNAL_SERVER_ERROR : Z := 500.

(** What a handler does to the outside, in order. *)
Inductive event :=
| send_response (status : Z)
| send_header (keyword value : str)
| end_headers
| wfile_write (body : bytes)
| send_error (code : Z) (message : str)
| rfile_read (n : Z)
| path_resolve (p : Path)
| path_exists (p : Path)
| path_is_dir (p : Path)
| path_read_bytes (p : Path)
| responses_create_call (c : call).

(** A handler step: the events it produced and its value, or the
    exception that ended it. *)
Definition W (A : Type) : Type := (list event * result A)%type.

Definition ret {A} (a : A) : W A := ([], inr a).
Definition raise {A} (e : exn) : W A := ([], inl e).
Definition emit (ev : event) : W unit := ([ev], inr tt).
Definition bind {A B} (m : W A) (k : A -> W B) : W B :=
  match m with
  | (t, inl e) => (t, inl e)
  | (t, inr a) => let '(t', r) := k a in (t ++ t', r)
  end.
Definition observe {A} (ev : event) (r : result A) : W A := ([ev], r).

Notation "'do' x <- m ; k" := (bind m (fun x => k))
  (at level 10, x name, m at level 100, k at level 200, only parsing).

Definition _send_json (p : payload) (status : Z) : W unit :=
  do body <- (([], encode_utf8 (json_dumps p)) : W bytes) ;
  do _ <- emit (send_response status) ;
  do _ <- emit (send_header (lit "Content-Type") (lit "application/json; charset=utf-8")) ;
  do _ <- emit (send_header (lit "Content-Length") (str_of_len body)) ;
  do _ <- emit end_headers ;
  emit (wfile_write body).

Section StaticFiles.
Context `{FileSystem}.

Definition WEB_DIR : Path := truediv module_dir (lit "web").

Definition _serve_file (relative_path : str) : W unit :=
  do safe_path <- observe (path_resolve (truediv WEB_DIR relative_path))
                          (fs_resolve (truediv WEB_DIR relative_path)) ;
  if negb (existsb (Path_eqb WEB_DIR) (parents safe_path))
     && negb (Path_eqb safe_path WEB_DIR)
  then emit (send_error FORBIDDEN (lit "Forbidden"))
  else
    do missing <- (do ex <- observe (path_exists safe_path) (fs_exists safe_path) ;
                   if negb ex then ret true
                   else observe (path_is_dir safe_path) (fs_is_dir safe_path)) ;
    if (missing : bool) then emit (send_error NOT_FOUND (lit "Not Found"))
    else
      let content_type :=
        if str_eqb (suffix safe_path) (lit ".html") then lit "text/html; charset=utf-8"
        else if str_eqb (suffix safe_path) (lit ".css") then lit "text/css; charset=utf-8"
        else if str_eqb (suffix safe_path) (lit ".js")
             then lit "application/javascript; charset=utf-8"
        else lit "text/plain; charset=utf-8" in
      do body <- observe (path_read_bytes safe_path) (fs_read_bytes safe_path) ;
      do _ <- emit (send_response OK) ;
      do _ <- emit (send_header (lit "Content-Type") content_type) ;
      do _ <- emit (send_header (lit "Content-Length") (str_of_len body)) ;
      do _ <- emit end_headers ;
      emit (wfile_write body).

Definition do_GET (path : str) : W unit :=
  if str_eqb path (lit "/") || str_eqb path (lit "/index.html")
  then _serve_file (lit "index.html")
  else if startswith path (lit "/assets/")
  then _serve_file (lstrip_chars (lit "/") path)
  else emit (send_error NOT_FOUND (lit "Not Found")).
End StaticFiles.

(** One POST request as the handler sees it: the request path, the value
    of the Content-Length header if there is one, and the bytes the
    connection delivers before it ends. *)
Record Request := {
  path : str;
  content_length : option str;
  rfile : bytes
}.

(** [rfile.read(n)] on the buffered reader: a number that does not fit
    the signed machine word (64 bits) overflows, [-1] reads to the end,
    and a smaller number is refused. *)
Definition rfile_read_result (stream : bytes) (n : Z) : result bytes :=
  if ((n <? - 2 ^ 63) || (2 ^ 63 <=? n))%Z then inl OverflowError
  else if (n <? -1)%Z then inl ValueError
  else if (n =? -1)%Z then inr stream
  else inr (take (Z.to_nat n) stream).

Section Ask.
Context `{PyLib} `{Service}.

(** The handler class attribute [assistant]. *)
Definition Handler : Type := option CodexLite.

(** A handler step that may also call the completion service. *)
Definition M (A : Type) : Type := svc_state -> W A * svc_state.

Definition liftW {A} (m : W A) : M A := fun s => (m, s).
Definition bindM {A B} (m : M A) (k : A -> M B) : M B :=
  fun s =>
    match m s with
    | ((t, inl e), s1) => ((t, inl e), s1)
    | ((t, inr a), s1) =>
        let '((t', r), s2) := k a s1 in ((t ++ t', r), s2)
    end.

(** Running an engine computation inside a handler. *)
Definition engine {A} (p : prog A) : M A :=
  fun s => let '(log, r, s') := run p s in ((map responses_create_call log, r), s').

Definition do_POST (assistant : Handler) (req : Request) : M unit :=
  if negb (str_eqb (path req) (lit "/api/ask"))
  then liftW (emit (send_error NOT_FOUND (lit "Not Found")))
  else
    match assistant with
    | None =>
        liftW (_send_json [(lit "error", lit "assistant not configured")]
                          INTERNAL_SERVER_ERROR)
    | Some a =>
        bindM (liftW (([], py_int (default (lit "0") (content_length req))) : W Z))
          (fun length =>
        bindM (liftW (observe (rfile_read length) (rfile_read_result (rfile req) length)))
          (fun raw_body =>
        match json_loads raw_body with
        | inl JSONDecodeError =>
            liftW (_send_json [(lit "error", lit "invalid JSON body")] BAD_REQUEST)
        | inl e => liftW (raise e)
        | inr payload =>
            bindM (liftW (([], py_get payload (lit "prompt") (PyStr [])) : W pyval))
              (fun v =>
            let prompt := strip (py_str v) in
            match prompt with
            | [] => liftW (_send_json [(lit "error", lit "prompt is required")] BAD_REQUEST)
            | _ :: _ =>
                bindM (engine (answer a prompt))
                  (fun answer => liftW (_send_json [(lit "answer", answer)] OK))
            end)
        end))
    end.
End Ask.

(** Every character of [s] is in the ASCII range. *)
Definition ascii (s : str) : Prop := Forall (fun c => c < 128)%N s.

(** The events of a complete JSON response with the given body. *)
Definition json_response (status : Z) (body : bytes) : list event :=
  [ send_response status;
    send_header (lit "Content-Type") (lit "application/json; charset=utf-8");
    send_header (lit "Content-Length") (str_of_len body);
    end_headers;
    wfile_write body ].

(** The number a string of decimal digits denotes. *)
Definition decimal_value (ds : str) : N :=
  fold_left (fun acc d => acc * 10 + (d - 48))%N ds 0%N.

Definition is_decimal (ds : str) : Prop :=
  ds <> [] /\ Forall (fun d => 48 <= d <= 57)%N ds.

(** [p] is [root] itself or lies below it. *)
Definition within (root p : Path) : Prop :=
  dslash p = dslash root /\ exists rest, parts p = parts root ++ rest.

Definition is_dict (v : pyval) : bool :=
  match v with PyDict _ => true | _ => false end.

(** The request is for [/api/ask], its Content-Length is read as the
    integer [n], and reading [n] bytes gives [raw]. *)
Definition reads_body `{PyLib} (req : Request) (n : Z) (raw : bytes) : Prop :=
  path req = lit "/api/ask"
  /\ py_int (default (lit "0") (content_length req)) = inr n
  /\ rfile_read_result (rfile req) n = inr raw.

(** The prompt the handler extracts from a [dict] payload: the value
    under the key, or the empty string, coerced to [str] and stripped. *)
Definition prompt_of `{PyLib} (d : gmap str pyval) : str :=
  strip (py_str (default (PyStr []) (d !! lit "prompt"))).

(** The status lines a trace sent, through [send_response] or [send_error]. *)
Definition statuses (t : list event) : list Z :=
  omap (fun ev => match ev with
                  | send_response st => Some st
                  | send_error st _ => Some st
                  | _ => None
                  end) t.

(** The completion calls in a trace. *)
Definition engine_calls (t : list event) : list call :=
  omap (fun ev => match ev with responses_create_call c => Some c | _ => None end) t.

(** The file accesses after resolution in a trace. *)
Definition file_accesses (t : list event) : list event :=
  List.filter (fun ev => match ev with
                    | path_exists _ | path_is_dir _ | path_read_bytes _ => true
                    | _ => false
                    end) t.

(* ================================================================== *)
(** * Reference instances *)
(* ================================================================== *)

(** The instances below make the handlers computable on concrete
    requests.  The properties of the handlers hold for every instance;
    the reference parser also serves to read a response body back. *)

Definition obind {A B} (m : result A) (k : A -> result B) : result B :=
  match m with inl e => inl e | inr a => k a end.

Definition is_cont (b : N) : bool := ((128 <=? b) && (b <=? 191))%N.

Definition push (c : N) (r : result str) : result str :=
  match r with inl e => inl e | inr s => inr (c :: s) end.

(** Strict UTF-8 decoding of a sequence of octets: no overlong form, no
    surrogate, nothing above U+10FFFF. *)
Fixpoint decode_utf8 (b : list N) : result str :=
  match b with
  | [] => inr []
  | b0 :: r0 =>
      (if b0 <? 128 then push b0 (decode_utf8 r0)
       else if b0 <? 194 then inl UnicodeDecodeError
       else if b0 <? 224 then
         match r0 with
         | b1 :: r1 =>
             if is_cont b1 then push ((b0 - 192) * 64 + (b1 - 128)) (decode_utf8 r1)
             else inl UnicodeDecodeError
         | _ => inl UnicodeDecodeError
         end
       else if b0 <? 240 then
         match r0 with
         | b1 :: b2 :: r2 =>
             let c := (b0 - 224) * 4096 + (b1 - 128) * 64 + (b2 - 128) in
             if is_cont b1 && is_cont b2 && (2048 <=? c)
                && negb ((55296 <=? c) && (c <=? 57343))
             then push c (decode_utf8 r2) else inl UnicodeDecodeError
         | _ => inl UnicodeDecodeError
         end
       else if b0 <? 245 then
         match r0 with
         | b1 :: b2 :: b3 :: r3 =>
             let c := (b0 - 240) * 262144 + (b1 - 128) * 4096
                      + (b2 - 128) * 64 + (b3 - 128) in
             if is_cont b1 && is_cont b2 && is_cont b3
                && (65536 <=? c) && (c <? 1114112)
             then push c (decode_utf8 r3) else inl UnicodeDecodeError
         | _ => inl UnicodeDecodeError
         end
       else inl UnicodeDecodeError)%N
  end.

Definition is_digit (c : N) : bool := ((48 <=? c) && (c <=? 57))%N.

Definition is_json_ws (c : N) : bool :=
  ((c =? 32) || (c =? 9) || (c =? 10) || (c =? 13))%N.

Definition skip_ws (s : str) : str := dropwhile is_json_ws s.

Fixpoint takewhile {A} (f : A -> bool) (l : list A) : list A :=
  match l with
  | x :: l' => if f x then x :: takewhile f l' else []
  | [] => []
  end.

Definition hex_val (c : N) : option N :=
  (if is_digit c then Some (c - 48)
   else if (97 <=? c) && (c <=? 102) then Some (c - 87)
   else if (65 <=? c) && (c <=? 70) then Some (c - 55)
   else None)%N.

Definition hex4 (a b c d : N) : option N :=
  match hex_val a, hex_val b, hex_val c, hex_val d with
  | Some x, Some y, Some z, Some w => Some (x * 4096 + y * 256 + z * 16 + w)%N
  | _, _, _, _ => None
  end.

(** The body of a JSON string, read from just after its opening quote:
    the decoded text and what follows the closing quote. *)
Fixpoint scanstring (s : str) : result (str * str) :=
  let cons_to c r := obind r (fun '(t, rest) => inr (c :: t, rest)) in
  match s with
  | [] => inl JSONDecodeError
  | c :: r =>
      (if c =? 34 then inr ([], r)
       else if c =? 92 then
         match r with
         | [] => inl JSONDecodeError
         | e :: r' =>
             if e =? 117 then
               match r' with
               | h1 :: h2 :: h3 :: h4 :: r4 =>
                   match hex4 h1 h2 h3 h4 with
                   | None => inl JSONDecodeError
                   | Some uni =>
                       if (55296 <=? uni) && (uni <=? 56319) then
                         match r4 with
                         | 92 :: 117 :: r6 =>
                             match r6 with
                             | g1 :: g2 :: g3 :: g4 :: r10 =>
                                 match hex4 g1 g2 g3 g4 with
                                 | None => inl JSONDecodeError
                                 | Some uni2 =>
                                     if (56320 <=? uni2) && (uni2 <=? 57343) then
                                       cons_to (65536 + (uni - 55296) * 1024 + (uni2 - 56320))
                                               (scanstring r10)
                                     else cons_to uni (scanstring r4)
                                 end
                             | _ => inl JSONDecodeError
                             end
                         | _ => cons_to uni (scanstring r4)
                         end
                       else cons_to uni (scanstring r4)
                   end
               | _ => inl JSONDecodeError
               end
             else if e =? 34 then cons_to 34 (scanstring r')
             else if e =? 92 then cons_to 92 (scanstring r')
             else if e =? 47 then cons_to 47 (scanstring r')
             else if e =? 98 then cons_to 8 (scanstring r')
             else if e =? 102 then cons_to 12 (scanstring r')
             else if e =? 110 then cons_to 10 (scanstring r')
             else if e =? 114 then cons_to 13 (scanstring r')
             else if e =? 116 then cons_to 9 (scanstring r')
             else inl JSONDecodeError
         end
       else if c <? 32 then inl JSONDecodeError
       else cons_to c (scanstring r))%N
  end.

Definition digits_value (ds : str) : Z :=
  fold_left (fun acc d => acc * 10 + Z.of_N (d - 48))%Z ds 0%Z.

(** The binary64 number nearest to [m * 10^e], ties to even. *)
Definition float_of_decimal (neg : bool) (m : Z) (e : Z) : spec_float :=
  match m with
  | Zpos mp =>
      match e with
      | Zneg ep => SFdiv 53 1024 (S754_finite neg mp 0) (S754_finite false (10 ^ ep) 0)
      | Z0 => SFdiv 53 1024 (S754_finite neg mp 0) (S754_finite false 1 0)
      | Zpos ep => SFdiv 53 1024 (S754_finite neg (mp * 10 ^ ep) 0) (S754_finite false 1 0)
      end
  | _ => S754_zero neg
  end.

(** A JSON number at the head of [s], if there is one: an integer part,
    then a fraction and an exponent where they are complete. *)
Definition scan_number (s : str) : option (pyval * str) :=
  let '(neg, s1) := match s with
                    | 45%N :: r => (true, r)
                    | _ => (false, s)
                    end in
  let int_digits := match s1 with
                    | 48%N :: _ => [48%N]
                    | d :: _ => if is_digit d then takewhile is_digit s1 else []
                    | [] => []
                    end in
  match int_digits with
  | [] => None
  | _ :: _ =>
      let s2 := drop (length int_digits) s1 in
      let frac := match s2 with
                  | 46%N :: r => takewhile is_digit r
                  | _ => []
                  end in
      let s3 := match frac with [] => s2 | _ :: _ => drop (S (length frac)) s2 end in
      let '(has_exp, exp, s4) :=
        match s3 with
        | c :: r =>
            if ((c =? 101) || (c =? 69))%N then
              let '(eneg, r1) := match r with
                                 | 45%N :: r' => (true, r')
                                 | 43%N :: r' => (false, r')
                                 | _ => (false, r)
                                 end in
              match takewhile is_digit r1 with
              | [] => (false, 0%Z, s3)
              | ds => (true, (if eneg then - digits_value ds else digits_value ds)%Z,
                       drop (length ds) r1)
              end
            else (false, 0%Z, s3)
        | [] => (false, 0%Z, s3)
        end in
      match frac, has_exp with
      | [], false =>
          Some (PyInt (if neg then - digits_value int_digits
                       else digits_value int_digits)%Z, s4)
      | _, _ =>
          Some (PyFloat (float_of_decimal neg (digits_value (int_digits ++ frac))
                                          (exp - Z.of_nat (length frac))), s4)
      end
  end.

(** One JSON value at the head of [s], with the rest of the text.  The
    fuel bounds the nesting; Python's own limit on the depth is not
    modelled. *)
Fixpoint scan_once (fuel : nat) (s : str) : result (pyval * str) :=
  match fuel with
  | O => inl RecursionError
  | S fuel' =>
      match s with
      | 34%N :: r => obind (scanstring r) (fun '(t, rest) => inr (PyStr t, rest))
      | 123%N :: r =>
          match skip_ws r with
          | 125%N :: rest => inr (PyDict ∅, rest)
          | 34%N :: rest => scan_members fuel' rest ∅
          | _ => inl JSONDecodeError
          end
      | 91%N :: r =>
          match skip_ws r with
          | 93%N :: rest => inr (PyList [], rest)
          | r1 => scan_items fuel' r1 []
          end
      | _ =>
          if startswith s (lit "null") then inr (PyNone, drop 4 s)
          else if startswith s (lit "true") then inr (PyBool true, drop 4 s)
          else if startswith s (lit "false") then inr (PyBool false, drop 5 s)
          else match scan_number s with
               | Some r => inr r
               | None =>
                   if startswith s (lit "NaN") then inr (PyFloat S754_nan, drop 3 s)
                   else if startswith s (lit "Infinity")
                   then inr (PyFloat (S754_infinity false), drop 8 s)
                   else if startswith s (lit "-Infinity")
                   then inr (PyFloat (S754_infinity true), drop 9 s)
                   else inl JSONDecodeError
               end
      end
  end
with scan_members (fuel : nat) (s : str) (acc : gmap str pyval) : result (pyval * str) :=
  match fuel with
  | O => inl RecursionError
  | S fuel' =>
      obind (scanstring s) (fun '(key, r) =>
      match skip_ws r with
      | 58%N :: r1 =>
          obind (scan_once fuel' (skip_ws r1)) (fun '(v, r2) =>
          let acc' := <[key := v]> acc in
          match skip_ws r2 with
          | 125%N :: rest => inr (PyDict acc', rest)
          | 44%N :: r3 =>
              match skip_ws r3 with
              | 34%N :: r4 => scan_members fuel' r4 acc'
              | _ => inl JSONDecodeError
              end
          | _ => inl JSONDecodeError
          end)
      | _ => inl JSONDecodeError
      end)
  end
with scan_items (fuel : nat) (s : str) (acc : list pyval) : result (pyval * str) :=
  match fuel with
  | O => inl RecursionError
  | S fuel' =>
      obind (scan_once fuel' s) (fun '(v, r) =>
      match skip_ws r with
      | 93%N :: rest => inr (PyList (rev (v :: acc)), rest)
      | 44%N :: r1 => scan_items fuel' (skip_ws r1) (v :: acc)
      | _ => inl JSONDecodeError
      end)
  end.

(** [json.loads(s)] for a [str]: one value, white space around it, and
    nothing else; a leading byte-order mark is refused.  The
    interpreter's limit on the number of digits of an integer is not
    part of this reference. *)
Definition loads_str (s : str) : result pyval :=
  match s with
  | 65279%N :: _ => inl JSONDecodeError
  | _ =>
      obind (scan_once (2 * length s + 2) (skip_ws s)) (fun '(v, r) =>
      match skip_ws r with
      | [] => inr v
      | _ :: _ => inl JSONDecodeError
      end)
  end.

(** [json.loads(b.decode("utf-8"))] *)
Definition loads_bytes (b : bytes) : result pyval :=
  obind (decode_utf8 (map Byte.to_N b)) loads_str.

(** The digits of a decimal literal, single underscores allowed between
    digits. *)
Fixpoint int_digits (acc : Z) (after_digit : bool) (s : str) : option Z :=
  match s with
  | [] => if after_digit then Some acc else None
  | c :: r =>
      if is_digit c then int_digits (acc * 10 + Z.of_N (c - 48)) true r
      else if (c =? 95)%N && after_digit then
        match r with
        | d :: _ => if is_digit d then int_digits acc false r else None
        | [] => None
        end
      else None
  end.

(** [int(s)] in base ten for ASCII digits. *)
Definition int_of_str (s : str) : result Z :=
  let t := strip s in
  let '(neg, ds) := match t with
                    | 45%N :: r => (true, r)
                    | 43%N :: r => (false, r)
                    | _ => (false, t)
                    end in
  match int_digits 0 false ds with
  | Some z => inr (if neg then - z else z)%Z
  | None => inl ValueError
  end.

(** [repr(v)], exact on [None], the booleans and the integers; the other
    values are shown by the name of their type. *)
Definition repr_lite (v : pyval) : str :=
  match v with
  | PyNone => lit "None"
  | PyBool true => lit "True"
  | PyBool false => lit "False"
  | PyInt z => (if (z <? 0)%Z then lit "-" else []) ++ str_of_N (Z.abs_N z)
  | PyFloat _ => lit "<float>"
  | PyStr _ => lit "<str>"
  | PyList _ => lit "<list>"
  | PyDict _ => lit "<dict>"
  end.

#[local] Instance reference_lib : PyLib := {|
  json_loads := loads_bytes;
  py_int := int_of_str;
  py_repr := repr_lite
|}.

(** A file tree without symbolic links: each entry is a directory or a
    file with its content. *)
Inductive node := Dir | File (data : bytes).

Definition tree : Type := list (Path * node).

Fixpoint tree_lookup (t : tree) (p : Path) : option node :=
  match t with
  | [] => None
  | (q, n) :: t' => if Path_eqb q p then Some n else tree_lookup t' p
  end.

(** The longest name the system takes for one component of a path. *)
Definition NAME_MAX : nat := 255.

Definition name_too_long (p : Path) : bool :=
  existsb (fun c => Nat.ltb NAME_MAX (length c)) (parts p).

(** A file system made of a tree without links: resolution is lexical
    and never raises; a path with a component longer than [NAME_MAX] is
    refused by the system, so that [exists()] and [is_dir()] raise on it. *)
Definition tree_fs (dir : Path) (t : tree) : FileSystem := {|
  module_dir := dir;
  fs_resolve := fun p => inr (normpath p);
  fs_exists := fun p =>
    if name_too_long p then inl OSError
    else inr (match tree_lookup t p with Some _ => true | None => false end);
  fs_is_dir := fun p =>
    if name_too_long p then inl OSError
    else inr (match tree_lookup t p with Some Dir => true | _ => false end);
  fs_read_bytes := fun p => match tree_lookup t p with
                            | Some (File data) => inr data
                            | _ => inl OSError
                            end
|}.

(** The octets of an ASCII text. *)
Definition blit (s : string) : bytes := map (fun a => octet (N_of_ascii a)) (list_ascii_of_string s).

(** The octets of a JSON text written with an apostrophe for each quote. *)
Definition jlit (s : string) : bytes :=
  map (fun a => let c := N_of_ascii a in octet (if (c =? 39)%N then 34 else c)%N)
      (list_ascii_of_string s).

(** The absolute path with the given text. *)
Definition abs_path (s : string) : Path := truediv {| dslash := false; parts := [] |} (lit s).

(** A sample installation: the program in [/srv/codex], a small web
    bundle below it, and a file outside the bundle. *)
Definition sample_tree : tree :=
  [ (abs_path "/srv/codex", Dir);
    (abs_path "/srv/codex/web", Dir);
    (abs_path "/srv/codex/web/index.html", File (blit "<html></html>"));
    (abs_path "/srv/codex/web/assets", Dir);
    (abs_path "/srv/codex/web/assets/app.js", File (blit "let x = 1;"));
    (abs_path "/srv/codex/web/assets/notes", File (blit "plain"));
    (abs_path "/srv/codex/etc", Dir);
    (abs_path "/srv/codex/etc/passwd", File (blit "root:x:0:0")) ].

Definition sample_fs : FileSystem := tree_fs (abs_path "/srv/codex") sample_tree.

(** An engine with the default configuration and a client. *)
Definition sample_engine : CodexLite :=
  {| config := LiteConfig_default; client := Some OpenAIClient |}.

(** A process environment with the client library but no credential. *)
Definition no_key_environ : Environ :=
  {| OPENAI_API_KEY := None; openai_installed := true; openai_OpenAI := inr OpenAIClient |}.

(** A POST to [/api/ask] carrying [body], with a matching Content-Length. *)
Definition ask_request (body : bytes) : Request :=
  {| path := lit "/api/ask"; content_length := Some (str_of_len body); rfile := body |}.

(** The outcome of a handler run: its trace, its result, the service state. *)
Definition trace_of {A S} (out : W A * S) : list event := out.1.1.
Definition result_of {A S} (out : W A * S) : result A := out.1.2.

(** A trace answers with a server error when one of its status lines is
    in the 5xx class. *)
Definition server_error_sent (t : list event) : Prop :=
  exists st, In st (statuses t) /\ (500 <= st <= 599)%Z.

(** The path a file access concerns. *)
Definition accessed_path (ev : event) : option Path :=
  match ev with
  | path_exists p | path_is_dir p | path_read_bytes p => Some p
  | _ => None
  end.

(** No component is a double dot. *)
Definition no_dotdot (l : list str) : Prop := Forall (fun c => c <> lit "..") l.

(** A Unicode scalar value: a code point that is not a surrogate. *)
Definition scalar (c : N) : Prop := (c < 55296 \/ 57343 < c < 1114112)%N.

(** The scanner's step for one decoded character: it goes in front of
    what the rest of the string decodes to. *)
Definition keep (c : N) (r : result (str * str)) : result (str * str) :=
  obind r (fun '(t, rest) => inr (c :: t, rest)).

(* ================================================================== *)
(** * The scaffold, the server start and the command line *)
(* ================================================================== *)

(** A file tree that can be written, without symbolic links and without
    permissions: the node at each path, if any.  The anchor itself is
    always a directory. *)
Definition Store : Type := Path -> option node.

Definition store_lookup (st : Store) (p : Path) : option node :=
  match parts p with
  | [] => Some Dir
  | _ :: _ => st p
  end.

Definition store_set (st : Store) (p : Path) (n : node) : Store :=
  fun q => if Path_eqb q p then Some n else st q.

(** [p.parent]; the anchor is its own parent. *)
Definition parent (p : Path) : Path :=
  {| dslash := dslash p; parts := removelast (parts p) |}.

(** The operating system's errors the scaffold can meet; all of them are
    [OSError] for the caller. *)
Inductive oserror := FileNotFound | FileExists | NotADirectory | IsADirectory.

(** A step on the file tree: its value or its error, and the tree it leaves. *)
Definition FS (A : Type) : Type := Store -> (oserror + A) * Store.

Definition store_is_dir (st : Store) (p : Path) : bool :=
  match store_lookup st p with Some Dir => true | _ => false end.

(** [os.mkdir(p)] *)
Definition os_mkdir (p : Path) : FS unit :=
  fun st =>
    match store_lookup st p with
    | Some _ => (inl FileExists, st)
    | None =>
        match store_lookup st (parent p) with
        | Some Dir => (inr tt, store_set st p Dir)
        | Some (File _) => (inl NotADirectory, st)
        | None => (inl FileNotFound, st)
        end
    end.

(** [p.mkdir(parents=False, exist_ok=True)] *)
Definition mkdir_exist_ok (p : Path) : FS unit :=
  fun st =>
    match os_mkdir p st with
    | (inr tt, st1) => (inr tt, st1)
    | (inl FileNotFound, st1) => (inl FileNotFound, st1)
    | (inl e, st1) => if store_is_dir st1 p then (inr tt, st1) else (inl e, st1)
    end.

(** [p.mkdir(parents=True, exist_ok=True)], for the path whose components
    are [rparts] read backwards: a missing parent is made first, by the
    same method, and the directory is then made again. *)
Fixpoint mkdir_parents (ds : bool) (rparts : list str) : FS unit :=
  fun st =>
    let p := {| dslash := ds; parts := rev rparts |} in
    match os_mkdir p st with
    | (inr tt, st1) => (inr tt, st1)
    | (inl FileNotFound, st1) =>
        match rparts with
        | [] => (inl FileNotFound, st1)
        | _ :: rparent =>
            match mkdir_parents ds rparent st1 with
            | (inl e, st2) => (inl e, st2)
            | (inr tt, st2) => mkdir_exist_ok p st2
            end
        end
    | (inl e, st1) => if store_is_dir st1 p then (inr tt, st1) else (inl e, st1)
    end.

Definition mkdir_p (p : Path) : FS unit := mkdir_parents (dslash p) (rev (parts p)).

(** [p.read_bytes()] *)
Definition read_bytes (p : Path) : FS bytes :=
  fun st =>
    match store_lookup st p with
    | Some (File data) => (inr data, st)
    | Some Dir => (inl IsADirectory, st)
    | None => (inl FileNotFound, st)
    end.

(** [p.write_bytes(data)] *)
Definition write_bytes (p : Path) (data : bytes) : FS unit :=
  fun st =>
    match store_lookup st p with
    | Some Dir => (inl IsADirectory, st)
    | _ =>
        match store_lookup st (parent p) with
        | Some Dir => (inr tt, store_set st p (File data))
        | Some (File _) => (inl NotADirectory, st)
        | None => (inl FileNotFound, st)
        end
    end.

Definition fs_bind {A B} (m : FS A) (k : A -> FS B) : FS B :=
  fun st =>
    match m st with
    | (inl e, st1) => (inl e, st1)
    | (inr a, st1) => k a st1
    end.

(** The scaffold's files: where each goes under the target directory,
    and the file of the project it is copied from. *)
Definition TEMPLATE_FILES : list (str * str) :=
  [ (lit "Mini_codex.py", lit "Mini_codex.py");
    (lit "README.md", lit "README.md");
    (lit "web/index.html", lit "index.html") ].

Section Scaffold.
(** [Path(target_dir).expanduser().resolve()] and
    [Path(__file__).resolve().parent]. *)
Variable expanduser_resolve : str -> result Path.
Variable project_root : Path.

(** One turn of the loop of [create_yourself]. *)
Definition copy_template (destination : Path) (item : str * str) : FS unit :=
  let source := truediv project_root item.2 in
  let target := truediv destination item.1 in
  fs_bind (mkdir_p (parent target)) (fun _ =>
  fs_bind (read_bytes source) (fun data =>
  write_bytes target data)).

Fixpoint copy_templates (destination : Path) (items : list (str * str)) : FS unit :=
  match items with
  | [] => fun st => (inr tt, st)
  | item :: rest =>
      fs_bind (copy_template destination item) (fun _ => copy_templates destination rest)
  end.

Definition create_yourself (target_dir : str) (st : Store) : result Path * Store :=
  match expanduser_resolve target_dir with
  | inl e => (inl e, st)
  | inr destination =>
      match fs_bind (mkdir_p destination)
                    (fun _ => copy_templates destination TEMPLATE_FILES) st with
      | (inl _, st') => (inl OSError, st')
      | (inr tt, st') => (inr destination, st')
      end
  end.
End Scaffold.

(** What a step may do to the tree: it keeps every node there was, except
    that the files at [targets] may be replaced, and every file there is
    afterwards was there before or is at one of [targets]. *)
Definition grows (targets : list Path) (st st' : Store) : Prop :=
  (forall q n, store_lookup st q = Some n -> ~ In q targets -> store_lookup st' q = Some n)
  /\ (forall q d, store_lookup st' q = Some (File d) ->
                  store_lookup st q = Some (File d) \/ In q targets).

(** The targets of the items under a destination. *)
Definition targets_of (destination : Path) (items : list (str * str)) : list Path :=
  map (fun item => truediv destination item.1) items.

(** No earlier target is a later target or a later source. *)
Fixpoint independent (project_root destination : Path) (items : list (str * str)) : Prop :=
  match items with
  | [] => True
  | item :: rest =>
      Forall (fun it => truediv destination item.1 <> truediv destination it.1
                        /\ truediv destination item.1 <> truediv project_root it.2) rest
      /\ independent project_root destination rest
  end.

(** [str(z)] for an [int]. *)
Definition str_of_Z (z : Z) : str :=
  if (z <? 0)%Z then lit "-" ++ str_of_N (Z.abs_N z) else str_of_N (Z.to_N z).

(** [str(p)] *)
Definition path_str (p : Path) : str :=
  (if dslash p then lit "//" else lit "/") ++ join (lit "/") (parts p).

(** What [parse_args] returns. *)
Record Namespace := {
  args_prompt : option str;
  args_model : str;
  args_temperature : spec_float;
  args_max_tokens : Z;
  args_planning_tokens : Z;
  args_critique_tokens : Z;
  args_serve : bool;
  args_host : str;
  args_port : Z;
  args_create_yourself : option str
}.

(** The truth value of an optional string: [None] and the empty string
    are false. *)
Definition truthy (o : option str) : bool :=
  match o with
  | Some (_ :: _) => true
  | _ => false
  end.

(** How a run of the program ends: [main] returns, an exception leaves
    it, or the server has taken over in [serve_forever]. *)
Inductive Ending :=
| Returns
| Raises (e : exn)
| FileNotFoundError (message : str)
| SystemExit (message : str)
| Serves (host : str) (port : Z).

(** The configuration [main] builds from the arguments. *)
Definition config_of (args : Namespace) : LiteConfig :=
  {| model := args_model args;
     temperature := args_temperature args;
     max_tokens := args_max_tokens args;
     planning_tokens := args_planning_tokens args;
     critique_tokens := args_critique_tokens args |}.

Section CommandLine.
Context {fs : FileSystem} {svc : Service}.
(** [Path(target_dir).expanduser().resolve()], and the constructor
    [ThreadingHTTPServer((host, port), CodexLiteHandler)], which binds
    the address. *)
Variable expanduser_resolve : str -> result Path.
Variable ThreadingHTTPServer : str -> Z -> result unit.

(** A run of the program: how it ends, the texts it printed, the calls
    it made to the completion service, the file tree and the service
    state it leaves, and the class attribute [CodexLiteHandler.assistant]. *)
Record Run := {
  ending : Ending;
  stdout : list str;
  calls : list call;
  files : Store;
  service : svc_state;
  handler_assistant : Handler
}.

Definition run_server (assistant : CodexLite) (host : str) (port : Z)
    (st : Store) (s : svc_state) : Run :=
  match fs_exists WEB_DIR with
  | inl e => {| ending := Raises e; stdout := []; calls := []; files := st;
                service := s; handler_assistant := None |}
  | inr false =>
      {| ending := FileNotFoundError (lit "Web UI directory not found: " ++ path_str WEB_DIR);
         stdout := []; calls := []; files := st; service := s;
         handler_assistant := None |}
  | inr true =>
      match ThreadingHTTPServer host port with
      | inl e => {| ending := Raises e; stdout := []; calls := []; files := st;
                    service := s; handler_assistant := Some assistant |}
      | inr _ =>
          {| ending := Serves host port;
             stdout := [lit "Codex-Lite web UI running at http://" ++ host
                          ++ lit ":" ++ str_of_Z port];
             calls := []; files := st; service := s;
             handler_assistant := Some assistant |}
      end
  end.

Definition main (args : Namespace) (env : Environ) (st : Store) (s : svc_state) : Run :=
  if truthy (args_create_yourself args)
  then
    match create_yourself expanduser_resolve module_dir
                          (default [] (args_create_yourself args)) st with
    | (inl e, st') => {| ending := Raises e; stdout := []; calls := []; files := st';
                         service := s; handler_assistant := None |}
    | (inr destination, st') =>
        {| ending := Returns;
           stdout := [lit "Created Codex-Lite scaffold at: " ++ path_str destination];
           calls := []; files := st'; service := s; handler_assistant := None |}
    end
  else
    match CodexLite_init (config_of args) env with
    | inl e => {| ending := Raises e; stdout := []; calls := []; files := st;
                  service := s; handler_assistant := None |}
    | inr assistant =>
        if args_serve args
        then run_server assistant (args_host args) (args_port args) st s
        else if negb (truthy (args_prompt args))
        then {| ending := SystemExit (lit "Provide a prompt or use --serve to launch the web UI.");
                stdout := []; calls := []; files := st; service := s;
                handler_assistant := None |}
        else
          match run (answer assistant (default [] (args_prompt args))) s with
          | (log, inl e, s') => {| ending := Raises e; stdout := []; calls := log;
                                   files := st; service := s'; handler_assistant := None |}
          | (log, inr text, s') => {| ending := Returns; stdout := [text]; calls := log;
                                      files := st; service := s'; handler_assistant := None |}
          end
    end.
End CommandLine.

(** ** Reference instances for the scaffold and the command line *)

(** A file tree as a store. *)
Definition store_of (t : tree) : Store := tree_lookup t.

(** A sample project: the program's directory with the three sources of
    the scaffold, and a home directory. *)
Definition sample_project : tree :=
  [ (abs_path "/srv", Dir);
    (abs_path "/srv/codex", Dir);
    (abs_path "/srv/codex/Mini_codex.py", File (blit "print(1)"));
    (abs_path "/srv/codex/README.md", File (blit "# Codex-Lite"));
    (abs_path "/srv/codex/index.html", File (blit "<html></html>"));
    (abs_path "/home", Dir) ].

(** The same place without the program's own files. *)
Definition bare_project : tree :=
  [ (abs_path "/srv", Dir); (abs_path "/srv/codex", Dir); (abs_path "/home", Dir) ].

(** Resolution from the root, without links and without a home prefix. *)
Definition sample_resolve (target_dir : str) : result Path :=
  inr (normpath (truediv {| dslash := false; parts := [] |} target_dir)).

(** A server constructor that binds every address. *)
Definition sample_server (host : str) (port : Z) : result unit := inr tt.

(** The arguments of a command line that sets nothing but a prompt,
    [--serve] or [--create-yourself]. *)
Definition sample_args (prompt : option str) (serve : bool) (target : option str)
  : Namespace :=
  {| args_prompt := prompt; args_model := lit "gpt-4o-mini";
     args_temperature := float_0_1; args_max_tokens := 900;
     args_planning_tokens := 280; args_critique_tokens := 280;
     args_serve := serve; args_host := lit "127.0.0.1"; args_port := 8000;
     args_create_yourself := target |}.

(** An environment with a key and a client library whose constructor raises. *)
Definition broken_environ : Environ :=
  {| OPENAI_API_KEY := Some (lit "sk-test"); openai_installed := true;
     openai_OpenAI := inl RuntimeError |}.

(* ================================================================== *)
(** * Properties *)
(* ================================================================== *)

(** Literals stay folded in the goals; evaluation still computes them. *)
#[local] Opaque lit.

Lemma substring_app_l (p s t : str) : substring p s -> substring p (t ++ s).
Proof.
  intros (pre & post & ->). exists (t ++ pre), post. by rewrite <- app_assoc.
Qed.

Lemma substring_app_r (p s t : str) : substring p s -> substring p (s ++ t).
Proof.
  intros (pre & post & ->). exists pre, (post ++ t). by rewrite <- !app_assoc.
Qed.

Lemma substring_cons (p s : str) (c : N) : substring p s -> substring p (c :: s).
Proof. apply (substring_app_l p s [c]). Qed.

Lemma substring_here (p t : str) : substring p (p ++ t).
Proof. by exists [], t. Qed.

Lemma substring_refl (p : str) : substring p p.
Proof. exists [], []. by rewrite app_nil_r. Qed.

Lemma startswith_prefix (s p : str) : startswith s p = true -> exists t, s = p ++ t.
Proof.
  revert s. induction p as [|y p IH]; intros s Hs; [by exists s | ].
  destruct s as [|x s]; [done | ]. cbn in Hs.
  apply andb_prop in Hs as [Hx Hs]. apply N.eqb_eq in Hx as ->.
  destruct (IH _ Hs) as [t ->]. by exists t.
Qed.

Lemma startswith_substring (s p : str) : startswith s p = true -> substring p s.
Proof. intros Hs. destruct (startswith_prefix _ _ Hs) as [t ->]. apply substring_here. Qed.

(** Finds [p] among the pieces of a concatenation: as a piece, or as the
    opening of a literal piece. *)
Ltac find_substring :=
  repeat match goal with
         | |- substring ?p ?p => exact (substring_refl p)
         | |- substring ?p (?p ++ ?t) => exact (substring_here p t)
         | |- substring ?p (lit ?a) =>
             apply startswith_substring; vm_compute; reflexivity
         | |- substring ?p (lit ?a ++ ?t) =>
             apply (substring_app_r p (lit a) t), startswith_substring;
             vm_compute; reflexivity
         | |- substring ?p (?t ++ ?s) => apply (substring_app_l p s t)
         | |- substring ?p (?c :: ?s) => apply (substring_cons p s c)
         end.

Lemma substring_join (sep p x : str) (parts : list str) :
  In x parts -> substring p x -> substring p (join sep parts).
Proof.
  induction parts as [|y parts IH]; [done|].
  intros [-> | Hin] Hp.
  - destruct parts; [done|]. simpl. by apply substring_app_r.
  - destruct parts as [|z parts]; [done|].
    change (join sep (y :: z :: parts)) with (y ++ sep ++ join sep (z :: parts)).
    do 2 apply substring_app_l. by apply IH.
Qed.

(** ** The pipeline engine *)

Section Engine.
Context {svc : Service}.

(** Peels the next service call off a run of [answer]. *)
Ltac next_call s' :=
  match goal with
  | |- context [responses_create ?s ?kw] =>
      let e := fresh "e" in
      let r := fresh "r" in
      destruct (responses_create s kw) as [[e | r] s'] eqn:?
  end.

Lemma run_offline (cfg : LiteConfig) (p : str) (s : svc_state) :
  run (answer {| config := cfg; client := None |} p) s
  = ([], inr (_offline_answer p), s).
Proof. reflexivity. Qed.

Lemma offline_answer_echo (p : str) : substring p (_offline_answer p).
Proof.
  unfold _offline_answer.
  eapply (substring_join _ _ (lit "- Restate request: " ++ p)).
  - do 6 right. by left.
  - apply substring_app_l. exists [], []. by rewrite app_nil_r.
Qed.

(** C6. Without a completion adapter (no credential, or no client
    library) the engine is built with no client; [answer] then makes no
    service call and leaves the service untouched, its value is
    [_offline_answer p], a function of the prompt alone (so two calls on
    one prompt agree, whatever the configuration and the service), and
    that value contains the prompt. *)
Theorem offline_answer_is_pure (cfg : LiteConfig) (env : Environ) :
  OPENAI_API_KEY env = None \/ OPENAI_API_KEY env = Some []
    \/ openai_installed env = false ->
  CodexLite_init cfg env = inr {| config := cfg; client := None |}
  /\ forall (p : str) (s : svc_state),
       run (answer {| config := cfg; client := None |} p) s
       = ([], inr (_offline_answer p), s)
       /\ substring p (_offline_answer p).
Proof.
  intros Hno. split.
  - unfold CodexLite_init, _get_openai_client.
    destruct Hno as [-> | [-> | Hlib]]; try reflexivity.
    rewrite Hlib. by destruct (OPENAI_API_KEY env) as [[|]|].
  - intros p s. split; [apply run_offline | apply offline_answer_echo].
Qed.

(** C4. In every run of [answer] with a client, whatever the service
    does, the calls come in the order Plan, Draft, Critique, Final; the
    third one, whose prompt opens with the critique instruction and whose
    token limit is the critique budget, carries temperature 0.0, and the
    three others carry the configured temperature.  When no call fails
    all four are issued. *)
Theorem critique_temperature_is_zero
    (cfg : LiteConfig) (c : OpenAI) (u : str) (s s' : svc_state)
    (log : list call) (res : result str) :
  run (answer {| config := cfg; client := Some c |} u) s = (log, res, s') ->
  (forall i kw o, log !! i = Some (kw, o) ->
     kw_temperature kw = (if Nat.eqb i 2 then float_zero else temperature cfg)
     /\ kw_max_output_tokens kw
        = nth i [planning_tokens cfg; max_tokens cfg; critique_tokens cfg] (max_tokens cfg)
     /\ startswith (user_message kw) (lit "Critique the draft answer") = Nat.eqb i 2)
  /\ length log <= 4
  /\ (forall t, res = inr t -> length log = 4).
Proof.
  unfold answer; cbn [client config run].
  next_call s1; [intros [= <- <- <-] | ].
  2: next_call s2; [intros [= <- <- <-] | ].
  3: next_call s3; [intros [= <- <- <-] | ].
  4: next_call s4; [intros [= <- <- <-] | intros [= <- <- <-] ].
  all: split; [ | split; [cbn; lia | intros t; try discriminate; done] ].
  all: intros i kw o Hi.
  all: repeat (destruct i as [|i]; [injection Hi as <- <-; by vm_compute | ]).
  all: by destruct i.
Qed.

(** A service that never fails lets [answer] return. *)
Lemma answer_returns (self : CodexLite) (u : str) (s : svc_state) :
  (forall st kw, exists r st', responses_create st kw = (inr r, st')) ->
  exists log t s', run (answer self u) s = (log, inr t, s').
Proof.
  intros Hok. unfold answer. destruct (client self); [ | by eexists _, _, _ ].
  cbn [run].
  repeat match goal with
         | |- context [responses_create ?st ?kw] =>
             let r := fresh "r" in
             let st' := fresh "st" in
             let E := fresh "E" in
             destruct (Hok st kw) as (r & st' & E); rewrite E; cbn [run]
         end.
  by eexists _, _, _.
Qed.

(** C5. With a client, and a service that answers, [answer] returns;
    and whenever it returns, it has made exactly four calls one after
    the other, each from the state the one before left: the Plan call,
    the Draft call (whose prompt holds the plan's text), the Critique
    call (whose prompt holds the draft's text) and the Final call, whose
    prompt holds the user's input and the texts the Plan, Draft and
    Critique calls of this run returned; the value of [answer] is the
    text the Final call returned. *)
Theorem final_prompt_threads_stages (cfg : LiteConfig) (c : OpenAI) (u : str)
    (s : svc_state) :
  let self := {| config := cfg; client := Some c |} in
  ((forall st kw, exists r st', responses_create st kw = (inr r, st')) ->
   exists log t s', run (answer self u) s = (log, inr t, s'))
  /\ forall log t s', run (answer self u) s = (log, inr t, s') ->
     exists k1 k2 k3 k4 plan draft critique final s1 s2 s3,
       log = [(k1, inr plan); (k2, inr draft); (k3, inr critique); (k4, inr final)]
       /\ responses_create s k1 = (inr plan, s1)
       /\ responses_create s1 k2 = (inr draft, s2)
       /\ responses_create s2 k3 = (inr critique, s3)
       /\ responses_create s3 k4 = (inr final, s')
       /\ t = output_text final
       /\ (substring (lit "Create a concise implementation plan") (user_message k1)
           /\ substring u (user_message k1))
       /\ (substring (lit "Write the best possible answer") (user_message k2)
           /\ substring u (user_message k2)
           /\ substring (output_text plan) (user_message k2))
       /\ (substring (lit "Critique the draft answer") (user_message k3)
           /\ substring u (user_message k3)
           /\ substring (output_text draft) (user_message k3))
       /\ (substring (lit "Produce the improved final answer") (user_message k4)
           /\ substring u (user_message k4)
           /\ substring (output_text plan) (user_message k4)
           /\ substring (output_text draft) (user_message k4)
           /\ substring (output_text critique) (user_message k4)).
Proof.
  intros self. split; [apply answer_returns | ].
  intros log t s'. unfold self, answer; cbn [client config run].
  next_call s1; [intros [= <- ? <-]; discriminate | ].
  next_call s2; [intros [= <- ? <-]; discriminate | ].
  next_call s3; [intros [= <- ? <-]; discriminate | ].
  next_call s4; [intros [= <- ? <-]; discriminate | ].
  intros [= <- <- <-].
  eexists _, _, _, _, r, r0, r1, r2, s1, s2, s3.
  split; [reflexivity | ].
  do 4 (split; [eassumption | ]).
  split; [reflexivity | ].
  cbv beta iota delta [user_message kw_input last content].
  repeat match goal with |- _ /\ _ => split end; find_substring.
Qed.
End Engine.

(** ** JSON responses *)

Lemma encode_utf8_ascii (s : str) : ascii s -> encode_utf8 s = inr (map octet s).
Proof.
  induction 1 as [|c s Hc _ IH]; [done | ].
  cbn [encode_utf8 map]. rewrite IH. unfold utf8_char.
  destruct (N.ltb_spec c 128); [done | lia].
Qed.

Lemma hex_digit_ascii (n : N) : (n < 16 -> hex_digit n < 128)%N.
Proof. unfold hex_digit. destruct (N.ltb_spec n 10); lia. Qed.

Lemma u_escape_ascii (n : N) : ascii (u_escape n).
Proof.
  unfold u_escape, ascii.
  repeat constructor; try lia; apply hex_digit_ascii, N.mod_lt; lia.
Qed.

Lemma escape_char_ascii (c : N) : ascii (escape_char c).
Proof.
  unfold escape_char.
  repeat match goal with
         | |- context [if ?b then _ else _] => destruct b eqn:?
         end;
    try (repeat constructor; lia).
  - apply andb_prop in Heqb1 as [_ H%N.leb_le]. repeat constructor. lia.
  - apply u_escape_ascii.
  - apply Forall_app; split; apply u_escape_ascii.
Qed.

Lemma encode_basestring_ascii_ascii (s : str) : ascii (encode_basestring_ascii s).
Proof.
  unfold encode_basestring_ascii, ascii.
  apply Forall_app; split; [repeat constructor; lia | ].
  apply Forall_app; split; [ | repeat constructor; lia].
  induction s as [|c s IH]; [constructor | ].
  cbn [map concat]. apply Forall_app; split; [apply escape_char_ascii | apply IH].
Qed.

Lemma join_ascii (sep : str) (parts : list str) :
  ascii sep -> Forall ascii parts -> ascii (join sep parts).
Proof.
  intros Hsep. induction 1 as [|x parts Hx Hparts IH]; [constructor | ].
  destruct parts as [|y parts]; [done | ].
  change (join sep (x :: y :: parts)) with (x ++ sep ++ join sep (y :: parts)).
  repeat (apply Forall_app; split); auto.
Qed.

Lemma lit_ascii_check (s : string) :
  forallb (fun c => c <? 128)%N (lit s) = true -> ascii (lit s).
Proof.
  intros H. apply Forall_forall. intros c Hc%list_elem_of_In.
  rewrite forallb_forall in H. by apply N.ltb_lt, H.
Qed.

Lemma json_dumps_ascii (p : payload) : ascii (json_dumps p).
Proof.
  unfold json_dumps.
  apply Forall_app; split; [by apply lit_ascii_check; vm_compute | ].
  apply Forall_app; split; [ | by apply lit_ascii_check; vm_compute].
  apply join_ascii; [by apply lit_ascii_check; vm_compute | ].
  apply Forall_forall. intros x Hx%list_elem_of_In. apply in_map_iff in Hx as [[k v] [<- _]].
  cbn [fst snd].
  apply Forall_app; split; [apply encode_basestring_ascii_ascii | ].
  apply Forall_app; split; [by apply lit_ascii_check; vm_compute | ].
  apply encode_basestring_ascii_ascii.
Qed.

(** [_send_json] never raises: the text [json.dumps] gives is ASCII. *)
Lemma send_json_events (p : payload) (status : Z) :
  _send_json p status = (json_response status (map octet (json_dumps p)), inr tt).
Proof.
  unfold _send_json. rewrite (encode_utf8_ascii _ (json_dumps_ascii p)). reflexivity.
Qed.

Lemma digits_rev_S (fuel : nat) (n : N) :
  digits_rev (S fuel) n
  = if (n <? 10)%N then [(48 + n mod 10)%N]
    else (48 + n mod 10)%N :: digits_rev fuel (n / 10)%N.
Proof. reflexivity. Qed.

Lemma digits_rev_value (fuel : nat) (n : N) :
  (n < 10 ^ N.of_nat (S fuel))%N ->
  fold_right (fun d acc => acc * 10 + (d - 48))%N 0%N (digits_rev (S fuel) n) = n
  /\ Forall (fun d => 48 <= d <= 57)%N (digits_rev (S fuel) n)
  /\ digits_rev (S fuel) n <> [].
Proof.
  revert n. induction fuel as [|fuel IH]; intros n Hn.
  all: rewrite digits_rev_S; pose proof (N.mod_lt n 10 ltac:(lia)) as Hm.
  all: pose proof (N.div_mod n 10 ltac:(lia)) as Hdm.
  all: destruct (N.ltb_spec n 10) as [Hlt | Hge].
  all: try (rewrite N.mod_small by done; cbn [fold_right];
            split; [lia | split; [repeat constructor; lia | done]]).
  assert (Hq : (n / 10 < 10 ^ N.of_nat (S fuel))%N).
  { apply N.Div0.div_lt_upper_bound.
    rewrite (Nat2N.inj_succ (S fuel)), N.pow_succ_r' in Hn. lia. }
  destruct (IH _ Hq) as (Hv & Hd & _).
  cbn [fold_right]. rewrite Hv. clear IH Hv Hn Hq.
  remember (n mod 10)%N as m. remember (n / 10)%N as q.
  split; [lia | split; [constructor; [cbv beta; lia | done] | done]].
Qed.

(** [str(n)] is the decimal numeral of [n]. *)
Lemma str_of_N_decimal (n : N) : is_decimal (str_of_N n) /\ decimal_value (str_of_N n) = n.
Proof.
  assert (Hn : (n < 10 ^ N.of_nat (S (N.to_nat (N.log2 n))))%N).
  { rewrite Nat2N.inj_succ, N2Nat.id.
    destruct n as [|q]; [done | ].
    pose proof (N.log2_spec (N.pos q) ltac:(lia)) as [_ Hlt].
    eapply N.lt_le_trans; [exact Hlt | ].
    apply N.pow_le_mono_l. lia. }
  destruct (digits_rev_value _ _ Hn) as (Hv & Hd & Hne).
  unfold str_of_N, is_decimal, decimal_value. repeat split.
  - intros Hnil. apply Hne. by rewrite <- (rev_involutive (digits_rev _ _)), Hnil.
  - by apply Forall_rev.
  - by rewrite <- fold_left_rev_right, rev_involutive.
Qed.

(** C8. Every JSON response goes through [_send_json], which, for every
    payload and status, sends the status line, a Content-Type and a
    Content-Length header, and writes a body: the body is the UTF-8
    encoding of [json.dumps(payload)] (the encoding cannot fail), and the
    Content-Length value is the decimal numeral of the number of bytes of
    that body. *)
Theorem send_json_content_length (p : payload) (status : Z) :
  exists (body : bytes) (len : str),
    encode_utf8 (json_dumps p) = inr body
    /\ _send_json p status
       = ([ send_response status;
            send_header (lit "Content-Type") (lit "application/json; charset=utf-8");
            send_header (lit "Content-Length") len;
            end_headers;
            wfile_write body ], inr tt)
    /\ is_decimal len
    /\ decimal_value len = N.of_nat (length body).
Proof.
  exists (map octet (json_dumps p)), (str_of_len (map octet (json_dumps p))).
  split; [apply encode_utf8_ascii, json_dumps_ascii | ].
  split; [apply send_json_events | ].
  apply str_of_N_decimal.
Qed.

(** ** Static files *)

Lemma str_eqb_eq (a b : str) : str_eqb a b = true <-> a = b.
Proof.
  revert b. induction a as [|x a IH]; intros [|y b]; cbn; try done.
  rewrite andb_true_iff, N.eqb_eq, IH. split; [by intros [-> ->] | by intros [= -> ->]].
Qed.

Lemma str_eqb_neq (a b : str) : str_eqb a b = false <-> a <> b.
Proof.
  rewrite <- str_eqb_eq. destruct (str_eqb a b); split; congruence.
Qed.

Lemma parts_eqb_eq (a b : list str) : parts_eqb a b = true <-> a = b.
Proof.
  unfold parts_eqb. revert b. induction a as [|x a IH]; intros [|y b]; cbn; try done.
  specialize (IH b). rewrite andb_true_iff in IH.
  rewrite !andb_true_iff, str_eqb_eq.
  split.
  - intros (Hlen & -> & Hall). f_equal. apply IH. done.
  - intros [= -> ->]. destruct IH as [_ IH]. destruct (IH eq_refl). done.
Qed.

Lemma Path_eqb_eq (p q : Path) : Path_eqb p q = true <-> p = q.
Proof.
  unfold Path_eqb. rewrite andb_true_iff, Bool.eqb_true_iff, parts_eqb_eq.
  destruct p, q; cbn. split; [by intros [-> ->] | by intros [= -> ->]].
Qed.

Lemma proper_prefixes_spec (l x : list str) :
  In x (proper_prefixes l) <-> exists rest, rest <> [] /\ l = x ++ rest.
Proof.
  revert x. induction l as [|y l IH]; intros x; cbn [proper_prefixes].
  - split; [done | ]. intros (rest & Hne & Heq).
    symmetry in Heq. apply app_eq_nil in Heq as [_ ->]. done.
  - rewrite in_app_iff, in_map_iff. split.
    + intros [(x' & <- & Hin) | [<- | []]].
      * apply IH in Hin as (rest & Hne & ->). by exists rest.
      * by exists (y :: l).
    + intros (rest & Hne & Heq). destruct x as [|z x].
      * right. by left.
      * left. injection Heq as <- ->. exists x. split; [done | ].
        apply IH. by exists rest.
Qed.

(** The test [_serve_file] makes is containment in the root. *)
Lemma contained_within (root p : Path) :
  existsb (Path_eqb root) (parents p) || Path_eqb p root = true <-> within root p.
Proof.
  rewrite orb_true_iff, existsb_exists, Path_eqb_eq. unfold within, parents. split.
  - intros [(q & Hin & Heq) | ->].
    + apply Path_eqb_eq in Heq as <-.
      apply in_map_iff in Hin as (l & <- & Hl). cbn.
      apply proper_prefixes_spec in Hl as (rest & _ & ->). eauto.
    + split; [done | ]. exists []. by rewrite app_nil_r.
  - intros [Hd [[|c rest] Hrest]].
    + right. destruct p, root; cbn in *. rewrite app_nil_r in Hrest. congruence.
    + left. exists root. split; [ | by apply Path_eqb_eq].
      apply in_map_iff. exists (parts root). split.
      * destruct root; cbn in *. congruence.
      * apply proper_prefixes_spec. by exists (c :: rest).
Qed.

Lemma bind_observe {A B} (ev : event) (a : A) (k : A -> W B) :
  bind (observe ev (inr a)) k = ((ev :: (k a).1), (k a).2).
Proof. unfold bind, observe. by destruct (k a). Qed.

Section StaticFileFacts.
Context {fs : FileSystem}.

Lemma serve_file_escape (rel : str) (safe : Path) :
  fs_resolve (truediv WEB_DIR rel) = inr safe ->
  ~ within WEB_DIR safe ->
  _serve_file rel
  = ([path_resolve (truediv WEB_DIR rel); send_error FORBIDDEN (lit "Forbidden")],
     inr tt).
Proof.
  intros Hres Hout. unfold _serve_file. rewrite Hres, bind_observe.
  destruct (existsb (Path_eqb WEB_DIR) (parents safe) || Path_eqb safe WEB_DIR) eqn:Hc.
  - by apply contained_within in Hc.
  - apply orb_false_elim in Hc as [-> ->]. reflexivity.
Qed.

Lemma serve_file_inside (rel : str) (safe : Path) :
  fs_resolve (truediv WEB_DIR rel) = inr safe ->
  within WEB_DIR safe ->
  negb (existsb (Path_eqb WEB_DIR) (parents safe)) && negb (Path_eqb safe WEB_DIR)
  = false.
Proof.
  intros _ Hin%contained_within. rewrite <- negb_orb, Hin. reflexivity.
Qed.

(** A 200 status from [_serve_file] is for a path inside the root. *)
Lemma serve_file_ok_inside (rel : str) :
  In OK (statuses (_serve_file rel).1) ->
  exists safe, fs_resolve (truediv WEB_DIR rel) = inr safe /\ within WEB_DIR safe.
Proof.
  unfold _serve_file.
  destruct (fs_resolve (truediv WEB_DIR rel)) as [e | safe] eqn:Hres; [intros [] | ].
  rewrite bind_observe.
  destruct (existsb (Path_eqb WEB_DIR) (parents safe) || Path_eqb safe WEB_DIR) eqn:Hc.
  - intros _. exists safe. split; [done | by apply contained_within].
  - apply orb_false_elim in Hc as [-> ->]. cbn. by intros [H | []].
Qed.
End StaticFileFacts.

Lemma normstack_length (l stk : list str) :
  length (fold_left (fun stk c => if str_eqb c (lit "..") then tail stk else c :: stk) l stk)
  <= length l + length stk.
Proof.
  revert stk. induction l as [|c l IH]; intros stk; cbn [fold_left length]; [lia | ].
  destruct (str_eqb c (lit "..")).
  - specialize (IH (tail stk)). destruct stk; cbn [tail length] in *; lia.
  - specialize (IH (c :: stk)). cbn [length] in IH. lia.
Qed.

(** Where lexical resolution takes [<root>/assets/../../etc/passwd]. *)
Lemma traversal_resolves_outside (md : Path) :
  let root := truediv md (lit "web") in
  ~ within root
      (normpath (truediv root (lstrip_chars (lit "/") (lit "/assets/../../etc/passwd")))).
Proof.
  intros root.
  assert (Hroot : root = {| dslash := dslash md; parts := parts md ++ [lit "web"] |})
    by (vm_compute; reflexivity).
  assert (Hp : truediv root (lstrip_chars (lit "/") (lit "/assets/../../etc/passwd"))
               = {| dslash := dslash md;
                    parts := (parts md ++ [lit "web"])
                             ++ [lit "assets"; lit ".."; lit ".."; lit "etc"; lit "passwd"] |})
    by (rewrite Hroot; vm_compute; reflexivity).
  rewrite Hp, Hroot. unfold within, normpath, normparts; cbn [dslash parts].
  rewrite !fold_left_app.
  set (f := fun stk c => if str_eqb c (lit "..") then tail stk else c :: stk).
  set (stk := fold_left f (parts md) []).
  assert (Hlen : length stk <= length (parts md)).
  { pose proof (normstack_length (parts md) []). cbn [length] in *. unfold stk, f. lia. }
  assert (Hfold : fold_left f [lit "assets"; lit ".."; lit ".."; lit "etc"; lit "passwd"]
                    (fold_left f [lit "web"] stk)
                  = lit "passwd" :: lit "etc" :: stk) by (vm_compute; reflexivity).
  rewrite Hfold. cbn [rev]. rewrite <- app_assoc. cbn [app].
  intros [_ [rest Heq]].
  apply (f_equal (fun l => l !! length (parts md))) in Heq.
  rewrite <- (app_assoc (parts md)), (lookup_app_r (parts md)) in Heq by lia.
  rewrite Nat.sub_diag in Heq. cbn in Heq.
  rewrite lookup_app_r in Heq by (rewrite length_rev; lia).
  rewrite length_rev in Heq.
  destruct (length (parts md) - length stk) as [|[|n]]; cbn in Heq; [ | | done].
  all: by apply (f_equal (fun o => match o with Some s => str_eqb s (lit "web") | None => true end)) in Heq.
Qed.

(** C2. When the path [_serve_file] resolves is neither the web root
    nor below it, the handler answers 403 and does nothing else: no
    existence test, no directory test, no read.  A 200 status is only ever
    sent for a path inside the root.  In particular, on a file system
    where resolution meets no symbolic link, GET
    [/assets/../../etc/passwd] is answered 403 and the target is not
    looked at, wherever the program is installed and whatever files
    exist. *)
Theorem escaping_path_is_forbidden (fs : FileSystem) :
  (forall rel safe,
     fs_resolve (truediv WEB_DIR rel) = inr safe ->
     ~ within WEB_DIR safe ->
     _serve_file rel
     = ([path_resolve (truediv WEB_DIR rel); send_error FORBIDDEN (lit "Forbidden")],
        inr tt)
     /\ statuses (_serve_file rel).1 = [FORBIDDEN]
     /\ file_accesses (_serve_file rel).1 = [])
  /\ (forall rel,
        In OK (statuses (_serve_file rel).1) ->
        exists safe, fs_resolve (truediv WEB_DIR rel) = inr safe /\ within WEB_DIR safe)
  /\ ((forall p, fs_resolve p = inr (normpath p)) ->
      statuses (do_GET (lit "/assets/../../etc/passwd")).1 = [FORBIDDEN]
      /\ file_accesses (do_GET (lit "/assets/../../etc/passwd")).1 = []).
Proof.
  split; [ | split].
  - intros rel safe Hres Hout. rewrite (serve_file_escape rel safe Hres Hout). done.
  - apply serve_file_ok_inside.
  - intros Hlex.
    assert (Hget : do_GET (lit "/assets/../../etc/passwd")
                   = _serve_file (lstrip_chars (lit "/") (lit "/assets/../../etc/passwd")))
      by (vm_compute; reflexivity).
    rewrite Hget, (serve_file_escape _ _ (Hlex _) (traversal_resolves_outside module_dir)).
    done.
Qed.

(** C9 as the code has it. For a resolved path inside the web root:
    when [exists()] answers no, or [exists()] answers yes and [is_dir()]
    answers yes, the answer is 404 and nothing is read; when the path is
    a file and [read_bytes()] returns its bytes, the answer is 200 with a
    Content-Type chosen by the suffix of the path (.html, .css, .js, and
    plain text for anything else), a Content-Length that is the decimal
    numeral of the number of bytes read, and those bytes as the body; and
    when [exists()], [is_dir()] or [read_bytes()] raises, [_serve_file]
    ends with that exception and has sent no status. *)
Theorem contained_path_is_served (fs : FileSystem) (rel : str) (safe : Path) :
  fs_resolve (truediv WEB_DIR rel) = inr safe ->
  within WEB_DIR safe ->
  (fs_exists safe = inr false
   \/ (fs_exists safe = inr true /\ fs_is_dir safe = inr true) ->
   (_serve_file rel).2 = inr tt
   /\ statuses (_serve_file rel).1 = [NOT_FOUND]
   /\ ~ In (path_read_bytes safe) (_serve_file rel).1)
  /\ (fs_exists safe = inr true -> fs_is_dir safe = inr false ->
      forall body, fs_read_bytes safe = inr body ->
      exists ct len,
        _serve_file rel
        = ([ path_resolve (truediv WEB_DIR rel);
             path_exists safe; path_is_dir safe; path_read_bytes safe;
             send_response OK;
             send_header (lit "Content-Type") ct;
             send_header (lit "Content-Length") len;
             end_headers;
             wfile_write body ], inr tt)
        /\ is_decimal len
        /\ decimal_value len = N.of_nat (length body)
        /\ (suffix safe = lit ".html" -> ct = lit "text/html; charset=utf-8")
        /\ (suffix safe = lit ".css" -> ct = lit "text/css; charset=utf-8")
        /\ (suffix safe = lit ".js" -> ct = lit "application/javascript; charset=utf-8")
        /\ (suffix safe <> lit ".html" -> suffix safe <> lit ".css" ->
            suffix safe <> lit ".js" -> ct = lit "text/plain; charset=utf-8"))
  /\ (forall e,
        fs_exists safe = inl e
        \/ (fs_exists safe = inr true /\ fs_is_dir safe = inl e)
        \/ (fs_exists safe = inr true /\ fs_is_dir safe = inr false
            /\ fs_read_bytes safe = inl e) ->
        (_serve_file rel).2 = inl e
        /\ statuses (_serve_file rel).1 = []).
Proof.
  intros Hres Hin. unfold _serve_file.
  rewrite Hres, bind_observe, (serve_file_inside rel safe Hres Hin).
  split; [ | split].
  - intros [Hex | [Hex Hdir]]; rewrite Hex; [ | rewrite Hdir]; cbn.
    + repeat split. intros [? | [? | [? | []]]]; discriminate.
    + repeat split. intros [? | [? | [? | [? | []]]]]; discriminate.
  - intros Hex Hdir body Hbody. rewrite Hex, Hdir, Hbody.
    eexists _, (str_of_len body). split; [reflexivity | ].
    split; [apply str_of_N_decimal | ]. split; [apply str_of_N_decimal | ].
    repeat match goal with |- _ /\ _ => split end.
    + intros ->. by vm_compute.
    + intros ->. by vm_compute.
    + intros ->. by vm_compute.
    + intros H1%str_eqb_neq H2%str_eqb_neq H3%str_eqb_neq. by rewrite H1, H2, H3.
  - intros e [Hex | [[Hex Hdir] | (Hex & Hdir & Hread)]].
    + by rewrite Hex.
    + by rewrite Hex, Hdir.
    + by rewrite Hex, Hdir, Hread.
Qed.

(** ** The ask endpoint *)

Lemma str_eqb_refl (a : str) : str_eqb a a = true.
Proof. by apply str_eqb_eq. Qed.

Lemma statuses_calls (log : list call) : statuses (map responses_create_call log) = [].
Proof. induction log as [|c log IH]; [done | exact IH]. Qed.

Section AskFacts.
Context {lib : PyLib} {svc : Service}.

(** Brings [do_POST] on a request that reads a body to the point where
    the body is parsed. *)
Ltac read_body Hreq :=
  let Hpath := fresh "Hpath" in
  let Hint := fresh "Hint" in
  let Hread := fresh "Hread" in
  destruct Hreq as (Hpath & Hint & Hread);
  unfold do_POST, bindM, liftW;
  rewrite Hpath, str_eqb_refl, Hint; cbn [negb];
  rewrite Hread; cbn [observe].

(** C10. With an engine configured, a body that parses as JSON but not
    as an object makes the handler raise [AttributeError] at
    [payload.get]; nothing is sent for the request, neither a 400 nor
    any other status, and the engine is not called. *)
Theorem non_object_body_raises (a : CodexLite) (req : Request) (s : svc_state)
    (n : Z) (raw : bytes) (v : pyval) :
  reads_body req n raw ->
  json_loads raw = inr v ->
  is_dict v = false ->
  do_POST (Some a) req s = (([rfile_read n], inl AttributeError), s)
  /\ statuses [rfile_read n] = []
  /\ engine_calls [rfile_read n] = [].
Proof.
  intros Hreq Hv Hnd. split; [ | done].
  read_body Hreq. rewrite Hv. by destruct v.
Qed.

(** C7 as the code has it. With an engine configured, a body that
    parses as a JSON object whose prompt, coerced to [str] and stripped,
    is empty (a missing prompt counts as the empty string) is answered
    400 with the payload [{"error": "prompt is required"}]; the engine is
    not called and the service is left as it was. *)
Theorem empty_prompt_is_rejected (a : CodexLite) (req : Request) (s : svc_state)
    (n : Z) (raw : bytes) (d : gmap str pyval) :
  reads_body req n raw ->
  json_loads raw = inr (PyDict d) ->
  prompt_of d = [] ->
  exists body,
    encode_utf8 (json_dumps [(lit "error", lit "prompt is required")]) = inr body
    /\ do_POST (Some a) req s
       = ((rfile_read n :: json_response BAD_REQUEST body, inr tt), s)
    /\ statuses (rfile_read n :: json_response BAD_REQUEST body) = [BAD_REQUEST]
    /\ engine_calls (rfile_read n :: json_response BAD_REQUEST body) = [].
Proof.
  intros Hreq Hd Hempty. eexists. split; [apply encode_utf8_ascii, json_dumps_ascii | ].
  split; [ | done].
  read_body Hreq. rewrite Hd. cbn [py_get bind].
  unfold prompt_of in Hempty. rewrite Hempty, send_json_events. reflexivity.
Qed.

(** C3 as the code has it. For a POST to [/api/ask]: with no engine
    configured the answer is 500 with [{"error": "assistant not
    configured"}] whatever the body is, and the body is not read; with an
    engine configured, a body on which [json.loads] raises
    [JSONDecodeError] is answered 400 with [{"error": "invalid JSON
    body"}]; and in every case the engine is called only after the body
    has been read, has parsed as an object and has given a non-empty
    stripped prompt. *)
Theorem configuration_check_comes_first (req : Request) (s : svc_state) :
  path req = lit "/api/ask" ->
  (exists body,
     encode_utf8 (json_dumps [(lit "error", lit "assistant not configured")]) = inr body
     /\ do_POST None req s = ((json_response INTERNAL_SERVER_ERROR body, inr tt), s))
  /\ (forall a n raw,
        reads_body req n raw ->
        json_loads raw = inl JSONDecodeError ->
        exists body,
          encode_utf8 (json_dumps [(lit "error", lit "invalid JSON body")]) = inr body
          /\ do_POST (Some a) req s
             = ((rfile_read n :: json_response BAD_REQUEST body, inr tt), s))
  /\ (forall assistant,
        engine_calls (trace_of (do_POST assistant req s)) <> [] ->
        exists a n raw d,
          assistant = Some a /\ reads_body req n raw
          /\ json_loads raw = inr (PyDict d) /\ prompt_of d <> []).
Proof.
  intros Hpath. repeat match goal with |- _ /\ _ => split end.
  - eexists. split; [apply encode_utf8_ascii, json_dumps_ascii | ].
    unfold do_POST, liftW. by rewrite Hpath, str_eqb_refl, send_json_events.
  - intros a n raw Hreq Hbad.
    eexists. split; [apply encode_utf8_ascii, json_dumps_ascii | ].
    read_body Hreq. by rewrite Hbad, send_json_events.
  - intros [a | ]; unfold trace_of, do_POST, bindM, liftW;
      rewrite Hpath, str_eqb_refl; cbn [negb].
    2: { rewrite send_json_events. by intros []. }
    destruct (py_int (default (lit "0") (content_length req))) as [e | n] eqn:Hint;
      [by intros [] | ].
    destruct (rfile_read_result (rfile req) n) as [e | raw] eqn:Hread;
      [by intros [] | ].
    cbn [observe].
    destruct (json_loads raw) as [e | v] eqn:Hv.
    { destruct e; rewrite ?send_json_events; by intros []. }
    destruct v as [ | | | | | | d]; try by intros [].
    cbn [py_get bind].
    destruct (strip (py_str (default (PyStr []) (d !! lit "prompt")))) as [|ch prompt] eqn:Hp.
    { rewrite send_json_events. by intros []. }
    intros _. exists a, n, raw, d. unfold reads_body, prompt_of.
    by rewrite Hp.
Qed.

(** C1 as the code has it. When a request has passed validation and
    the run of [answer] ends with an exception, [do_POST] ends with that
    same exception: it has sent nothing for the request, no status line
    and no body, and there is no conversion into a response. *)
Theorem engine_failure_propagates (a : CodexLite) (req : Request) (s s' : svc_state)
    (n : Z) (raw : bytes) (d : gmap str pyval) (log : list call) (e : exn) :
  reads_body req n raw ->
  json_loads raw = inr (PyDict d) ->
  prompt_of d <> [] ->
  run (answer a (prompt_of d)) s = (log, inl e, s') ->
  do_POST (Some a) req s
  = ((rfile_read n :: map responses_create_call log, inl e), s')
  /\ statuses (rfile_read n :: map responses_create_call log) = [].
Proof.
  intros Hreq Hd Hne Hrun. split; [ | apply statuses_calls].
  read_body Hreq. rewrite Hd. cbn [py_get bind]. unfold prompt_of in *.
  destruct (strip (py_str (default (PyStr []) (d !! lit "prompt")))) as [|ch prompt];
    [done | ].
  unfold engine. by rewrite Hrun.
Qed.

(** The success path: a validated request whose run of [answer] returns
    is answered 200 with [{"answer": <text>}]. *)
Lemma ask_success (a : CodexLite) (req : Request) (s s' : svc_state)
    (n : Z) (raw : bytes) (d : gmap str pyval) (log : list call) (text : str) :
  reads_body req n raw ->
  json_loads raw = inr (PyDict d) ->
  prompt_of d <> [] ->
  run (answer a (prompt_of d)) s = (log, inr text, s') ->
  exists body,
    encode_utf8 (json_dumps [(lit "answer", text)]) = inr body
    /\ do_POST (Some a) req s
       = ((rfile_read n :: map responses_create_call log ++ json_response OK body,
           inr tt), s').
Proof.
  intros Hreq Hd Hne Hrun.
  eexists. split; [apply encode_utf8_ascii, json_dumps_ascii | ].
  read_body Hreq. rewrite Hd. cbn [py_get bind]. unfold prompt_of in *.
  destruct (strip (py_str (default (PyStr []) (d !! lit "prompt")))) as [|ch prompt];
    [done | ].
  unfold engine. by rewrite Hrun, send_json_events.
Qed.
End AskFacts.

(** ** The properties on concrete runs *)

(** An environment with no key: the engine is offline and echoes the prompt. *)
Lemma offline_answer_witness :
  OPENAI_API_KEY no_key_environ = None
  /\ CodexLite_init LiteConfig_default no_key_environ
     = inr {| config := LiteConfig_default; client := None |}
  /\ forall (p : str) (s : nat),
       @run echo_service str (answer {| config := LiteConfig_default; client := None |} p) s
       = ([], inr (_offline_answer p), s)
       /\ substring p (_offline_answer p).
Proof.
  split; [reflexivity | ].
  apply (@offline_answer_is_pure echo_service LiteConfig_default no_key_environ).
  left. reflexivity.
Defined.

(** The default configuration against the echoing service: four calls, the third at 0.0. *)
Lemma critique_temperature_witness :
  let out := @run echo_service str (answer sample_engine (lit "sort a list")) 0 in
  (forall i kw o, out.1.1 !! i = Some (kw, o) ->
     kw_temperature kw = (if Nat.eqb i 2 then float_zero else float_0_1)
     /\ kw_max_output_tokens kw = nth i [280; 900; 280]%Z 900%Z
     /\ startswith (user_message kw) (lit "Critique the draft answer") = Nat.eqb i 2)
  /\ length out.1.1 <= 4
  /\ (forall t, out.1.2 = inr t -> length out.1.1 = 4).
Proof.
  intros out.
  apply (@critique_temperature_is_zero echo_service LiteConfig_default OpenAIClient
           (lit "sort a list") 0 out.2 out.1.1 out.1.2).
  vm_compute. reflexivity.
Defined.

(** The same run returns, and its last prompt holds the three earlier replies. *)
Lemma final_prompt_witness :
  let out := @run echo_service str (answer sample_engine (lit "sort a list")) 0 in
  let t := match out.1.2 with inr t => t | inl _ => [] end in
  out = (out.1.1, inr t, 4)
  /\ exists k1 k2 k3 k4 plan draft critique final,
       out.1.1 = [(k1, inr plan); (k2, inr draft); (k3, inr critique); (k4, inr final)]
       /\ t = output_text final
       /\ substring (lit "sort a list") (user_message k4)
       /\ substring (output_text plan) (user_message k4)
       /\ substring (output_text draft) (user_message k4)
       /\ substring (output_text critique) (user_message k4).
Proof.
  intros out t.
  assert (Hrun : out = (out.1.1, inr t, 4)) by (vm_compute; reflexivity).
  split; [exact Hrun | ].
  destruct (proj2 (@final_prompt_threads_stages echo_service LiteConfig_default
                     OpenAIClient (lit "sort a list") 0) _ _ _ Hrun)
    as (k1 & k2 & k3 & k4 & plan & draft & critique & final & s1 & s2 & s3
        & Hlog & _ & _ & _ & _ & Ht & _ & _ & _ & _ & Hu & Hp & Hd & Hc).
  exists k1, k2, k3, k4, plan, draft, critique, final. auto 10.
Defined.

(** The sample installation: the traversal resolves to an existing file
    outside the bundle and is refused without being looked at. *)
Lemma escaping_path_witness :
  let rel := lit "assets/../../etc/passwd" in
  let safe := abs_path "/srv/codex/etc/passwd" in
  (@fs_resolve sample_fs (truediv (@WEB_DIR sample_fs) rel) = inr safe
   /\ @fs_exists sample_fs safe = inr true
   /\ ~ within (@WEB_DIR sample_fs) safe)
  /\ (@_serve_file sample_fs rel
      = ([path_resolve (truediv (@WEB_DIR sample_fs) rel);
          send_error FORBIDDEN (lit "Forbidden")], inr tt)
      /\ statuses (@_serve_file sample_fs rel).1 = [FORBIDDEN]
      /\ file_accesses (@_serve_file sample_fs rel).1 = [])
  /\ (statuses (@do_GET sample_fs (lit "/assets/../../etc/passwd")).1 = [FORBIDDEN]
      /\ file_accesses (@do_GET sample_fs (lit "/assets/../../etc/passwd")).1 = []).
Proof.
  intros rel safe.
  assert (Hres : @fs_resolve sample_fs (truediv (@WEB_DIR sample_fs) rel) = inr safe)
    by (vm_compute; reflexivity).
  assert (Hout : ~ within (@WEB_DIR sample_fs) safe).
  { intros Hin%contained_within. vm_compute in Hin. discriminate. }
  destruct (escaping_path_is_forbidden sample_fs) as (Hesc & _ & Hget).
  split; [split; [exact Hres | split; [vm_compute; reflexivity | exact Hout]] | ].
  split; [exact (Hesc rel safe Hres Hout) | ].
  apply Hget. intros p. reflexivity.
Defined.

(** The sample installation: a missing asset and a directory give 404, a
    script is served with its type and length, and a name the system
    refuses ends the handler with the exception. *)
Lemma contained_path_witness :
  (statuses (@_serve_file sample_fs (lit "assets/missing.css")).1 = [NOT_FOUND]
   /\ statuses (@_serve_file sample_fs (lit "assets")).1 = [NOT_FOUND])
  /\ ((@_serve_file sample_fs (lit "assets/" ++ repeat 97%N 300)).2 = inl OSError
      /\ statuses (@_serve_file sample_fs (lit "assets/" ++ repeat 97%N 300)).1 = [])
  /\ exists len,
       @_serve_file sample_fs (lit "assets/app.js")
       = ([ path_resolve (abs_path "/srv/codex/web/assets/app.js");
            path_exists (abs_path "/srv/codex/web/assets/app.js");
            path_is_dir (abs_path "/srv/codex/web/assets/app.js");
            path_read_bytes (abs_path "/srv/codex/web/assets/app.js");
            send_response OK;
            send_header (lit "Content-Type") (lit "application/javascript; charset=utf-8");
            send_header (lit "Content-Length") len;
            end_headers;
            wfile_write (blit "let x = 1;") ], inr tt)
       /\ decimal_value len = 10%N.
Proof.
  split; [split | split].
  3: { refine (proj2 (proj2 (contained_path_is_served sample_fs
                 (lit "assets/" ++ repeat 97%N 300)
                 {| dslash := false;
                    parts := [lit "srv"; lit "codex"; lit "web"; lit "assets";
                              repeat 97%N 300] |} _ _)) OSError _).
       - vm_compute; reflexivity.
       - apply contained_within; vm_compute; reflexivity.
       - left. vm_compute; reflexivity. }
  - refine (proj1 (proj2 (proj1 (contained_path_is_served sample_fs
              (lit "assets/missing.css") (abs_path "/srv/codex/web/assets/missing.css")
              _ _) _))).
    + vm_compute; reflexivity.
    + apply contained_within; vm_compute; reflexivity.
    + left. vm_compute; reflexivity.
  - refine (proj1 (proj2 (proj1 (contained_path_is_served sample_fs
              (lit "assets") (abs_path "/srv/codex/web/assets") _ _) _))).
    + vm_compute; reflexivity.
    + apply contained_within; vm_compute; reflexivity.
    + right. split; vm_compute; reflexivity.
  - destruct (proj1 (proj2 (contained_path_is_served sample_fs
                (lit "assets/app.js") (abs_path "/srv/codex/web/assets/app.js")
                ltac:(vm_compute; reflexivity)
                ltac:(apply contained_within; vm_compute; reflexivity)))
              ltac:(vm_compute; reflexivity) ltac:(vm_compute; reflexivity)
              (blit "let x = 1;") ltac:(vm_compute; reflexivity))
      as (ct & len & Hserve & _ & Hlen & _ & _ & Hjs & _).
    exists len. rewrite Hserve, (Hjs ltac:(vm_compute; reflexivity)).
    split; [vm_compute; reflexivity | exact Hlen].
Defined.

(** A JSON array as body. *)
Lemma non_object_body_witness :
  let req := ask_request (jlit "[1, 2]") in
  (@reads_body reference_lib req 6 (jlit "[1, 2]")
   /\ loads_bytes (jlit "[1, 2]") = inr (PyList [PyInt 1; PyInt 2]))
  /\ @do_POST reference_lib echo_service (Some sample_engine) req 0
     = (([rfile_read 6], inl AttributeError), 0)
  /\ statuses [rfile_read 6] = []
  /\ engine_calls [rfile_read 6] = [].
Proof.
  intros req.
  assert (Hreq : @reads_body reference_lib req 6 (jlit "[1, 2]"))
    by (repeat split; vm_compute; reflexivity).
  assert (Hv : loads_bytes (jlit "[1, 2]") = inr (PyList [PyInt 1; PyInt 2]))
    by (vm_compute; reflexivity).
  split; [by split | ].
  apply (@non_object_body_raises reference_lib echo_service sample_engine req 0 6
           (jlit "[1, 2]") (PyList [PyInt 1; PyInt 2]) Hreq Hv).
  reflexivity.
Defined.

(** A prompt of two spaces. *)
Lemma empty_prompt_witness :
  let raw := jlit "{'prompt': '  '}" in
  let d : gmap str pyval := {[ lit "prompt" := PyStr (lit "  ") ]} in
  (@reads_body reference_lib (ask_request raw) 16 raw
   /\ loads_bytes raw = inr (PyDict d)
   /\ @prompt_of reference_lib d = [])
  /\ exists body,
       encode_utf8 (json_dumps [(lit "error", lit "prompt is required")]) = inr body
       /\ @do_POST reference_lib echo_service (Some sample_engine) (ask_request raw) 0
          = ((rfile_read 16 :: json_response BAD_REQUEST body, inr tt), 0)
       /\ statuses (rfile_read 16 :: json_response BAD_REQUEST body) = [BAD_REQUEST]
       /\ engine_calls (rfile_read 16 :: json_response BAD_REQUEST body) = [].
Proof.
  intros raw d.
  assert (Hreq : @reads_body reference_lib (ask_request raw) 16 raw)
    by (repeat split; vm_compute; reflexivity).
  assert (Hd : loads_bytes raw = inr (PyDict d)) by (vm_compute; reflexivity).
  assert (Hp : @prompt_of reference_lib d = []) by (vm_compute; reflexivity).
  split; [by repeat split | ].
  exact (@empty_prompt_is_rejected reference_lib echo_service sample_engine
           (ask_request raw) 0 16 raw d Hreq Hd Hp).
Defined.

(** A body that is not JSON, without and with an engine. *)
Lemma configuration_check_witness :
  let raw := blit "not json" in
  (path (ask_request raw) = lit "/api/ask"
   /\ @reads_body reference_lib (ask_request raw) 8 raw
   /\ loads_bytes raw = inl JSONDecodeError)
  /\ (exists body,
        encode_utf8 (json_dumps [(lit "error", lit "assistant not configured")]) = inr body
        /\ @do_POST reference_lib echo_service None (ask_request raw) 0
           = ((json_response INTERNAL_SERVER_ERROR body, inr tt), 0))
  /\ (exists body,
        encode_utf8 (json_dumps [(lit "error", lit "invalid JSON body")]) = inr body
        /\ @do_POST reference_lib echo_service (Some sample_engine) (ask_request raw) 0
           = ((rfile_read 8 :: json_response BAD_REQUEST body, inr tt), 0)).
Proof.
  intros raw.
  assert (Hreq : @reads_body reference_lib (ask_request raw) 8 raw)
    by (repeat split; vm_compute; reflexivity).
  assert (Hbad : loads_bytes raw = inl JSONDecodeError) by (vm_compute; reflexivity).
  destruct (@configuration_check_comes_first reference_lib echo_service
              (ask_request raw) 0 eq_refl) as (Hnone & Hsome & _).
  split; [by repeat split | ].
  split; [exact Hnone | exact (Hsome sample_engine 8%Z raw Hreq Hbad)].
Defined.

(** A service whose first call fails. *)
Lemma engine_failure_witness :
  let raw := jlit "{'prompt': 'hi'}" in
  let d : gmap str pyval := {[ lit "prompt" := PyStr (lit "hi") ]} in
  let svc := failing_service 0 in
  let log := (@run svc str (answer sample_engine (lit "hi")) 0).1.1 in
  (@reads_body reference_lib (ask_request raw) 16 raw
   /\ loads_bytes raw = inr (PyDict d)
   /\ @prompt_of reference_lib d = lit "hi"
   /\ @run svc str (answer sample_engine (lit "hi")) 0
      = (log, inl (APIError (lit "upstream failure")), 1))
  /\ @do_POST reference_lib svc (Some sample_engine) (ask_request raw) 0
     = ((rfile_read 16 :: map responses_create_call log,
         inl (APIError (lit "upstream failure"))), 1)
  /\ statuses (rfile_read 16 :: map responses_create_call log) = [].
Proof.
  intros raw d svc log.
  assert (Hreq : @reads_body reference_lib (ask_request raw) 16 raw)
    by (repeat split; vm_compute; reflexivity).
  assert (Hd : loads_bytes raw = inr (PyDict d)) by (vm_compute; reflexivity).
  assert (Hp : @prompt_of reference_lib d = lit "hi") by (vm_compute; reflexivity).
  assert (Hrun : @run svc str (answer sample_engine (@prompt_of reference_lib d)) 0
                 = (log, inl (APIError (lit "upstream failure")), 1))
    by (vm_compute; reflexivity).
  split; [repeat split; try done; by rewrite <- Hp | ].
  apply (@engine_failure_propagates reference_lib svc sample_engine (ask_request raw)
           0 1 16 raw d log (APIError (lit "upstream failure")) Hreq Hd); [ | exact Hrun].
  rewrite Hp. vm_compute. discriminate.
Defined.

(** ** Where the stated behaviour and the code part *)

(** C1, stated: a failing completion call yields a 5xx response.  On the
    code: the first call of the pipeline fails, [do_POST] ends with the
    exception, and no status line is sent. *)
Lemma engine_failure_sends_no_response :
  let svc := failing_service 0 in
  let req := ask_request (jlit "{'prompt': 'hi'}") in
  let out := @do_POST reference_lib svc (Some sample_engine) req 0 in
  (@run svc str (answer sample_engine (lit "hi")) 0).1.2
  = inl (APIError (lit "upstream failure"))
  /\ result_of out = inl (APIError (lit "upstream failure"))
  /\ statuses (trace_of out) = []
  /\ ~ server_error_sent (trace_of out).
Proof.
  intros svc req out.
  assert (Hst : statuses (trace_of out) = []) by (vm_compute; reflexivity).
  repeat split; try (vm_compute; reflexivity).
  intros (st & Hin & _). rewrite Hst in Hin. destruct Hin.
Qed.

(** C3, stated: a body that is not JSON is answered 400 whether or not
    an engine is configured.  On the code: with no engine configured the
    same body is answered 500, before it is read. *)
Lemma invalid_json_without_engine_is_500 :
  let req := ask_request (blit "not json") in
  let out := @do_POST reference_lib echo_service None req 0 in
  loads_bytes (rfile req) = inl JSONDecodeError
  /\ statuses (trace_of out) = [INTERNAL_SERVER_ERROR]
  /\ statuses (trace_of out) <> [BAD_REQUEST]
  /\ ~ In (rfile_read 8) (trace_of out).
Proof.
  intros req out.
  assert (Hst : trace_of out
                = json_response INTERNAL_SERVER_ERROR
                    (map octet (json_dumps [(lit "error", lit "assistant not configured")])))
    by (vm_compute; reflexivity).
  rewrite Hst. repeat split; try (vm_compute; reflexivity).
  - discriminate.
  - intros [? | [? | [? | [? | [? | []]]]]]; discriminate.
Qed.

(** C7, stated: a blank prompt is answered 400.  On the code: with no
    engine configured the answer is 500. *)
Lemma blank_prompt_without_engine_is_500 :
  let req := ask_request (jlit "{'prompt': '  '}") in
  let out := @do_POST reference_lib echo_service None req 0 in
  (exists d, loads_bytes (rfile req) = inr (PyDict d) /\ @prompt_of reference_lib d = [])
  /\ statuses (trace_of out) = [INTERNAL_SERVER_ERROR]
  /\ statuses (trace_of out) <> [BAD_REQUEST].
Proof.
  intros req out. split; [ | split].
  - exists {[ lit "prompt" := PyStr (lit "  ") ]}. split; vm_compute; reflexivity.
  - vm_compute; reflexivity.
  - assert (Hst : statuses (trace_of out) = [INTERNAL_SERVER_ERROR])
      by (vm_compute; reflexivity).
    rewrite Hst. discriminate.
Qed.

(** C9, stated: a contained path that does not exist is answered 404.
    On the code: a request for a name longer than the system takes
    resolves inside the bundle and is no file of the tree, yet the
    handler ends with the exception [exists()] raises: no status line is
    sent, neither 404 nor another. *)
Lemma long_name_sends_no_response :
  let name := repeat 97%N 300 in
  let rel := lit "assets/" ++ name in
  let safe := {| dslash := false;
                 parts := [lit "srv"; lit "codex"; lit "web"; lit "assets"; name] |} in
  let out := @do_GET sample_fs (lit "/" ++ rel) in
  @fs_resolve sample_fs (truediv (@WEB_DIR sample_fs) rel) = inr safe
  /\ within (@WEB_DIR sample_fs) safe
  /\ tree_lookup sample_tree safe = None
  /\ out = ([path_resolve (truediv (@WEB_DIR sample_fs) rel); path_exists safe],
            inl OSError)
  /\ statuses out.1 = []
  /\ ~ In NOT_FOUND (statuses out.1).
Proof.
  intros name rel safe out.
  assert (Hst : statuses out.1 = []) by (vm_compute; reflexivity).
  repeat match goal with |- _ /\ _ => split end; try (vm_compute; reflexivity).
  - apply contained_within. vm_compute. reflexivity.
  - rewrite Hst. intros [].
Qed.

(* ================================================================== *)
(** * Further properties of the handlers *)
(* ================================================================== *)

Lemma statuses_app (t t' : list event) : statuses (t ++ t') = statuses t ++ statuses t'.
Proof. unfold statuses. apply omap_app. Qed.

Lemma statuses_json_response (status : Z) (body : bytes) :
  statuses (json_response status body) = [status].
Proof. reflexivity. Qed.

Section StaticFileMore.
Context {fs : FileSystem}.

(** The ways a run of [_serve_file] can go, by what the file system
    answers. *)
Lemma serve_file_cases (rel : str) :
  (exists e, fs_resolve (truediv WEB_DIR rel) = inl e
             /\ _serve_file rel = ([path_resolve (truediv WEB_DIR rel)], inl e))
  \/ (exists safe, fs_resolve (truediv WEB_DIR rel) = inr safe /\ ~ within WEB_DIR safe
        /\ _serve_file rel
           = ([path_resolve (truediv WEB_DIR rel); send_error FORBIDDEN (lit "Forbidden")],
              inr tt))
  \/ (exists safe, fs_resolve (truediv WEB_DIR rel) = inr safe /\ within WEB_DIR safe
        /\ ((exists e, fs_exists safe = inl e
               /\ _serve_file rel
                  = ([path_resolve (truediv WEB_DIR rel); path_exists safe], inl e))
            \/ (fs_exists safe = inr false
                /\ _serve_file rel
                   = ([path_resolve (truediv WEB_DIR rel); path_exists safe;
                       send_error NOT_FOUND (lit "Not Found")], inr tt))
            \/ (fs_exists safe = inr true
                /\ exists e, fs_is_dir safe = inl e
                   /\ _serve_file rel
                      = ([path_resolve (truediv WEB_DIR rel); path_exists safe;
                          path_is_dir safe], inl e))
            \/ (fs_exists safe = inr true /\ fs_is_dir safe = inr true
                /\ _serve_file rel
                   = ([path_resolve (truediv WEB_DIR rel); path_exists safe;
                       path_is_dir safe; send_error NOT_FOUND (lit "Not Found")], inr tt))
            \/ (fs_exists safe = inr true /\ fs_is_dir safe = inr false
                /\ exists e, fs_read_bytes safe = inl e
                   /\ _serve_file rel
                      = ([path_resolve (truediv WEB_DIR rel); path_exists safe;
                          path_is_dir safe; path_read_bytes safe], inl e))
            \/ (fs_exists safe = inr true /\ fs_is_dir safe = inr false
                /\ exists body ct, fs_read_bytes safe = inr body
                   /\ ct = (if str_eqb (suffix safe) (lit ".html")
                            then lit "text/html; charset=utf-8"
                            else if str_eqb (suffix safe) (lit ".css")
                            then lit "text/css; charset=utf-8"
                            else if str_eqb (suffix safe) (lit ".js")
                            then lit "application/javascript; charset=utf-8"
                            else lit "text/plain; charset=utf-8")
                   /\ _serve_file rel
                      = ([path_resolve (truediv WEB_DIR rel); path_exists safe;
                          path_is_dir safe; path_read_bytes safe;
                          send_response OK;
                          send_header (lit "Content-Type") ct;
                          send_header (lit "Content-Length") (str_of_len body);
                          end_headers; wfile_write body], inr tt)))).
Proof.
  destruct (fs_resolve (truediv WEB_DIR rel)) as [e | safe] eqn:Hres.
  { left. exists e. split; [done | ]. unfold _serve_file. by rewrite Hres. }
  right.
  destruct (existsb (Path_eqb WEB_DIR) (parents safe) || Path_eqb safe WEB_DIR) eqn:Hc.
  2: { left. exists safe. assert (Hout : ~ within WEB_DIR safe).
       { intros Hin%contained_within. congruence. }
       split; [done | split; [done | by apply (serve_file_escape rel safe)]]. }
  apply contained_within in Hc. right. exists safe. split; [done | split; [done | ]].
  unfold _serve_file. rewrite Hres, bind_observe, (serve_file_inside rel safe Hres Hc).
  destruct (fs_exists safe) as [e | [ | ]] eqn:Hex.
  { left. by exists e. }
  2: { by right; left. }
  destruct (fs_is_dir safe) as [e | [ | ]] eqn:Hdir.
  { right; right; left. split; [done | ]. by exists e. }
  { by right; right; right; left. }
  destruct (fs_read_bytes safe) as [e | body] eqn:Hread.
  - right; right; right; right; left. split; [done | split; [done | ]]. by exists e.
  - right; right; right; right; right. split; [done | split; [done | ]]. by eexists body, _.
Qed.

(** X1. Whatever the request path and the file system, every existence
    test, directory test and read that [do_GET] makes is on a path that
    is the web root or lies below it. *)
Theorem file_accesses_stay_in_root (path : str) (ev : event) (p : Path) :
  In ev (do_GET path).1 ->
  accessed_path ev = Some p ->
  within WEB_DIR p.
Proof.
  assert (Hserve : forall rel, In ev (_serve_file rel).1 -> accessed_path ev = Some p ->
                               within WEB_DIR p).
  { intros rel Hin Hp.
    destruct (serve_file_cases rel)
      as [(e & _ & Heq)
         | [(safe & _ & _ & Heq)
           | (safe & _ & Hw & [(e & _ & Heq)
                              | [(_ & Heq)
                                | [(_ & e & _ & Heq)
                                  | [(_ & _ & Heq)
                                    | [(_ & _ & e & _ & Heq)
                                      | (_ & _ & b & ct & _ & _ & Heq)]]]]])]];
      rewrite Heq in Hin; cbn [fst] in Hin.
    all: repeat (destruct Hin as [<- | Hin]; [cbn in Hp; congruence | ]); destruct Hin. }
  unfold do_GET.
  destruct (str_eqb path (lit "/") || str_eqb path (lit "/index.html")); [apply Hserve | ].
  destruct (startswith path (lit "/assets/")); [apply Hserve | ].
  by intros [<- | []].
Qed.

(** X2. A GET either ends normally having sent exactly one status, which
    is 200, 403 or 404, or ends with an exception having sent none; the
    exception is then one that [resolve()], [exists()], [is_dir()] or
    [read_bytes()] raised, so a file that cannot be read is never half
    answered. *)
Theorem get_sends_one_status_or_raises (path : str) :
  ((do_GET path).2 = inr tt
   /\ exists st, statuses (do_GET path).1 = [st] /\ In st [OK; FORBIDDEN; NOT_FOUND])
  \/ (exists e, (do_GET path).2 = inl e
        /\ statuses (do_GET path).1 = []
        /\ ~ In (send_response OK) (do_GET path).1
        /\ exists p, fs_resolve p = inl e \/ fs_exists p = inl e
                     \/ fs_is_dir p = inl e \/ fs_read_bytes p = inl e).
Proof.
  assert (Hserve : forall rel,
    ((_serve_file rel).2 = inr tt
     /\ exists st, statuses (_serve_file rel).1 = [st] /\ In st [OK; FORBIDDEN; NOT_FOUND])
    \/ (exists e, (_serve_file rel).2 = inl e
          /\ statuses (_serve_file rel).1 = []
          /\ ~ In (send_response OK) (_serve_file rel).1
          /\ exists p, fs_resolve p = inl e \/ fs_exists p = inl e
                       \/ fs_is_dir p = inl e \/ fs_read_bytes p = inl e)).
  { intros rel.
    destruct (serve_file_cases rel)
      as [(e & Hres & Heq)
         | [(safe & _ & _ & Heq)
           | (safe & _ & Hw & [(e & Hex & Heq)
                              | [(_ & Heq)
                                | [(_ & e & Hdir & Heq)
                                  | [(_ & _ & Heq)
                                    | [(_ & _ & e & Hread & Heq)
                                      | (_ & _ & b & ct & _ & _ & Heq)]]]]])]];
      rewrite Heq; cbn [fst snd].
    - right. exists e. repeat split; eauto. by intros [? | []].
    - left. split; [done | ]. exists FORBIDDEN. cbn. auto.
    - right. exists e. repeat split; eauto.
      intros [? | [? | []]]; discriminate.
    - left. split; [done | ]. exists NOT_FOUND. cbn. auto.
    - right. exists e. repeat split; eauto.
      intros [? | [? | [? | []]]]; discriminate.
    - left. split; [done | ]. exists NOT_FOUND. cbn. auto.
    - right. exists e. repeat split; eauto 6.
      intros [? | [? | [? | [? | []]]]]; discriminate.
    - left. split; [done | ]. exists OK. cbn. auto. }
  unfold do_GET.
  destruct (str_eqb path (lit "/") || str_eqb path (lit "/index.html")); [apply Hserve | ].
  destruct (startswith path (lit "/assets/")); [apply Hserve | ].
  left. split; [done | ]. exists NOT_FOUND. cbn. auto.
Qed.
End StaticFileMore.

Lemma dropwhile_head {A} (f : A -> bool) (l : list A) (x : A) (l' : list A) :
  dropwhile f l = x :: l' -> f x = false.
Proof.
  induction l as [|y l IH]; [done | ]. cbn [dropwhile].
  destruct (f y) eqn:Hy; [exact IH | ]. by intros [= <- _].
Qed.

Lemma startswith_slash (c : N) (r : str) : startswith (c :: r) [47%N] = (c =? 47)%N.
Proof. cbn [startswith]. destruct r; apply andb_true_r. Qed.

(** A text that does not open with a slash is joined below the base. *)
Lemma truediv_relative (base : Path) (rel : str) :
  startswith rel [47%N] = false ->
  truediv base rel = {| dslash := dslash base; parts := parts base ++ parse_parts rel |}.
Proof.
  destruct rel as [|c rel]; [done | ].
  rewrite startswith_slash. intros Hc%N.eqb_neq. unfold truediv.
  destruct c as [|q]; [done | ].
  do 6 (try (destruct q as [q | q | ]; try done)).
Qed.

Lemma lstrip_slash_relative (s : str) : startswith (lstrip_chars [47%N] s) [47%N] = false.
Proof.
  unfold lstrip_chars.
  destruct (dropwhile _ s) as [|c r] eqn:Hd; [done | ].
  apply dropwhile_head in Hd. cbn in Hd. rewrite orb_false_r in Hd.
  by rewrite startswith_slash.
Qed.

Lemma normparts_no_dotdot (l : list str) : no_dotdot l -> normparts l = l.
Proof.
  unfold normparts.
  assert (Hgen : forall stk,
            no_dotdot l ->
            fold_left (fun stk c => if str_eqb c (lit "..") then tail stk else c :: stk) l stk
            = rev l ++ stk).
  { induction l as [|c l IH]; intros stk Hl; [done | ].
    apply Forall_cons in Hl as [Hc%str_eqb_neq Hl]. cbn [fold_left rev].
    rewrite Hc, IH by done. by rewrite <- app_assoc. }
  intros Hl. by rewrite Hgen, app_nil_r, rev_involutive.
Qed.

Section StaticFileRoutes.
Context {fs : FileSystem}.

Lemma web_dir_parts :
  WEB_DIR = {| dslash := dslash module_dir; parts := parts module_dir ++ [lit "web"] |}.
Proof.
  unfold WEB_DIR. rewrite truediv_relative by (vm_compute; reflexivity).
  assert (Hpp : parse_parts (lit "web") = [lit "web"]) by (vm_compute; reflexivity).
  by rewrite Hpp.
Qed.

(** X3. The path [do_GET] hands to resolution is always the web root
    followed by components of the request: the leading slashes are
    stripped before the join, so no request path, however many slashes it
    opens with, replaces the root by an absolute path. *)
Theorem get_joins_below_root (path : str) (p : Path) :
  In (path_resolve p) (do_GET path).1 ->
  dslash p = dslash WEB_DIR
  /\ exists rel, parts p = parts WEB_DIR ++ parse_parts rel
                 /\ (rel = lit "index.html" \/ rel = lstrip_chars (lit "/") path).
Proof.
  assert (Hserve : forall rel, startswith rel [47%N] = false ->
            In (path_resolve p) (_serve_file rel).1 ->
            dslash p = dslash WEB_DIR /\ parts p = parts WEB_DIR ++ parse_parts rel).
  { intros rel Hrel Hin.
    assert (Hp : p = truediv WEB_DIR rel).
    { destruct (serve_file_cases rel)
        as [(e & _ & Heq)
           | [(safe & _ & _ & Heq)
             | (safe & _ & Hw & [(e & _ & Heq)
                                | [(_ & Heq)
                                  | [(_ & e & _ & Heq)
                                    | [(_ & _ & Heq)
                                      | [(_ & _ & e & _ & Heq)
                                        | (_ & _ & b & ct & _ & _ & Heq)]]]]])]];
        rewrite Heq in Hin; cbn [fst] in Hin.
      all: repeat (destruct Hin as [Hin | Hin]; [congruence | ]); destruct Hin. }
    subst p. by rewrite (truediv_relative _ _ Hrel). }
  unfold do_GET.
  destruct (str_eqb path (lit "/") || str_eqb path (lit "/index.html")).
  { intros Hin. destruct (Hserve (lit "index.html") ltac:(vm_compute; reflexivity) Hin).
    split; [done | ]. exists (lit "index.html"). auto. }
  destruct (startswith path (lit "/assets/")); [ | by intros [? | []]].
  change (lit "/") with [47%N].
  intros Hin. destruct (Hserve _ (lstrip_slash_relative path) Hin).
  split; [done | ]. exists (lstrip_chars [47%N] path). auto.
Qed.

(** X4. GET [/] and GET [/index.html] serve the same file: when
    [web/index.html] resolves to itself, exists, is not a directory and
    can be read, the answer is 200 with content type
    [text/html; charset=utf-8] and the file's bytes. *)
Theorem index_is_served_as_html (body : bytes) :
  let index := truediv WEB_DIR (lit "index.html") in
  fs_resolve index = inr index ->
  fs_exists index = inr true ->
  fs_is_dir index = inr false ->
  fs_read_bytes index = inr body ->
  do_GET (lit "/") = do_GET (lit "/index.html")
  /\ do_GET (lit "/")
     = ([ path_resolve index; path_exists index; path_is_dir index;
          path_read_bytes index;
          send_response OK;
          send_header (lit "Content-Type") (lit "text/html; charset=utf-8");
          send_header (lit "Content-Length") (str_of_len body);
          end_headers;
          wfile_write body ], inr tt).
Proof.
  intros index Hres Hex Hdir Hread.
  assert (Hroute : forall q, q = lit "/" \/ q = lit "/index.html" ->
                             do_GET q = _serve_file (lit "index.html")).
  { intros q [-> | ->]; unfold do_GET.
    - by rewrite str_eqb_refl.
    - by rewrite str_eqb_refl, orb_true_r. }
  rewrite !Hroute by auto. split; [done | ].
  assert (Hin : within WEB_DIR index).
  { unfold index. rewrite truediv_relative by (vm_compute; reflexivity).
    split; [done | ]. by eexists. }
  assert (Hsuffix : suffix index = lit ".html").
  { unfold index, suffix, name.
    rewrite truediv_relative by (vm_compute; reflexivity). cbn [parts].
    assert (Hpp : parse_parts (lit "index.html") = [lit "index.html"])
      by (vm_compute; reflexivity).
    rewrite Hpp, last_snoc. vm_compute. reflexivity. }
  subst index.
  destruct (serve_file_cases (lit "index.html"))
    as [(e & He & _)
       | [(safe & Hs & Hout & _)
         | (safe & Hs & _ & [(e & Hx & _)
                            | [(Hx & _)
                              | [(_ & e & Hd & _)
                                | [(_ & Hd & _)
                                  | [(_ & _ & e & He & _)
                                    | (_ & _ & b & ct & Hb & Hct & Heq)]]]]])]];
    try congruence.
  assert (safe = truediv WEB_DIR (lit "index.html")) by congruence. subst safe.
  assert (b = body) by congruence. subst b.
  rewrite Hsuffix in Hct. rewrite Heq, Hct. reflexivity.
Qed.
End StaticFileRoutes.

Section LexicalResolution.
Context {fs : FileSystem}.

(** X5. Where resolution meets no symbolic link and the program's own
    directory has no double-dot component, a request whose path has no
    double-dot component is never answered 403: refusals come from
    double dots (or links) only. *)
Theorem request_without_dotdot_is_not_forbidden (path : str) :
  (forall p, fs_resolve p = inr (normpath p)) ->
  no_dotdot (parts module_dir) ->
  no_dotdot (parse_parts (lstrip_chars (lit "/") path)) ->
  ~ In FORBIDDEN (statuses (do_GET path).1).
Proof.
  intros Hlex Hmd Hreq.
  assert (Hserve : forall rel, startswith rel [47%N] = false -> no_dotdot (parse_parts rel) ->
                               ~ In FORBIDDEN (statuses (_serve_file rel).1)).
  { intros rel Hrel Hnd.
    assert (Hin : within WEB_DIR (normpath (truediv WEB_DIR rel))).
    { rewrite (truediv_relative _ _ Hrel). unfold normpath. cbn [dslash parts].
      rewrite normparts_no_dotdot.
      - split; [done | ]. by eexists.
      - rewrite web_dir_parts. cbn [parts]. unfold no_dotdot.
        rewrite !Forall_app. repeat split; [done | | done].
        constructor; [ | constructor]. by apply str_eqb_neq; vm_compute. }
    destruct (serve_file_cases rel)
      as [(e & He & _)
         | [(safe & Hs & Hout & _)
           | (safe & _ & _ & [(e & _ & Heq)
                              | [(_ & Heq)
                                | [(_ & e & _ & Heq)
                                  | [(_ & _ & Heq)
                                    | [(_ & _ & e & _ & Heq)
                                      | (_ & _ & b & ct & _ & _ & Heq)]]]]])]].
    - rewrite Hlex in He. discriminate.
    - rewrite Hlex in Hs. injection Hs as <-. by destruct Hout.
    - rewrite Heq. cbn. intros [].
    - rewrite Heq. cbn. intros [? | []]; discriminate.
    - rewrite Heq. cbn. intros [].
    - rewrite Heq. cbn. intros [? | []]; discriminate.
    - rewrite Heq. cbn. intros [].
    - rewrite Heq. cbn. intros [? | []]; discriminate. }
  unfold do_GET.
  destruct (str_eqb path (lit "/") || str_eqb path (lit "/index.html")).
  { apply Hserve; [vm_compute; reflexivity | ].
    assert (Hpp : parse_parts (lit "index.html") = [lit "index.html"])
      by (vm_compute; reflexivity).
    rewrite Hpp. constructor; [ | constructor]. by apply str_eqb_neq; vm_compute. }
  destruct (startswith path (lit "/assets/")).
  - change (lit "/") with [47%N] in *. apply Hserve; [apply lstrip_slash_relative | done].
  - cbn. intros [? | []]; discriminate.
Qed.
End LexicalResolution.

Section AskMore.
Context {lib : PyLib} {svc : Service}.

(** Brings [do_POST] with an engine to the parsing of the body. *)
Ltac at_body Hreq :=
  let Hpath := fresh "Hpath" in
  let Hint := fresh "Hint" in
  let Hread := fresh "Hread" in
  destruct Hreq as (Hpath & Hint & Hread);
  unfold do_POST, bindM, liftW;
  rewrite Hpath, str_eqb_refl, Hint; cbn [negb];
  rewrite Hread; cbn [observe].

(** How a POST can end, and with which status. *)
Lemma post_outcome (assistant : Handler) (req : Request) (s : svc_state) :
  (result_of (do_POST assistant req s) = inr tt
   /\ exists st, statuses (trace_of (do_POST assistant req s)) = [st]
                 /\ In st [OK; BAD_REQUEST; NOT_FOUND; INTERNAL_SERVER_ERROR]
                 /\ (st = INTERNAL_SERVER_ERROR -> assistant = None))
  \/ (exists e, result_of (do_POST assistant req s) = inl e
                /\ statuses (trace_of (do_POST assistant req s)) = []).
Proof.
  unfold result_of, trace_of, do_POST, bindM, liftW.
  destruct (str_eqb (path req) (lit "/api/ask")); cbn [negb].
  2: { left. split; [done | ]. exists NOT_FOUND. cbn. intuition discriminate. }
  destruct assistant as [a | ].
  2: { rewrite send_json_events. left. split; [done | ].
       exists INTERNAL_SERVER_ERROR. cbn. intuition. }
  destruct (py_int (default (lit "0") (content_length req))) as [e | n];
    [right; by exists e | ].
  destruct (rfile_read_result (rfile req) n) as [e | raw]; [right; by exists e | ].
  cbn [observe].
  destruct (json_loads raw) as [e | v].
  { destruct e; rewrite ?send_json_events; try (right; by eexists).
    left. split; [done | ]. exists BAD_REQUEST. cbn. intuition discriminate. }
  destruct v as [ | | | | | | d]; try (right; by eexists).
  cbn [py_get bind].
  destruct (strip (py_str (default (PyStr []) (d !! lit "prompt")))) as [|ch prompt].
  { rewrite send_json_events. left. split; [done | ].
    exists BAD_REQUEST. cbn. intuition discriminate. }
  unfold engine. destruct (run (answer a (ch :: prompt)) s) as [[log [e | text]] s'].
  - right. exists e. split; [done | ]. cbn [fst snd].
    rewrite !statuses_app, statuses_calls. reflexivity.
  - rewrite send_json_events. left. split; [done | ]. exists OK.
    cbn [fst snd]. rewrite !statuses_app, statuses_calls.
    cbn. intuition discriminate.
Qed.

(** A handler with an engine sends no status of the 5xx range. *)
Lemma configured_post_no_server_error (assistant : Handler) (req : Request)
    (s : svc_state) :
  assistant <> None -> ~ server_error_sent (trace_of (do_POST assistant req s)).
Proof.
  intros Hsome (st & Hin & Hrange).
  destruct (post_outcome assistant req s) as [(_ & st' & Hst & Hmem & H500) | (e & _ & Hst)];
    rewrite Hst in Hin.
  - destruct Hin as [<- | []].
    destruct Hmem as [<- | [<- | [<- | [<- | []]]]];
      unfold OK, BAD_REQUEST, NOT_FOUND, INTERNAL_SERVER_ERROR in *; try lia.
    by apply Hsome, H500.
  - destruct Hin.
Qed.

(** X6. A POST either ends normally having sent exactly one status, one
    of 200, 400, 404 and 500, or ends with an exception having sent none.
    The 500 is only sent when no engine is configured: a handler with an
    engine never answers with a server error, whatever the request and
    whatever the completion service does. *)
Theorem post_sends_one_status_or_raises (assistant : Handler) (req : Request)
    (s : svc_state) :
  ((result_of (do_POST assistant req s) = inr tt
    /\ exists st, statuses (trace_of (do_POST assistant req s)) = [st]
                  /\ In st [OK; BAD_REQUEST; NOT_FOUND; INTERNAL_SERVER_ERROR]
                  /\ (st = INTERNAL_SERVER_ERROR -> assistant = None))
   \/ (exists e, result_of (do_POST assistant req s) = inl e
                 /\ statuses (trace_of (do_POST assistant req s)) = []))
  /\ (assistant <> None -> ~ server_error_sent (trace_of (do_POST assistant req s))).
Proof.
  split; [apply post_outcome | apply configured_post_no_server_error].
Qed.

(** X7. With an engine configured, a failure while the body is read or
    decoded, other than [JSONDecodeError], is not answered: a
    Content-Length that is not an integer ends the handler before
    anything is read, a refused read length ends it at the read, and an
    exception of [json.loads] or of the UTF-8 decoding that is not
    [JSONDecodeError] ends it after the read; in each case nothing is
    sent and the engine is not called. *)
Theorem body_failures_escape (a : CodexLite) (req : Request) (s : svc_state) :
  path req = lit "/api/ask" ->
  (forall e, py_int (default (lit "0") (content_length req)) = inl e ->
             do_POST (Some a) req s = (([], inl e), s))
  /\ (forall n e, py_int (default (lit "0") (content_length req)) = inr n ->
                  rfile_read_result (rfile req) n = inl e ->
                  do_POST (Some a) req s = (([rfile_read n], inl e), s))
  /\ (forall n raw e, reads_body req n raw ->
                      json_loads raw = inl e -> e <> JSONDecodeError ->
                      do_POST (Some a) req s = (([rfile_read n], inl e), s)).
Proof.
  intros Hpath. repeat match goal with |- _ /\ _ => split end.
  - intros e Hint. unfold do_POST, bindM, liftW. by rewrite Hpath, str_eqb_refl, Hint.
  - intros n e Hint Hread. unfold do_POST, bindM, liftW.
    by rewrite Hpath, str_eqb_refl, Hint, Hread.
  - intros n raw e Hreq He Hne. at_body Hreq. rewrite He. by destruct e.
Qed.

(** X8. With an engine configured, a request without a Content-Length
    header is read as an empty body, whatever the connection carries:
    where [int] reads the text 0 as zero and [json.loads] refuses the
    empty text, the handler reads zero bytes and the answer is 400 with
    [{"error": "invalid JSON body"}]. *)
Theorem missing_content_length_reads_nothing (a : CodexLite) (req : Request)
    (s : svc_state) :
  path req = lit "/api/ask" ->
  content_length req = None ->
  py_int (lit "0") = inr 0%Z ->
  json_loads [] = inl JSONDecodeError ->
  exists body,
    encode_utf8 (json_dumps [(lit "error", lit "invalid JSON body")]) = inr body
    /\ do_POST (Some a) req s = ((rfile_read 0 :: json_response BAD_REQUEST body, inr tt), s).
Proof.
  intros Hpath Hcl Hzero Hempty.
  eexists. split; [apply encode_utf8_ascii, json_dumps_ascii | ].
  unfold do_POST, bindM, liftW. rewrite Hpath, str_eqb_refl, Hcl. cbn [negb default].
  assert (Hread : rfile_read_result (rfile req) 0 = inr []) by reflexivity.
  rewrite Hzero, Hread. cbn [observe].
  by rewrite Hempty, send_json_events.
Qed.

(** X9. An engine without a client, behind the handler: a validated
    request is answered 200 with [{"answer": ...}] where the answer is
    the offline text for the stripped prompt; the completion service is
    not called and is left as it was. *)
Theorem offline_engine_answers_200 (cfg : LiteConfig) (req : Request) (s : svc_state)
    (n : Z) (raw : bytes) (d : gmap str pyval) :
  reads_body req n raw ->
  json_loads raw = inr (PyDict d) ->
  prompt_of d <> [] ->
  exists body,
    encode_utf8 (json_dumps [(lit "answer", _offline_answer (prompt_of d))]) = inr body
    /\ do_POST (Some {| config := cfg; client := None |}) req s
       = ((rfile_read n :: json_response OK body, inr tt), s)
    /\ substring (prompt_of d) (_offline_answer (prompt_of d)).
Proof.
  intros Hreq Hd Hne.
  eexists. split; [apply encode_utf8_ascii, json_dumps_ascii | ].
  split; [ | apply offline_answer_echo].
  at_body Hreq. rewrite Hd. cbn [py_get bind]. unfold prompt_of in *.
  destruct (strip (py_str (default (PyStr []) (d !! lit "prompt")))) as [|ch prompt];
    [done | ].
  unfold engine. rewrite run_offline, send_json_events. reflexivity.
Qed.
End AskMore.

(* ================================================================== *)
(** * Further properties of the engine *)
(* ================================================================== *)

(** X10. The engine gets a client exactly when the key is set and not
    empty, the client library is installed and the constructor returns:
    an empty key counts as no key, and building the engine fails only
    when, with key and library present, the constructor raises. *)
Theorem client_needs_key_library_and_constructor (cfg : LiteConfig) (env : Environ) :
  (forall c, CodexLite_init cfg env = inr {| config := cfg; client := Some c |}
             <-> (exists k, OPENAI_API_KEY env = Some k /\ k <> [])
                 /\ openai_installed env = true /\ openai_OpenAI env = inr c)
  /\ (forall e, CodexLite_init cfg env = inl e
                <-> (exists k, OPENAI_API_KEY env = Some k /\ k <> [])
                    /\ openai_installed env = true /\ openai_OpenAI env = inl e).
Proof.
  unfold CodexLite_init, _get_openai_client.
  split; intros x; split.
  all: destruct (OPENAI_API_KEY env) as [[|ch k] | ] eqn:Hk;
    destruct (openai_installed env) eqn:Hlib;
    destruct (openai_OpenAI env) as [e' | c'] eqn:Hctor; cbn [negb].
  all: try (intros ((k' & Hk' & Hne) & Hl & Hc); congruence).
  all: intros H; try discriminate H.
  all: split; [by exists (ch :: k) | split; [done | congruence]].
Qed.

Section EngineMore.
Context {svc : Service}.

Ltac next_stage s' :=
  match goal with
  | |- context [responses_create ?s ?kw] =>
      let e := fresh "e" in
      let r := fresh "r" in
      destruct (responses_create s kw) as [[e | r] s'] eqn:?
  end.

(** X11. A failing call ends the pipeline at once: when [answer] ends
    with an exception, the last call of the run is the one that raised
    it, every call before it had succeeded, there are at most three of
    those, and no later stage was started. *)
Theorem failing_stage_ends_pipeline (self : CodexLite) (u : str) (s s' : svc_state)
    (log : list call) (e : exn) :
  run (answer self u) s = (log, inl e, s') ->
  exists pre kw,
    log = pre ++ [(kw, inl e)]
    /\ Forall (fun c => exists r, c.2 = inr r) pre
    /\ length pre <= 3.
Proof.
  unfold answer. destruct (client self); [ | discriminate]. cbn [run].
  next_stage s1; [intros [= <- <- <-]; eexists [], _;
                  split; [reflexivity | split; [constructor | cbn; lia]] | ].
  next_stage s2; [intros [= <- <- <-]; eexists [_], _;
                  split; [reflexivity | split; [repeat constructor; eauto | cbn; lia]] | ].
  next_stage s3; [intros [= <- <- <-]; eexists [_; _], _;
                  split; [reflexivity | split; [repeat constructor; eauto | cbn; lia]] | ].
  next_stage s4; [intros [= <- <- <-]; eexists [_; _; _], _;
                  split; [reflexivity | split; [repeat constructor; eauto | cbn; lia]] | ].
  discriminate.
Qed.

(** X12. Every call of a run carries the configured model and exactly
    two messages: the system prompt under the role [system], then the
    stage's prompt under the role [user]. *)
Theorem every_call_has_model_and_system_prompt (self : CodexLite) (u : str)
    (s s' : svc_state) (log : list call) (res : result str) (kw : CreateArgs)
    (o : result Response) :
  run (answer self u) s = (log, res, s') ->
  In (kw, o) log ->
  kw_model kw = model (config self)
  /\ exists m, kw_input kw = [{| role := system; content := SYSTEM_PROMPT |}; m]
               /\ role m = user.
Proof.
  unfold answer. destruct (client self); [ | by intros [= <- _ _] []]. cbn [run].
  next_stage s1; [intros [= <- <- <-] | ].
  2: next_stage s2; [intros [= <- <- <-] | ].
  3: next_stage s3; [intros [= <- <- <-] | ].
  4: next_stage s4; [intros [= <- <- <-] | intros [= <- <- <-] ].
  all: intros Hin.
  all: repeat (destruct Hin as [[= <- <-] | Hin]; [split; [done | by eexists] | ]).
  all: destruct Hin.
Qed.
End EngineMore.

Lemma join_cons2 (sep x y : str) (l : list str) :
  join sep (x :: y :: l) = x ++ sep ++ join sep (y :: l).
Proof. reflexivity. Qed.

(** X13. The offline answer determines the prompt: two prompts with the
    same offline answer are the same prompt. *)
Theorem offline_answer_is_injective (p q : str) :
  _offline_answer p = _offline_answer q -> p = q.
Proof.
  unfold _offline_answer. rewrite !join_cons2, <- !app_assoc.
  intros H.
  repeat (apply app_inv_head in H).
  by apply app_inv_tail in H.
Qed.

(* ================================================================== *)
(** * The response body read back *)
(* ================================================================== *)

Lemma hex_val_hex_digit (x : N) : (x < 16)%N -> hex_val (hex_digit x) = Some x.
Proof.
  intros Hx. unfold hex_val, hex_digit, is_digit.
  destruct (N.ltb_spec x 10) as [Hlt | Hge].
  - replace ((48 <=? 48 + x) && (48 + x <=? 57))%N with true.
    + f_equal. lia.
    + symmetry. apply andb_true_iff. split; apply N.leb_le; lia.
  - replace ((48 <=? 87 + x) && (87 + x <=? 57))%N with false.
    + replace ((97 <=? 87 + x) && (87 + x <=? 102))%N with true.
      * f_equal. lia.
      * symmetry. apply andb_true_iff. split; apply N.leb_le; lia.
    + symmetry. apply andb_false_iff. right. apply N.leb_gt. lia.
Qed.

Lemma hex4_digits (n : N) :
  (n < 65536)%N ->
  hex4 (hex_digit (n / 4096 mod 16)) (hex_digit (n / 256 mod 16))
       (hex_digit (n / 16 mod 16)) (hex_digit (n mod 16)) = Some n.
Proof.
  intros Hn. unfold hex4.
  rewrite !hex_val_hex_digit by (apply N.mod_lt; lia).
  f_equal.
  pose proof (N.div_mod n 16 ltac:(lia)) as H0.
  pose proof (N.div_mod (n / 16) 16 ltac:(lia)) as H1.
  pose proof (N.div_mod (n / 256) 16 ltac:(lia)) as H2.
  pose proof (N.div_mod (n / 4096) 16 ltac:(lia)) as H3.
  replace (n / 256)%N with (n / 16 / 16)%N in * by (rewrite N.Div0.div_div; done).
  replace (n / 4096)%N with (n / 16 / 16 / 16)%N in *
    by (rewrite !N.Div0.div_div; done).
  pose proof (N.mod_lt n 16 ltac:(lia)).
  pose proof (N.mod_lt (n / 16) 16 ltac:(lia)).
  pose proof (N.mod_lt (n / 16 / 16) 16 ltac:(lia)).
  pose proof (N.mod_lt (n / 16 / 16 / 16) 16 ltac:(lia)).
  remember (n mod 16)%N as r0. remember (n / 16)%N as q0.
  remember (q0 mod 16)%N as r1. remember (q0 / 16)%N as q1.
  remember (q1 mod 16)%N as r2. remember (q1 / 16)%N as q2.
  remember (q2 mod 16)%N as r3. remember (q2 / 16)%N as q3.
  lia.
Qed.

Lemma scanstring_plain (c : N) (r : str) :
  c <> 34%N -> c <> 92%N -> (32 <= c)%N ->
  scanstring (c :: r) = keep c (scanstring r).
Proof.
  intros H1%N.eqb_neq H2%N.eqb_neq H3%N.ltb_ge.
  cbn [scanstring]. by rewrite H1, H2, H3.
Qed.

Lemma scanstring_simple7 (r : str) :
  scanstring (92 :: 34 :: r)%N = keep 34%N (scanstring r)
  /\ scanstring (92 :: 92 :: r)%N = keep 92%N (scanstring r)
  /\ scanstring (92 :: 98 :: r)%N = keep 8%N (scanstring r)
  /\ scanstring (92 :: 102 :: r)%N = keep 12%N (scanstring r)
  /\ scanstring (92 :: 110 :: r)%N = keep 10%N (scanstring r)
  /\ scanstring (92 :: 114 :: r)%N = keep 13%N (scanstring r)
  /\ scanstring (92 :: 116 :: r)%N = keep 9%N (scanstring r).
Proof. repeat apply conj; reflexivity. Qed.

Lemma scanstring_u_step (h1 h2 h3 h4 : N) (r : str) :
  scanstring (92 :: 117 :: h1 :: h2 :: h3 :: h4 :: r)%N
  = match hex4 h1 h2 h3 h4 with
    | None => inl JSONDecodeError
    | Some uni =>
        if ((55296 <=? uni) && (uni <=? 56319))%N then
          match r with
          | 92%N :: 117%N :: r6 =>
              match r6 with
              | g1 :: g2 :: g3 :: g4 :: r10 =>
                  match hex4 g1 g2 g3 g4 with
                  | None => inl JSONDecodeError
                  | Some uni2 =>
                      if ((56320 <=? uni2) && (uni2 <=? 57343))%N then
                        keep (65536 + (uni - 55296) * 1024 + (uni2 - 56320))%N
                             (scanstring r10)
                      else keep uni (scanstring r)
                  end
              | _ => inl JSONDecodeError
              end
          | _ => keep uni (scanstring r)
          end
        else keep uni (scanstring r)
    end.
Proof. reflexivity. Qed.

Lemma range_true (a b x : N) : (a <= x <= b)%N -> ((a <=? x) && (x <=? b))%N = true.
Proof. intros [? ?]. apply andb_true_iff. split; by apply N.leb_le. Qed.

Lemma range_false (a b x : N) : (x < a \/ b < x)%N -> ((a <=? x) && (x <=? b))%N = false.
Proof.
  intros H. apply andb_false_iff.
  destruct H; [left | right]; by apply N.leb_gt.
Qed.

Lemma scanstring_u (h1 h2 h3 h4 uni : N) (r : str) :
  hex4 h1 h2 h3 h4 = Some uni ->
  (uni < 55296 \/ 56319 < uni)%N ->
  scanstring (92 :: 117 :: h1 :: h2 :: h3 :: h4 :: r)%N = keep uni (scanstring r).
Proof.
  intros Hh Hu. by rewrite scanstring_u_step, Hh, range_false.
Qed.

Lemma scanstring_pair (h1 h2 h3 h4 g1 g2 g3 g4 hi lo : N) (r : str) :
  hex4 h1 h2 h3 h4 = Some hi -> hex4 g1 g2 g3 g4 = Some lo ->
  (55296 <= hi <= 56319)%N -> (56320 <= lo <= 57343)%N ->
  scanstring (92 :: 117 :: h1 :: h2 :: h3 :: h4 :: 92 :: 117 :: g1 :: g2 :: g3 :: g4 :: r)%N
  = keep (65536 + (hi - 55296) * 1024 + (lo - 56320))%N (scanstring r).
Proof.
  intros Hh Hg Hhi Hlo.
  by rewrite scanstring_u_step, Hh, range_true, Hg, range_true.
Qed.

Lemma lor_low_bits (a b : N) : N.land a 1023 = 0%N -> (b < 1024)%N -> N.lor a b = (a + b)%N.
Proof.
  intros Ha Hb.
  assert (Hland : N.land a b = 0%N).
  { rewrite <- (N.mod_small b 1024) by done.
    change 1024%N with (2 ^ 10)%N. rewrite <- N.land_ones.
    change (N.ones 10) with 1023%N.
    rewrite (N.land_comm b), N.land_assoc, Ha. apply N.land_0_l. }
  rewrite <- N.lxor_lor by done. symmetry. by apply N.add_nocarry_lxor.
Qed.

Lemma surrogate_pair (c : N) :
  (65536 <= c < 1114112)%N ->
  let n := (c - 65536)%N in
  let hi := N.lor 55296 (N.land (N.shiftr n 10) 1023) in
  let lo := N.lor 56320 (N.land n 1023) in
  (55296 <= hi <= 56319)%N /\ (56320 <= lo <= 57343)%N
  /\ (65536 + (hi - 55296) * 1024 + (lo - 56320))%N = c.
Proof.
  intros Hc n hi lo.
  assert (Hn : (n < 1048576)%N) by (unfold n; lia).
  assert (Hq : N.land (N.shiftr n 10) 1023 = (n / 1024)%N).
  { change 1023%N with (N.ones 10). rewrite N.land_ones, N.shiftr_div_pow2.
    change (2 ^ 10)%N with 1024%N. apply N.mod_small.
    apply N.Div0.div_lt_upper_bound. lia. }
  assert (Hr : N.land n 1023 = (n mod 1024)%N).
  { change 1023%N with (N.ones 10). by rewrite N.land_ones. }
  pose proof (N.mod_lt n 1024 ltac:(lia)) as Hm.
  pose proof (N.div_mod n 1024 ltac:(lia)) as Hdm.
  assert (Hql : (n / 1024 < 1024)%N) by (apply N.Div0.div_lt_upper_bound; lia).
  unfold hi, lo. rewrite Hq, Hr.
  rewrite !lor_low_bits by (done || reflexivity).
  remember (n / 1024)%N as q. remember (n mod 1024)%N as r.
  assert (Hcn : c = (n + 65536)%N) by (unfold n; lia).
  clearbody n. subst c. clear Hq Hr Heqq Heqr. lia.
Qed.

Lemma u_escape_cons (n : N) (tl : str) :
  u_escape n ++ tl
  = (92 :: 117 :: hex_digit (n / 4096 mod 16) :: hex_digit (n / 256 mod 16)
        :: hex_digit (n / 16 mod 16) :: hex_digit (n mod 16) :: tl)%N.
Proof. reflexivity. Qed.

Lemma u_escape_scan (n : N) (tl : str) :
  (n < 65536)%N -> (n < 55296 \/ 56319 < n)%N ->
  scanstring (u_escape n ++ tl) = keep n (scanstring tl).
Proof.
  intros Hn Hs. rewrite u_escape_cons.
  apply scanstring_u; [by apply hex4_digits | done].
Qed.

Lemma scanstring_escape_char (c : N) (tl : str) :
  scalar c -> scanstring (escape_char c ++ tl) = keep c (scanstring tl).
Proof.
  intros Hc. unfold escape_char.
  destruct (N.eqb_spec c 34) as [-> | H34]; [apply scanstring_simple7 | ].
  destruct (N.eqb_spec c 92) as [-> | H92]; [apply scanstring_simple7 | ].
  destruct ((32 <=? c) && (c <=? 126))%N eqn:Hp.
  { apply andb_true_iff in Hp as [Hp%N.leb_le _]. by apply scanstring_plain. }
  destruct (N.eqb_spec c 8) as [-> | H8]; [apply scanstring_simple7 | ].
  destruct (N.eqb_spec c 12) as [-> | H12]; [apply scanstring_simple7 | ].
  destruct (N.eqb_spec c 10) as [-> | H10]; [apply scanstring_simple7 | ].
  destruct (N.eqb_spec c 13) as [-> | H13]; [apply scanstring_simple7 | ].
  destruct (N.eqb_spec c 9) as [-> | H9]; [apply scanstring_simple7 | ].
  destruct (N.ltb_spec c 65536) as [Hlt | Hge].
  { apply u_escape_scan; [done | ]. unfold scalar in Hc. lia. }
  assert (Hrange : (65536 <= c < 1114112)%N) by (unfold scalar in Hc; lia).
  destruct (surrogate_pair c Hrange) as (Hhi & Hlo & Hsum).
  cbv zeta. rewrite <- app_assoc, !u_escape_cons.
  match type of Hsum with
  | ?l = _ => replace (keep c (scanstring tl)) with (keep l (scanstring tl))
                by (by rewrite Hsum)
  end.
  apply scanstring_pair; try done; apply hex4_digits; lia.
Qed.

Lemma scanstring_escaped (s rest : str) :
  Forall scalar s ->
  scanstring (concat (map escape_char s) ++ 34%N :: rest) = inr (s, rest).
Proof.
  induction 1 as [|c s Hc _ IH]; [reflexivity | ].
  cbn [map concat]. rewrite <- app_assoc, scanstring_escape_char, IH by done.
  reflexivity.
Qed.

Lemma json_dumps_single (k v : str) :
  json_dumps [(k, v)]
  = 123%N :: 34%N :: concat (map escape_char k)
    ++ 34%N :: 58%N :: 32%N :: 34%N :: concat (map escape_char v) ++ [34%N; 125%N].
Proof.
  unfold json_dumps, encode_basestring_ascii. cbn [map join fst snd].
  change (lit "{") with [123%N]. change (lit ": ") with [58%N; 32%N].
  change (lit "}") with [125%N].
  repeat (rewrite <- ?app_assoc; cbn [app]). reflexivity.
Qed.

Lemma scan_once_string (fuel : nat) (r : str) :
  scan_once (S fuel) (34%N :: r)
  = obind (scanstring r) (fun '(t, rest) => inr (PyStr t, rest)).
Proof. reflexivity. Qed.

Lemma scan_once_object (fuel : nat) (r : str) :
  scan_once (S fuel) (123%N :: 34%N :: r) = scan_members fuel r ∅.
Proof. reflexivity. Qed.

Lemma scan_members_one (fuel : nat) (s r : str) (key : str) (acc : gmap str pyval) :
  scanstring s = inr (key, 58%N :: 32%N :: 34%N :: r) ->
  scan_members (S fuel) s acc
  = obind (scan_once fuel (34%N :: r)) (fun '(v, r2) =>
      match skip_ws r2 with
      | 125%N :: rest => inr (PyDict (<[key := v]> acc), rest)
      | 44%N :: r3 =>
          match skip_ws r3 with
          | 34%N :: r4 => scan_members fuel r4 (<[key := v]> acc)
          | _ => inl JSONDecodeError
          end
      | _ => inl JSONDecodeError
      end).
Proof.
  intros Hs.
  assert (Hstep : scan_members (S fuel) s acc
    = obind (scanstring s) (fun '(key, r) =>
      match skip_ws r with
      | 58%N :: r1 =>
          obind (scan_once fuel (skip_ws r1)) (fun '(v, r2) =>
          let acc' := <[key := v]> acc in
          match skip_ws r2 with
          | 125%N :: rest => inr (PyDict acc', rest)
          | 44%N :: r3 =>
              match skip_ws r3 with
              | 34%N :: r4 => scan_members fuel r4 acc'
              | _ => inl JSONDecodeError
              end
          | _ => inl JSONDecodeError
          end)
      | _ => inl JSONDecodeError
      end)) by reflexivity.
  rewrite Hstep, Hs. reflexivity.
Qed.

Lemma loads_dumps_single (k v : str) :
  Forall scalar k -> Forall scalar v ->
  loads_str (json_dumps [(k, v)]) = inr (PyDict {[ k := PyStr v ]}).
Proof.
  intros Hk Hv. rewrite json_dumps_single. unfold loads_str.
  set (body := concat (map escape_char k) ++ _).
  assert (Hfuel : exists f, 2 * length (123%N :: 34%N :: body) + 2 = S (S (S f))).
  { exists (2 * length body + 3). cbn [length]. lia. }
  destruct Hfuel as [f ->].
  change (skip_ws (123%N :: 34%N :: body)) with (123%N :: 34%N :: body).
  rewrite scan_once_object.
  rewrite (scan_members_one _ _ _ k) by (apply scanstring_escaped; done).
  rewrite scan_once_string, scanstring_escaped by done.
  reflexivity.
Qed.

Lemma to_N_octet (c : N) : (c < 256)%N -> Byte.to_N (octet c) = c.
Proof.
  intros Hc. unfold octet. rewrite N.mod_small by done.
  destruct (Byte.of_N c) as [b | ] eqn:Hb.
  - by apply Byte.to_of_N.
  - apply Byte.of_N_None_iff in Hb. lia.
Qed.

Lemma decode_utf8_ascii (s : str) :
  ascii s -> decode_utf8 (map Byte.to_N (map octet s)) = inr s.
Proof.
  induction 1 as [|c s Hc _ IH]; [reflexivity | ].
  cbn [map]. rewrite to_N_octet by lia.
  cbn [decode_utf8]. rewrite IH.
  destruct (N.ltb_spec c 128); [reflexivity | lia].
Qed.

(** X14. What [_send_json] writes can be read back: for a payload with
    one item whose key and value hold no surrogate code point, the body
    written, decoded as UTF-8 and parsed as JSON, is the object with that
    one key and that one value. *)
Theorem response_body_reads_back (k v : str) (status : Z) :
  Forall scalar k -> Forall scalar v ->
  exists body,
    In (wfile_write body) (_send_json [(k, v)] status).1
    /\ loads_bytes body = inr (PyDict {[ k := PyStr v ]}).
Proof.
  intros Hk Hv. exists (map octet (json_dumps [(k, v)])). split.
  - rewrite send_json_events. cbn. auto 10.
  - unfold loads_bytes.
    rewrite (decode_utf8_ascii _ (json_dumps_ascii [(k, v)])). cbn [obind].
    by apply loads_dumps_single.
Qed.

Lemma ascii_scalar (s : str) : ascii s -> Forall scalar s.
Proof.
  intros H. eapply Forall_impl; [exact H | ]. intros c Hc. left. cbn in Hc. lia.
Qed.

Lemma ascii_check (s : str) : forallb (fun c => c <? 128)%N s = true -> ascii s.
Proof.
  intros H. apply Forall_forall. intros c Hc%list_elem_of_In.
  rewrite forallb_forall in H. by apply N.ltb_lt, H.
Qed.

Lemma scalar_answer_key : Forall scalar (lit "answer").
Proof. apply ascii_scalar, ascii_check. vm_compute. reflexivity. Qed.

Section AnswerReadBack.
Context {lib : PyLib} {svc : Service}.

(** X22. The success path end to end: a validated request whose run of
    [answer] returns is answered 200 after the engine's calls, and the
    body written, decoded and parsed as JSON, is the object whose one
    key [answer] holds the text [answer] returned, for every text
    without surrogate code points. *)
Theorem answered_request_reads_back (a : CodexLite) (req : Request) (s s' : svc_state)
    (n : Z) (raw : bytes) (d : gmap str pyval) (log : list call) (text : str) :
  reads_body req n raw ->
  json_loads raw = inr (PyDict d) ->
  prompt_of d <> [] ->
  run (answer a (prompt_of d)) s = (log, inr text, s') ->
  Forall scalar text ->
  exists body,
    do_POST (Some a) req s
    = ((rfile_read n :: map responses_create_call log ++ json_response OK body, inr tt), s')
    /\ loads_bytes body = inr (PyDict {[ lit "answer" := PyStr text ]}).
Proof.
  intros Hreq Hd Hne Hrun Htext.
  destruct (ask_success a req s s' n raw d log text Hreq Hd Hne Hrun) as (body & Henc & Hpost).
  exists body. split; [done | ].
  rewrite (encode_utf8_ascii _ (json_dumps_ascii _)) in Henc. injection Henc as <-.
  unfold loads_bytes.
  rewrite (decode_utf8_ascii _ (json_dumps_ascii _)). cbn [obind].
  apply loads_dumps_single; [apply scalar_answer_key | done].
Qed.
End AnswerReadBack.

(* ================================================================== *)
(** * The scaffold *)
(* ================================================================== *)

Lemma grows_refl targets st : grows targets st st.
Proof. split; auto. Qed.

Lemma grows_trans targets st1 st2 st3 :
  grows targets st1 st2 -> grows targets st2 st3 -> grows targets st1 st3.
Proof.
  intros [Ha Hb] [Hc Hd]. split.
  - intros q n Hq Hn. apply Hc; auto.
  - intros q d Hq. destruct (Hd q d Hq) as [H | H]; auto.
Qed.

Lemma grows_weaken t t' st st' :
  (forall q, In q t -> In q t') -> grows t st st' -> grows t' st st'.
Proof.
  intros Hsub [Ha Hb]. split.
  - intros q n Hq Hn. apply Ha; auto.
  - intros q d Hq. destruct (Hb q d Hq); auto.
Qed.

Lemma lookup_store_set st p n q :
  store_lookup (store_set st p n) q
  = match parts q with
    | [] => Some Dir
    | _ :: _ => if Path_eqb q p then Some n else st q
    end.
Proof. unfold store_lookup, store_set. by destruct (parts q). Qed.

Lemma lookup_store_set_ne st p n q :
  q <> p -> store_lookup (store_set st p n) q = store_lookup st q.
Proof.
  intros Hne. rewrite lookup_store_set. unfold store_lookup.
  destruct (parts q); [done | ].
  destruct (Path_eqb q p) eqn:He; [ | done]. by apply Path_eqb_eq in He.
Qed.

Lemma os_mkdir_grows p st r st' : os_mkdir p st = (r, st') -> grows [] st st'.
Proof.
  unfold os_mkdir.
  destruct (store_lookup st p) eqn:Hp; [intros [= _ <-]; apply grows_refl | ].
  destruct (store_lookup st (parent p)) as [[|d]|]; intros [= _ <-];
    try apply grows_refl.
  split.
  - intros q n Hq _. rewrite lookup_store_set_ne; [done | ]. intros ->. congruence.
  - intros q d Hq. left. rewrite lookup_store_set in Hq. unfold store_lookup.
    destruct (parts q); [done | ]. by destruct (Path_eqb q p).
Qed.

Lemma mkdir_exist_ok_grows p st r st' : mkdir_exist_ok p st = (r, st') -> grows [] st st'.
Proof.
  unfold mkdir_exist_ok. destruct (os_mkdir p st) as [[e | []] st1] eqn:Hm.
  - apply os_mkdir_grows in Hm.
    destruct e; try destruct (store_is_dir st1 p); by intros [= _ <-].
  - apply os_mkdir_grows in Hm. by intros [= _ <-].
Qed.

Lemma mkdir_parents_grows ds rparts st r st' :
  mkdir_parents ds rparts st = (r, st') -> grows [] st st'.
Proof.
  revert st r st'. induction rparts as [|c rparent IH]; intros st r st'; cbn [mkdir_parents].
  all: destruct (os_mkdir _ st) as [[e | []] st1] eqn:Hm; apply os_mkdir_grows in Hm.
  all: try (by intros [= _ <-]).
  - destruct e; try destruct (store_is_dir st1 _); by intros [= _ <-].
  - destruct e; try (destruct (store_is_dir st1 _); by intros [= _ <-]).
    destruct (mkdir_parents ds rparent st1) as [[e | []] st2] eqn:Hrec.
    + apply IH in Hrec. intros [= _ <-]. by eapply grows_trans.
    + apply IH in Hrec. intros Hok%mkdir_exist_ok_grows.
      eapply grows_trans; [exact Hm | ]. by eapply grows_trans.
Qed.

Lemma read_bytes_inv p st r st' :
  read_bytes p st = (r, st') ->
  st' = st /\ (forall data, r = inr data -> store_lookup st p = Some (File data)).
Proof.
  unfold read_bytes. destruct (store_lookup st p) as [[|d]|]; intros [= <- <-].
  all: split; [done | ]; intros data; try discriminate. by intros [= ->].
Qed.

Lemma write_bytes_inv p data st r st' :
  write_bytes p data st = (r, st') ->
  grows [p] st st'
  /\ (r = inr tt -> store_lookup st' p = Some (File data))
  /\ (forall e, r = inl e -> st' = st).
Proof.
  unfold write_bytes.
  assert (Hset : store_lookup st p <> Some Dir ->
                 grows [p] st (store_set st p (File data))
                 /\ store_lookup (store_set st p (File data)) p = Some (File data)).
  { intros Hnd. split; [split | ].
    - intros q n Hq Hn. rewrite lookup_store_set_ne; [done | ]. intros ->. apply Hn. by left.
    - intros q d. rewrite lookup_store_set. unfold store_lookup.
      destruct (parts q) eqn:Hparts; [done | ].
      destruct (Path_eqb q p) eqn:He; [ | by left].
      apply Path_eqb_eq in He. right. by left.
    - rewrite lookup_store_set. unfold store_lookup in Hnd.
      destruct (parts p); [done | ].
      by rewrite (proj2 (Path_eqb_eq p p) eq_refl). }
  destruct (store_lookup st p) as [[|d]|] eqn:Hp.
  - intros [= <- <-]. split; [apply grows_refl | split; [done | done]].
  - destruct (store_lookup st (parent p)) as [[|d']|]; intros [= <- <-].
    all: try (split; [apply grows_refl | split; [done | done]]).
    destruct Hset as [Hg Hl]; [done | ]. split; [done | split; [done | done]].
  - destruct (store_lookup st (parent p)) as [[|d']|]; intros [= <- <-].
    all: try (split; [apply grows_refl | split; [done | done]]).
    destruct Hset as [Hg Hl]; [done | ]. split; [done | split; [done | done]].
Qed.

Lemma grows_nil (t : list Path) st st' : grows [] st st' -> grows t st st'.
Proof. apply grows_weaken. by intros q []. Qed.

Section ScaffoldFacts.
Variable expanduser_resolve : str -> result Path.
Variable project_root : Path.

(** One copy: what it reads was in the tree it started from, only its
    target can change, and nothing changes but new directories when it
    fails. *)
Lemma copy_template_inv (destination : Path) (item : str * str) st r st' :
  copy_template project_root destination item st = (r, st') ->
  grows [truediv destination item.1] st st'
  /\ (r = inr tt ->
      exists data, store_lookup st (truediv project_root item.2) = Some (File data)
                   /\ store_lookup st' (truediv destination item.1) = Some (File data))
  /\ (store_lookup st (truediv project_root item.2) = None -> exists e, r = inl e)
  /\ (r <> inr tt -> grows [] st st').
Proof.
  unfold copy_template, fs_bind, mkdir_p.
  destruct (mkdir_parents _ _ st) as [[e | []] st1] eqn:Hmk;
    apply mkdir_parents_grows in Hmk.
  { intros [= <- <-]. split; [by apply grows_nil | ].
    split; [done | split; [by eexists | done]]. }
  destruct (read_bytes _ st1) as [[e | data] st2] eqn:Hrd;
    apply read_bytes_inv in Hrd as [-> Hdata].
  { intros [= <- <-]. split; [by apply grows_nil | ].
    split; [done | split; [by eexists | done]]. }
  specialize (Hdata data eq_refl).
  assert (Hsrc : store_lookup st (truediv project_root item.2) = Some (File data)).
  { destruct Hmk as [_ Hb]. by destruct (Hb _ _ Hdata). }
  intros Hw. apply write_bytes_inv in Hw as (Hg & Hok & Hfail).
  split; [ | split; [ | split]].
  - eapply grows_trans; [ | exact Hg]. by apply grows_nil.
  - intros ->. exists data. auto.
  - congruence.
  - intros Hne. destruct r as [e | []]; [ | done]. by rewrite (Hfail e eq_refl).
Qed.

Lemma copy_templates_inv (destination : Path) (items : list (str * str)) st r st' :
  copy_templates project_root destination items st = (r, st') ->
  grows (targets_of destination items) st st'
  /\ (r = inr tt -> independent project_root destination items ->
      Forall (fun item =>
                exists data,
                  store_lookup st (truediv project_root item.2) = Some (File data)
                  /\ store_lookup st' (truediv destination item.1) = Some (File data))
             items).
Proof.
  revert st r st'. induction items as [|item rest IH]; intros st r st'.
  { intros [= <- <-]. split; [apply grows_refl | by constructor]. }
  cbn [copy_templates]. unfold fs_bind.
  destruct (copy_template project_root destination item st) as [[e | []] st1] eqn:Hone;
    apply copy_template_inv in Hone as (Hg1 & Hok1 & _ & _).
  { intros [= <- <-]. split; [ | done].
    eapply grows_weaken; [ | exact Hg1]. intros q [<- | []]. by left. }
  intros Hrest. destruct (IH _ _ _ Hrest) as [Hg2 Hok2]. split.
  - eapply grows_trans.
    + eapply grows_weaken; [ | exact Hg1]. intros q [<- | []]. by left.
    + eapply grows_weaken; [ | exact Hg2]. intros q Hq. by right.
  - intros -> [Hind Hind']. destruct (Hok1 eq_refl) as (data & Hsrc & Htgt).
    constructor.
    + exists data. split; [done | ].
      destruct Hg2 as [Hkeep _]. apply Hkeep; [done | ].
      intros Hin. apply in_map_iff in Hin as (it & Heq & Hit).
      rewrite Forall_forall in Hind. 
      destruct (Hind it ltac:(by apply list_elem_of_In)) as [Hne _]. by apply Hne.
    + specialize (Hok2 eq_refl Hind').
      rewrite Forall_forall in Hok2, Hind |- *.
      intros it Hit. destruct (Hok2 it Hit) as (d & Hs & Ht).
      exists d. split; [ | done].
      destruct Hg1 as [_ Hback]. destruct (Hback _ _ Hs) as [H | [H | []]]; [done | ].
      destruct (Hind it Hit) as [_ Hne]. by destruct Hne.
Qed.
End ScaffoldFacts.

Lemma truediv_name (b : Path) (rel x : str) :
  startswith rel [47%N] = false ->
  last (parse_parts rel) = Some x ->
  name (truediv b rel) = x.
Proof.
  intros Hrel Hlast. rewrite (truediv_relative _ _ Hrel). unfold name. cbn [parts].
  by rewrite last_app, Hlast.
Qed.

Lemma template_independent (project_root destination : Path) :
  independent project_root destination TEMPLATE_FILES.
Proof.
  assert (Hname : forall (b b' : Path) (rel rel' x x' : str),
            startswith rel [47%N] = false -> last (parse_parts rel) = Some x ->
            startswith rel' [47%N] = false -> last (parse_parts rel') = Some x' ->
            str_eqb x x' = false ->
            truediv b rel <> truediv b' rel').
  { intros b b' rel rel' x x' H1 H2 H3 H4 Hne Heq.
    apply (f_equal name) in Heq.
    rewrite (truediv_name _ _ x H1 H2), (truediv_name _ _ x' H3 H4) in Heq.
    apply str_eqb_neq in Hne. by apply Hne. }
  unfold TEMPLATE_FILES. cbn [independent fst snd].
  repeat match goal with
         | |- _ /\ _ => split
         | |- Forall _ _ => constructor
         | |- True => exact I
         | |- _ <> _ => eapply Hname; vm_compute; reflexivity
         end.
Qed.

Section ScaffoldTheorems.
Variable expanduser_resolve : str -> result Path.
Variable project_root : Path.

(** X15. When [create_yourself] returns, it returns the resolved target
    directory, and each of the three scaffold files is there with the
    bytes its source had in the project before the run: an earlier copy
    never overwrites a later source or an earlier target, wherever the
    target directory lies, inside the project included. *)
Theorem scaffold_copies_templates (target_dir : str) (destination : Path) (st st' : Store) :
  create_yourself expanduser_resolve project_root target_dir st = (inr destination, st') ->
  expanduser_resolve target_dir = inr destination
  /\ Forall (fun item =>
               exists data,
                 store_lookup st (truediv project_root item.2) = Some (File data)
                 /\ store_lookup st' (truediv destination item.1) = Some (File data))
            TEMPLATE_FILES.
Proof.
  unfold create_yourself, fs_bind.
  destruct (expanduser_resolve target_dir) as [e | dest]; [discriminate | ].
  unfold mkdir_p.
  destruct (mkdir_parents _ _ st) as [[e | []] st1] eqn:Hmk; [discriminate | ].
  apply mkdir_parents_grows in Hmk.
  destruct (copy_templates _ _ _ st1) as [[e | []] st2] eqn:Hcp; [discriminate | ].
  intros [= <- <-]. split; [done | ].
  destruct (copy_templates_inv _ _ _ _ _ _ Hcp) as [_ Hok].
  specialize (Hok eq_refl (template_independent _ _)).
  eapply Forall_impl; [exact Hok | ]. intros item (data & Hs & Ht).
  exists data. split; [ | done]. destruct Hmk as [_ Hb]. by destruct (Hb _ _ Hs).
Qed.

(** X16. On a file tree without symbolic links and without
    permissions, [create_yourself] removes nothing, whether it returns or
    raises: every file and directory there was is still there and
    unchanged, unless it is one of the three targets; and a file there is
    afterwards either was there with the same bytes or is one of the
    three targets. *)
Theorem scaffold_keeps_what_exists (target_dir : str) (r : result Path) (st st' : Store)
    (q : Path) :
  create_yourself expanduser_resolve project_root target_dir st = (r, st') ->
  (forall n, store_lookup st q = Some n ->
             (forall destination, expanduser_resolve target_dir = inr destination ->
                                  ~ In q (targets_of destination TEMPLATE_FILES)) ->
             store_lookup st' q = Some n)
  /\ (forall d, store_lookup st' q = Some (File d) ->
                store_lookup st q = Some (File d)
                \/ exists destination, expanduser_resolve target_dir = inr destination
                                       /\ In q (targets_of destination TEMPLATE_FILES)).
Proof.
  unfold create_yourself, fs_bind.
  destruct (expanduser_resolve target_dir) as [e | dest]; [intros [= <- <-]; auto | ].
  unfold mkdir_p.
  destruct (mkdir_parents _ _ st) as [[e | []] st1] eqn:Hmk;
    apply mkdir_parents_grows in Hmk.
  { intros [= <- <-]. destruct Hmk as [Ha Hb]. split.
    - intros n Hn _. apply Ha; [done | intros []].
    - intros d Hd. destruct (Hb q d Hd) as [? | []]. by left. }
  destruct (copy_templates _ _ _ st1) as [r1 st2] eqn:Hcp.
  destruct (copy_templates_inv _ _ _ _ _ _ Hcp) as [[Ha Hb] _].
  intros Heq. assert (st' = st2) by (destruct r1 as [? | []]; by injection Heq). subst st'.
  destruct Hmk as [Hc Hd]. split.
  - intros n Hn Hout. apply Ha; [apply Hc; [done | intros []] | by apply Hout].
  - intros d Hq. destruct (Hb q d Hq) as [H | H]; [ | right; by exists dest].
    destruct (Hd q d H) as [? | []]. by left.
Qed.

(** X17. When the first source, [Mini_codex.py] in the project
    directory, is not a file, [create_yourself] raises, having written no
    file: it may have made directories, and every file there is
    afterwards was there before with the same bytes. *)
Theorem scaffold_without_source_writes_nothing (target_dir : str) (r : result Path)
    (st st' : Store) :
  (forall data, store_lookup st (truediv project_root (lit "Mini_codex.py")) <> Some (File data)) ->
  create_yourself expanduser_resolve project_root target_dir st = (r, st') ->
  (exists e, r = inl e)
  /\ (forall q n, store_lookup st q = Some n -> store_lookup st' q = Some n)
  /\ (forall q d, store_lookup st' q = Some (File d) -> store_lookup st q = Some (File d)).
Proof.
  intros Hmiss. unfold create_yourself, fs_bind.
  destruct (expanduser_resolve target_dir) as [e | dest];
    [intros [= <- <-]; split; [by eexists | done] | ].
  unfold mkdir_p.
  destruct (mkdir_parents _ _ st) as [[e | []] st1] eqn:Hmk;
    apply mkdir_parents_grows in Hmk; destruct Hmk as [Hkeep Hfiles].
  { intros [= <- <-]. split; [by eexists | ]. split.
    - intros q n Hq. apply Hkeep; [done | intros []].
    - intros q d Hq. by destruct (Hfiles q d Hq). }
  unfold TEMPLATE_FILES. cbn [copy_templates]. unfold fs_bind.
  destruct (copy_template project_root dest _ st1) as [r1 st2] eqn:Hone.
  apply copy_template_inv in Hone as (_ & Hok & _ & Hnothing). cbn [fst snd] in *.
  destruct r1 as [e | []].
  - intros [= <- <-]. split; [by eexists | ].
    destruct Hnothing as [Hkeep2 Hfiles2]; [done | ]. split.
    + intros q n Hq. apply Hkeep2; [ | intros []]. apply Hkeep; [done | intros []].
    + intros q d Hq. destruct (Hfiles2 q d Hq) as [Hq1 | []].
      by destruct (Hfiles q d Hq1).
  - destruct Hok as (data & Hsrc & _); [done | ].
    destruct (Hfiles _ _ Hsrc) as [Hsrc0 | []]. by destruct (Hmiss data).
Qed.
End ScaffoldTheorems.

(* ================================================================== *)
(** * The command line *)
(* ================================================================== *)

Section CommandLineFacts.
Context {fs : FileSystem} {lib : PyLib} {svc : Service}.
Variable expanduser_resolve : str -> result Path.
Variable ThreadingHTTPServer : str -> Z -> result unit.

(** X18. With [--create-yourself TARGET_DIR], [main] does the scaffold
    and nothing else: no engine is built, so the outcome, the text
    printed and the files left depend neither on the process environment
    nor on any other argument; the completion service is not called and
    the handler is not configured. *)
Theorem scaffold_flag_runs_alone (args args' : Namespace) (env env' : Environ)
    (st : Store) (s s' : svc_state) (target : str) :
  args_create_yourself args = Some target ->
  args_create_yourself args' = Some target ->
  target <> [] ->
  let r := main expanduser_resolve ThreadingHTTPServer args env st s in
  let r' := main expanduser_resolve ThreadingHTTPServer args' env' st s' in
  calls r = [] /\ service r = s /\ handler_assistant r = None
  /\ files r = (create_yourself expanduser_resolve module_dir target st).2
  /\ ending r' = ending r /\ stdout r' = stdout r /\ files r' = files r.
Proof.
  intros Hc Hc' Hne. unfold main. rewrite Hc, Hc'.
  destruct target as [|c t]; [done | ]. cbn [truthy default].
  by destruct (create_yourself _ _ _ st) as [[e | d] st1].
Qed.

(** X19. Without a prompt (none, or the empty string), without
    [--serve] and without a scaffold target, [main] prints nothing, calls
    no service and touches no file.  It ends with [SystemExit] and the
    usage message, unless the client constructor raised first: the
    engine is built before the prompt is looked at. *)
Theorem missing_prompt_exits (args : Namespace) (env : Environ) (st : Store)
    (s : svc_state) :
  truthy (args_create_yourself args) = false ->
  args_serve args = false ->
  truthy (args_prompt args) = false ->
  let r := main expanduser_resolve ThreadingHTTPServer args env st s in
  calls r = [] /\ stdout r = [] /\ files r = st /\ service r = s
  /\ match _get_openai_client env with
     | inl e => ending r = Raises e
     | inr _ => ending r = SystemExit (lit "Provide a prompt or use --serve to launch the web UI.")
     end.
Proof.
  intros Hc Hs Hp. unfold main, CodexLite_init. rewrite Hc, Hs, Hp.
  by destruct (_get_openai_client env).
Qed.

(** X20. On the command line an engine without a client prints the
    offline answer for the prompt exactly as typed: the prompt is not
    stripped as the HTTP route strips it, so a prompt of blanks is
    answered too.  Nothing else is printed, no call is made, no file is
    touched. *)
Theorem command_line_offline_answer (args : Namespace) (env : Environ) (st : Store)
    (s : svc_state) (p : str) :
  truthy (args_create_yourself args) = false ->
  args_serve args = false ->
  args_prompt args = Some p ->
  p <> [] ->
  _get_openai_client env = inr None ->
  main expanduser_resolve ThreadingHTTPServer args env st s
  = {| ending := Returns; stdout := [_offline_answer p]; calls := []; files := st;
       service := s; handler_assistant := None |}.
Proof.
  intros Hc Hs Hp Hne Hcl. unfold main, CodexLite_init. rewrite Hc, Hs, Hp, Hcl.
  destruct p as [|c t]; [done | ]. reflexivity.
Qed.

(** X21. Whenever [main] gets as far as serving, the web directory
    exists, [--serve] was given, the server listens on the host and port
    of the arguments, and the handler holds the engine built from the
    arguments and the environment.  Hence a server started from the
    command line never answers a POST with a status of the 5xx range:
    the reply [assistant not configured] cannot occur. *)
Theorem started_server_has_an_engine (args : Namespace) (env : Environ) (st : Store)
    (s : svc_state) (host : str) (port : Z) :
  let r := main expanduser_resolve ThreadingHTTPServer args env st s in
  ending r = Serves host port ->
  fs_exists WEB_DIR = inr true
  /\ args_serve args = true /\ host = args_host args /\ port = args_port args
  /\ calls r = [] /\ files r = st /\ service r = s
  /\ (exists a, handler_assistant r = Some a /\ CodexLite_init (config_of args) env = inr a)
  /\ forall req s', ~ server_error_sent (trace_of (do_POST (handler_assistant r) req s')).
Proof.
  cbn zeta. unfold main. fold (config_of args).
  destruct (truthy (args_create_yourself args)).
  { by destruct (create_yourself _ _ _ st) as [[e | d] st1]. }
  destruct (CodexLite_init (config_of args) env) as [e | a]; [done | ].
  destruct (args_serve args).
  2: { destruct (truthy (args_prompt args)); [ | done]. cbn [negb].
       by destruct (run _ s) as [[log [e | text]] s1]. }
  unfold run_server. destruct (fs_exists WEB_DIR) as [e | [ | ]]; [done | | done].
  destruct (ThreadingHTTPServer _ _) as [e | []]; [done | ]. cbn.
  intros [= <- <-]. repeat match goal with |- _ /\ _ => split end; try done.
  - by exists a.
  - intros req s'. by apply configured_post_no_server_error.
Qed.
End CommandLineFacts.

(* ================================================================== *)
(** * The further properties on concrete runs *)
(* ================================================================== *)

(** The sample installation: the script is read at its place in the bundle. *)
Lemma file_accesses_witness :
  let p := abs_path "/srv/codex/web/assets/app.js" in
  (In (path_read_bytes p) (@do_GET sample_fs (lit "/assets/app.js")).1
   /\ accessed_path (path_read_bytes p) = Some p)
  /\ within (@WEB_DIR sample_fs) p.
Proof.
  intros p.
  assert (Hin : In (path_read_bytes p) (@do_GET sample_fs (lit "/assets/app.js")).1).
  { assert (Hrun : (@do_GET sample_fs (lit "/assets/app.js")).1
                   = [ path_resolve p; path_exists p; path_is_dir p; path_read_bytes p;
                       send_response OK;
                       send_header (lit "Content-Type")
                                   (lit "application/javascript; charset=utf-8");
                       send_header (lit "Content-Length") (lit "10");
                       end_headers;
                       wfile_write (blit "let x = 1;") ])
      by (vm_compute; reflexivity).
    rewrite Hrun. do 3 right. by left. }
  split; [by split | ].
  exact (@file_accesses_stay_in_root sample_fs (lit "/assets/app.js") _ p Hin eq_refl).
Defined.

(** The sample installation: the path handed to resolution for a script. *)
Lemma get_joins_witness :
  let p := truediv (@WEB_DIR sample_fs) (lit "assets/app.js") in
  In (path_resolve p) (@do_GET sample_fs (lit "/assets/app.js")).1
  /\ dslash p = dslash (@WEB_DIR sample_fs)
  /\ exists rel, parts p = parts (@WEB_DIR sample_fs) ++ parse_parts rel
                 /\ (rel = lit "index.html"
                     \/ rel = lstrip_chars (lit "/") (lit "/assets/app.js")).
Proof.
  intros p.
  assert (Hin : In (path_resolve p) (@do_GET sample_fs (lit "/assets/app.js")).1).
  { assert (Hhd : hd_error (@do_GET sample_fs (lit "/assets/app.js")).1
                  = Some (path_resolve p)) by (vm_compute; reflexivity).
    destruct (@do_GET sample_fs (lit "/assets/app.js")).1 as [|ev t]; [discriminate | ].
    injection Hhd as ->. by left. }
  split; [exact Hin | ].
  exact (@get_joins_below_root sample_fs (lit "/assets/app.js") p Hin).
Defined.

(** The sample installation: its index page. *)
Lemma index_witness :
  let index := truediv (@WEB_DIR sample_fs) (lit "index.html") in
  let body := blit "<html></html>" in
  (@fs_resolve sample_fs index = inr index
   /\ @fs_exists sample_fs index = inr true
   /\ @fs_is_dir sample_fs index = inr false
   /\ @fs_read_bytes sample_fs index = inr body)
  /\ @do_GET sample_fs (lit "/") = @do_GET sample_fs (lit "/index.html")
  /\ @do_GET sample_fs (lit "/")
     = ([ path_resolve index; path_exists index; path_is_dir index;
          path_read_bytes index;
          send_response OK;
          send_header (lit "Content-Type") (lit "text/html; charset=utf-8");
          send_header (lit "Content-Length") (str_of_len body);
          end_headers;
          wfile_write body ], inr tt).
Proof.
  intros index body.
  assert (H1 : @fs_resolve sample_fs index = inr index) by (vm_compute; reflexivity).
  assert (H2 : @fs_exists sample_fs index = inr true) by (vm_compute; reflexivity).
  assert (H3 : @fs_is_dir sample_fs index = inr false) by (vm_compute; reflexivity).
  assert (H4 : @fs_read_bytes sample_fs index = inr body) by (vm_compute; reflexivity).
  split; [done | ].
  exact (@index_is_served_as_html sample_fs body H1 H2 H3 H4).
Defined.

(** The sample installation resolves without links; a request for a
    script is not refused. *)
Lemma request_without_dotdot_witness :
  ((forall p, @fs_resolve sample_fs p = inr (normpath p))
   /\ no_dotdot (parts (@module_dir sample_fs))
   /\ no_dotdot (parse_parts (lstrip_chars (lit "/") (lit "/assets/app.js"))))
  /\ ~ In FORBIDDEN (statuses (@do_GET sample_fs (lit "/assets/app.js")).1).
Proof.
  assert (H1 : forall p, @fs_resolve sample_fs p = inr (normpath p)) by reflexivity.
  assert (H2 : no_dotdot (parts (@module_dir sample_fs))).
  { change (parts (@module_dir sample_fs)) with [lit "srv"; lit "codex"].
    repeat constructor; apply str_eqb_neq; vm_compute; reflexivity. }
  assert (H3 : no_dotdot (parse_parts (lstrip_chars (lit "/") (lit "/assets/app.js")))).
  { change (parse_parts (lstrip_chars (lit "/") (lit "/assets/app.js")))
      with [lit "assets"; lit "app.js"].
    repeat constructor; apply str_eqb_neq; vm_compute; reflexivity. }
  split; [done | ].
  exact (@request_without_dotdot_is_not_forbidden sample_fs (lit "/assets/app.js") H1 H2 H3).
Defined.

(** A Content-Length that is not a number, and a body that is not UTF-8. *)
Lemma body_failures_witness :
  let bad_length := {| path := lit "/api/ask"; content_length := Some (lit "abc");
                       rfile := jlit "{'prompt': 'hi'}" |} in
  let bad_bytes := ask_request [Byte.xff] in
  (path bad_length = lit "/api/ask"
   /\ @py_int reference_lib (lit "abc") = inl ValueError
   /\ path bad_bytes = lit "/api/ask"
   /\ @reads_body reference_lib bad_bytes 1 [Byte.xff]
   /\ loads_bytes [Byte.xff] = inl UnicodeDecodeError)
  /\ @do_POST reference_lib echo_service (Some sample_engine) bad_length 0
     = (([], inl ValueError), 0)
  /\ @do_POST reference_lib echo_service (Some sample_engine) bad_bytes 0
     = (([rfile_read 1], inl UnicodeDecodeError), 0).
Proof.
  intros bad_length bad_bytes.
  assert (Hint : @py_int reference_lib (lit "abc") = inl ValueError)
    by (vm_compute; reflexivity).
  assert (Hreq : @reads_body reference_lib bad_bytes 1 [Byte.xff])
    by (repeat split; vm_compute; reflexivity).
  assert (Hdec : loads_bytes [Byte.xff] = inl UnicodeDecodeError)
    by (vm_compute; reflexivity).
  split; [by repeat split | ]. split.
  - exact (proj1 (@body_failures_escape reference_lib echo_service sample_engine
                    bad_length 0 eq_refl) ValueError Hint).
  - refine (proj2 (proj2 (@body_failures_escape reference_lib echo_service sample_engine
                            bad_bytes 0 eq_refl)) 1%Z [Byte.xff] UnicodeDecodeError Hreq Hdec _).
    discriminate.
Defined.

(** A request without the header: the body waiting on the connection is
    not read. *)
Lemma missing_content_length_witness :
  let req := {| path := lit "/api/ask"; content_length := None;
                rfile := jlit "{'prompt': 'hi'}" |} in
  (path req = lit "/api/ask"
   /\ content_length req = None
   /\ @py_int reference_lib (lit "0") = inr 0%Z
   /\ loads_bytes [] = inl JSONDecodeError)
  /\ exists body,
       encode_utf8 (json_dumps [(lit "error", lit "invalid JSON body")]) = inr body
       /\ @do_POST reference_lib echo_service (Some sample_engine) req 0
          = ((rfile_read 0 :: json_response BAD_REQUEST body, inr tt), 0).
Proof.
  intros req.
  assert (Hint : @py_int reference_lib (lit "0") = inr 0%Z) by (vm_compute; reflexivity).
  assert (Hempty : loads_bytes [] = inl JSONDecodeError) by (vm_compute; reflexivity).
  split; [by repeat split | ].
  exact (@missing_content_length_reads_nothing reference_lib echo_service sample_engine
           req 0 eq_refl eq_refl Hint Hempty).
Defined.

(** An engine without a client behind the handler. *)
Lemma offline_engine_witness :
  let raw := jlit "{'prompt': 'hi'}" in
  let d : gmap str pyval := {[ lit "prompt" := PyStr (lit "hi") ]} in
  (@reads_body reference_lib (ask_request raw) 16 raw
   /\ loads_bytes raw = inr (PyDict d)
   /\ @prompt_of reference_lib d = lit "hi")
  /\ exists body,
       encode_utf8 (json_dumps [(lit "answer", _offline_answer (lit "hi"))]) = inr body
       /\ @do_POST reference_lib echo_service
            (Some {| config := LiteConfig_default; client := None |}) (ask_request raw) 0
          = ((rfile_read 16 :: json_response OK body, inr tt), 0)
       /\ substring (lit "hi") (_offline_answer (lit "hi")).
Proof.
  intros raw d.
  assert (Hreq : @reads_body reference_lib (ask_request raw) 16 raw)
    by (repeat split; vm_compute; reflexivity).
  assert (Hd : loads_bytes raw = inr (PyDict d)) by (vm_compute; reflexivity).
  assert (Hp : @prompt_of reference_lib d = lit "hi") by (vm_compute; reflexivity).
  split; [by repeat split | ].
  rewrite <- Hp.
  apply (@offline_engine_answers_200 reference_lib echo_service LiteConfig_default
           (ask_request raw) 0 16 raw d Hreq Hd).
  rewrite Hp. vm_compute. discriminate.
Defined.

(** A service whose third call fails: two calls are answered, the third
    ends the run. *)
Lemma failing_stage_witness :
  let svc := failing_service 2 in
  let log := (@run svc str (answer sample_engine (lit "hi")) 0).1.1 in
  @run svc str (answer sample_engine (lit "hi")) 0
  = (log, inl (APIError (lit "upstream failure")), 3)
  /\ exists pre kw,
       log = pre ++ [(kw, inl (APIError (lit "upstream failure")))]
       /\ Forall (fun c => exists r, c.2 = inr r) pre
       /\ length pre <= 3.
Proof.
  intros svc log.
  assert (Hrun : @run svc str (answer sample_engine (lit "hi")) 0
                 = (log, inl (APIError (lit "upstream failure")), 3))
    by (vm_compute; reflexivity).
  split; [exact Hrun | ].
  exact (@failing_stage_ends_pipeline svc sample_engine (lit "hi") 0 3 log
           (APIError (lit "upstream failure")) Hrun).
Defined.

(** The echoing service: the second call of a run. *)
Lemma every_call_witness :
  let out := @run echo_service str (answer sample_engine (lit "hi")) 0 in
  exists kw o,
    out.1.1 !! 1 = Some (kw, o)
    /\ kw_model kw = lit "gpt-4o-mini"
    /\ exists m, kw_input kw = [{| role := system; content := SYSTEM_PROMPT |}; m]
                 /\ role m = user.
Proof.
  intros out.
  destruct (out.1.1 !! 1) as [[kw o] | ] eqn:Hcall.
  2: { exfalso. vm_compute in Hcall. discriminate. }
  exists kw, o. split; [reflexivity | ].
  apply (@every_call_has_model_and_system_prompt echo_service sample_engine (lit "hi")
           0 out.2 out.1.1 out.1.2 kw o).
  - unfold out. by destruct (@run echo_service str _ 0) as [[? ?] ?].
  - eapply list_elem_of_In, list_elem_of_lookup_2, Hcall.
Defined.

(** Two prompts with one offline answer. *)
Lemma offline_answer_injective_witness :
  _offline_answer (lit "hi") = _offline_answer (lit "h" ++ lit "i")
  /\ lit "hi" = lit "h" ++ lit "i".
Proof.
  assert (H : _offline_answer (lit "hi") = _offline_answer (lit "h" ++ lit "i"))
    by (vm_compute; reflexivity).
  split; [exact H | exact (offline_answer_is_injective _ _ H)].
Defined.

(** An error payload read back. *)
Lemma response_body_witness :
  (Forall scalar (lit "error") /\ Forall scalar (lit "prompt is required"))
  /\ exists body,
       In (wfile_write body) (_send_json [(lit "error", lit "prompt is required")] 400).1
       /\ loads_bytes body
          = inr (PyDict {[ lit "error" := PyStr (lit "prompt is required") ]}).
Proof.
  assert (Hk : Forall scalar (lit "error"))
    by (apply ascii_scalar, ascii_check; vm_compute; reflexivity).
  assert (Hv : Forall scalar (lit "prompt is required"))
    by (apply ascii_scalar, ascii_check; vm_compute; reflexivity).
  split; [by split | ].
  exact (response_body_reads_back (lit "error") (lit "prompt is required") 400 Hk Hv).
Defined.

(** The echoing service behind the handler: four calls, then the answer. *)
Lemma answered_request_witness :
  let raw := jlit "{'prompt': 'hi'}" in
  let d : gmap str pyval := {[ lit "prompt" := PyStr (lit "hi") ]} in
  let out := @run echo_service str (answer sample_engine (lit "hi")) 0 in
  let text := match out.1.2 with inr t => t | inl _ => [] end in
  (@reads_body reference_lib (ask_request raw) 16 raw
   /\ loads_bytes raw = inr (PyDict d)
   /\ @prompt_of reference_lib d = lit "hi"
   /\ out = (out.1.1, inr text, 4)
   /\ length out.1.1 = 4
   /\ Forall scalar text)
  /\ exists body,
       @do_POST reference_lib echo_service (Some sample_engine) (ask_request raw) 0
       = ((rfile_read 16 :: map responses_create_call out.1.1 ++ json_response OK body,
           inr tt), 4)
       /\ loads_bytes body = inr (PyDict {[ lit "answer" := PyStr text ]}).
Proof.
  intros raw d out text.
  assert (Hreq : @reads_body reference_lib (ask_request raw) 16 raw)
    by (repeat split; vm_compute; reflexivity).
  assert (Hd : loads_bytes raw = inr (PyDict d)) by (vm_compute; reflexivity).
  assert (Hp : @prompt_of reference_lib d = lit "hi") by (vm_compute; reflexivity).
  assert (Hrun : out = (out.1.1, inr text, 4)) by (vm_compute; reflexivity).
  assert (Hlen : length out.1.1 = 4) by (vm_compute; reflexivity).
  assert (Htext : Forall scalar text)
    by (apply ascii_scalar, ascii_check; vm_compute; reflexivity).
  split; [by repeat split | ].
  apply (@answered_request_reads_back reference_lib echo_service sample_engine
           (ask_request raw) 0 4 16 raw d out.1.1 text Hreq Hd); [ | | exact Htext].
  - rewrite Hp. vm_compute. discriminate.
  - rewrite Hp. exact Hrun.
Defined.

(** The sample project scaffolded into a new directory. *)
Lemma scaffold_copies_witness :
  let root := abs_path "/srv/codex" in
  let destination := abs_path "/home/me/copy" in
  let out := create_yourself sample_resolve root (lit "/home/me/copy")
                             (store_of sample_project) in
  out = (inr destination, out.2)
  /\ sample_resolve (lit "/home/me/copy") = inr destination
  /\ Forall (fun item =>
               exists data,
                 store_lookup (store_of sample_project) (truediv root item.2)
                 = Some (File data)
                 /\ store_lookup out.2 (truediv destination item.1) = Some (File data))
            TEMPLATE_FILES.
Proof.
  intros root destination out.
  assert (Hres : out.1 = inr destination) by (vm_compute; reflexivity).
  assert (Hrun : out = (inr destination, out.2)).
  { rewrite <- Hres. by destruct out. }
  split; [exact Hrun | ].
  exact (scaffold_copies_templates sample_resolve root (lit "/home/me/copy") destination
           (store_of sample_project) out.2 Hrun).
Defined.

(** The same run leaves the project's own file as it was. *)
Lemma scaffold_keeps_witness :
  let root := abs_path "/srv/codex" in
  let q := abs_path "/srv/codex/README.md" in
  let st := store_of sample_project in
  let out := create_yourself sample_resolve root (lit "/home/me/copy") st in
  (out = (out.1, out.2)
   /\ store_lookup st q = Some (File (blit "# Codex-Lite"))
   /\ forall destination, sample_resolve (lit "/home/me/copy") = inr destination ->
                          ~ In q (targets_of destination TEMPLATE_FILES))
  /\ store_lookup out.2 q = Some (File (blit "# Codex-Lite")).
Proof.
  intros root q st out.
  assert (Hrun : out = (out.1, out.2)) by (by destruct out).
  assert (Hq : store_lookup st q = Some (File (blit "# Codex-Lite")))
    by (vm_compute; reflexivity).
  assert (Hout : forall destination,
             sample_resolve (lit "/home/me/copy") = inr destination ->
             ~ In q (targets_of destination TEMPLATE_FILES)).
  { intros destination [= <-] Hin.
    assert (Hex : existsb (Path_eqb q)
                    (targets_of (normpath (truediv {| dslash := false; parts := [] |}
                                                   (lit "/home/me/copy")))
                                TEMPLATE_FILES) = true).
    { apply existsb_exists. exists q. split; [exact Hin | by apply Path_eqb_eq]. }
    vm_compute in Hex. discriminate. }
  split; [by repeat split | ].
  exact (proj1 (scaffold_keeps_what_exists sample_resolve root (lit "/home/me/copy")
                  out.1 st out.2 q Hrun) _ Hq Hout).
Defined.

(** A project directory without the program's file. *)
Lemma scaffold_without_source_witness :
  let root := abs_path "/srv/codex" in
  let st := store_of bare_project in
  let out := create_yourself sample_resolve root (lit "/home/me/copy") st in
  ((forall data, store_lookup st (truediv root (lit "Mini_codex.py")) <> Some (File data))
   /\ out = (out.1, out.2))
  /\ (exists e, out.1 = inl e)
  /\ (forall q n, store_lookup st q = Some n -> store_lookup out.2 q = Some n)
  /\ (forall q d, store_lookup out.2 q = Some (File d) -> store_lookup st q = Some (File d)).
Proof.
  intros root st out.
  assert (Hmiss : forall data,
             store_lookup st (truediv root (lit "Mini_codex.py")) <> Some (File data)).
  { intros data H. vm_compute in H. discriminate. }
  assert (Hrun : out = (out.1, out.2)) by (by destruct out).
  split; [by split | ].
  exact (scaffold_without_source_writes_nothing sample_resolve root (lit "/home/me/copy")
           out.1 st out.2 Hmiss Hrun).
Defined.

(** The scaffold asked for alone, and together with a prompt and
    [--serve] in an environment where no engine can be built. *)
Lemma scaffold_flag_witness :
  let target := lit "/home/me/copy" in
  let args := sample_args None false (Some target) in
  let args' := sample_args (Some (lit "hi")) true (Some target) in
  let st := store_of sample_project in
  let r := @main sample_fs echo_service sample_resolve sample_server
                 args no_key_environ st 0 in
  let r' := @main sample_fs echo_service sample_resolve sample_server
                  args' broken_environ st 7 in
  (args_create_yourself args = Some target
   /\ args_create_yourself args' = Some target
   /\ target <> [])
  /\ ending r = Returns
  /\ calls r = [] /\ service r = 0 /\ handler_assistant r = None
  /\ files r = (create_yourself sample_resolve (@module_dir sample_fs) target st).2
  /\ ending r' = ending r /\ stdout r' = stdout r /\ files r' = files r.
Proof.
  intros target args args' st r r'.
  assert (Hne : target <> []) by (intros H; vm_compute in H; discriminate).
  split; [by repeat split | ].
  split; [vm_compute; reflexivity | ].
  exact (@scaffold_flag_runs_alone sample_fs echo_service sample_resolve sample_server
           args args' no_key_environ broken_environ st 0 7 target eq_refl eq_refl Hne).
Defined.

(** An empty command line, in an environment without a key. *)
Lemma missing_prompt_witness :
  let args := sample_args None false None in
  let st := store_of sample_project in
  let r := @main sample_fs echo_service sample_resolve sample_server
                 args no_key_environ st 0 in
  (truthy (args_create_yourself args) = false
   /\ args_serve args = false
   /\ truthy (args_prompt args) = false
   /\ _get_openai_client no_key_environ = inr None)
  /\ calls r = [] /\ stdout r = [] /\ files r = st /\ service r = 0
  /\ ending r = SystemExit (lit "Provide a prompt or use --serve to launch the web UI.").
Proof.
  intros args st r. split; [by repeat split | ].
  exact (@missing_prompt_exits sample_fs echo_service sample_resolve sample_server
           args no_key_environ st 0 eq_refl eq_refl eq_refl).
Defined.

(** A prompt of blanks on the command line, without a key. *)
Lemma command_line_offline_witness :
  let args := sample_args (Some (lit "  ")) false None in
  let st := store_of sample_project in
  (truthy (args_create_yourself args) = false
   /\ args_serve args = false
   /\ args_prompt args = Some (lit "  ")
   /\ lit "  " <> []
   /\ _get_openai_client no_key_environ = inr None)
  /\ @main sample_fs echo_service sample_resolve sample_server args no_key_environ st 0
     = @Build_Run echo_service Returns [_offline_answer (lit "  ")] [] st 0 None.
Proof.
  intros args st.
  assert (Hne : lit "  " <> []) by (intros H; vm_compute in H; discriminate).
  split; [by repeat split | ].
  exact (@command_line_offline_answer sample_fs echo_service sample_resolve sample_server
           args no_key_environ st 0 (lit "  ") eq_refl eq_refl eq_refl Hne eq_refl).
Defined.

(** [--serve] on the sample installation. *)
Lemma started_server_witness :
  let args := sample_args None true None in
  let st := store_of sample_project in
  let r := @main sample_fs echo_service sample_resolve sample_server
                 args no_key_environ st 0 in
  ending r = Serves (lit "127.0.0.1") 8000
  /\ @fs_exists sample_fs (@WEB_DIR sample_fs) = inr true
  /\ args_serve args = true
  /\ calls r = [] /\ files r = st /\ service r = 0
  /\ (exists a, handler_assistant r = Some a
                /\ CodexLite_init (config_of args) no_key_environ = inr a)
  /\ forall req s',
       ~ server_error_sent (trace_of (@do_POST reference_lib echo_service
                                         (handler_assistant r) req s')).
Proof.
  intros args st r.
  assert (Hend : ending r = Serves (lit "127.0.0.1") 8000) by (vm_compute; reflexivity).
  split; [exact Hend | ].
  destruct (@started_server_has_an_engine sample_fs reference_lib echo_service
              sample_resolve sample_server args no_key_environ st 0
              (lit "127.0.0.1") 8000 Hend)
    as (Hweb & Hserve & _ & _ & Hcalls & Hfiles & Hsvc & Hengine & Hno500).
  repeat match goal with |- _ /\ _ => split end; assumption.
Defined.
